(** * PyPowerSchool: the request layer of [pypowerschool.powerschool.Client]

    A shallow embedding of [src/pypowerschool/powerschool.py]: the token
    manager ([_access_token], [_access_token_expired]), the request methods
    ([fetch_item], [fetch_items], [fetch_metadata], [post_data],
    [powerquery], [resource_count]) and the singleton construction
    ([__new__], [__init__]).

    Python values that come out of [response.json()] are modelled by the
    type [json]; statements that raise are modelled by the [Raise] result;
    the clock and the HTTP server are an explicit environment, and every
    request that the client issues is appended to a log. *)

From Stdlib Require Import String Ascii List ZArith QArith Bool Arith Lia.
From Stdlib Require Import DecimalString DecimalNat.
Import ListNotations.

Local Open Scope string_scope.
Local Open Scope list_scope.
Local Close Scope Q_scope.
Local Open Scope Z_scope.

Set Implicit Arguments.
Set Warnings "-register-all".

(* ================================================================== *)
(** ** Python values obtained from JSON *)

(** A Python [float]: a finite double is an exact rational. *)
Inductive pyfloat : Type :=
| Finite (q : Q)
| PosInf
| NegInf
| NaN.

(** The value of [json.loads]: [None], [bool], [int], [float], [str],
    [list], and [dict] with string keys in insertion order. *)
Inductive json : Type :=
| JNull
| JBool (b : bool)
| JInt (z : Z)
| JFloat (f : pyfloat)
| JStr (s : string)
| JArr (l : list json)
| JObj (kv : list (string * json)).

(** The exception classes the code can meet. *)
Inductive exn : Type :=
| KeyError
| TypeError
| IndexError
| AttributeError
| ValueError
| OverflowError
| JSONDecodeError
| RequestError.

Inductive result (A : Type) : Type :=
| Ok (a : A)
| Raise (e : exn).
Arguments Ok {A} a.
Arguments Raise {A} e.

(** *** Dictionaries: association lists in insertion order *)

Fixpoint dict_get {V : Type} (k : string) (d : list (string * V)) : option V :=
  match d with
  | [] => None
  | (k', v) :: d' => if String.eqb k' k then Some v else dict_get k d'
  end.

(** [d[k] = v]: overwrite in place, or append a new key at the end. *)
Fixpoint dict_set {V : Type} (k : string) (v : V) (d : list (string * V))
  : list (string * V) :=
  match d with
  | [] => [(k, v)]
  | (k', v') :: d' =>
      if String.eqb k' k then (k, v) :: d' else (k', v') :: dict_set k v d'
  end.

(** *** Subscripting, [.get], comparison, [int()], [list.extend] *)

(** [v[k]] for a string key [k]. *)
Definition py_getitem (v : json) (k : string) : result json :=
  match v with
  | JObj kv => match dict_get k kv with
               | Some x => Ok x
               | None => Raise KeyError
               end
  | _ => Raise TypeError
  end.

(** [v[i]] for a non-negative integer index [i]. *)
Definition py_getindex (v : json) (i : nat) : result json :=
  match v with
  | JArr l => match nth_error l i with
              | Some x => Ok x
              | None => Raise IndexError
              end
  | JStr s => match String.get i s with
              | Some c => Ok (JStr (String c EmptyString))
              | None => Raise IndexError
              end
  | JObj _ => Raise KeyError
  | _ => Raise TypeError
  end.

(** [v.get(k, default)]: only a [dict] has the method. *)
Definition py_get (v : json) (k : string) (default : json) : result json :=
  match v with
  | JObj kv => match dict_get k kv with
               | Some x => Ok x
               | None => Ok default
               end
  | _ => Raise AttributeError
  end.

Definition Z_of_bool (b : bool) : Z := if b then 1 else 0.

(** [v == n] for an [int] literal [n]. *)
Definition py_eq_int (v : json) (n : Z) : bool :=
  match v with
  | JInt z => Z.eqb z n
  | JBool b => Z.eqb (Z_of_bool b) n
  | JFloat (Finite q) => Qeq_bool q (inject_Z n)
  | _ => false
  end.

(** [v == s] for a [str] literal [s]. *)
Definition py_eq_str (v : json) (s : string) : bool :=
  match v with
  | JStr t => String.eqb t s
  | _ => false
  end.

(** [n < v] for the [int] [n = len(data)]; ordering an [int] against
    [None], [str], [list] or [dict] raises [TypeError]. *)
Definition py_len_lt (n : nat) (v : json) : result bool :=
  match v with
  | JInt z => Ok (Z.ltb (Z.of_nat n) z)
  | JBool b => Ok (Z.ltb (Z.of_nat n) (Z_of_bool b))
  | JFloat (Finite q) => Ok (negb (Qle_bool q (inject_Z (Z.of_nat n))))
  | JFloat PosInf => Ok true
  | JFloat NegInf => Ok false
  | JFloat NaN => Ok false
  | _ => Raise TypeError
  end.

(** Truth value of [if v:]. *)
Definition py_truthy (v : json) : bool :=
  match v with
  | JNull => false
  | JBool b => b
  | JInt z => negb (Z.eqb z 0)
  | JFloat (Finite q) => negb (Qeq_bool q (inject_Z 0))
  | JFloat _ => true
  | JStr s => negb (String.eqb s "")
  | JArr l => match l with [] => false | _ => true end
  | JObj kv => match kv with [] => false | _ => true end
  end.

Fixpoint chars (s : string) : list json :=
  match s with
  | EmptyString => []
  | String c s' => JStr (String c EmptyString) :: chars s'
  end.

(** The elements [data.extend(v)] appends: the items of a [list], the
    characters of a [str], the keys of a [dict]; other values are not
    iterable. *)
Definition py_iter (v : json) : result (list json) :=
  match v with
  | JArr l => Ok l
  | JStr s => Ok (chars s)
  | JObj kv => Ok (map (fun p => JStr (fst p)) kv)
  | _ => Raise TypeError
  end.

(** [str(n)] for a non-negative [int]. *)
Definition str_of_nat (n : nat) : string :=
  NilEmpty.string_of_uint (Nat.to_uint n).

(** *** [str.rfind] and slicing *)

Fixpoint rfind_from (c : ascii) (s : string) (i : Z) (last : Z) : Z :=
  match s with
  | EmptyString => last
  | String a s' => rfind_from c s' (i + 1) (if Ascii.eqb a c then i else last)
  end.

(** [s.rfind(c)]: the highest index of [c] in [s], or [-1]. *)
Definition rfind (c : ascii) (s : string) : Z := rfind_from c s 0 (-1).

Fixpoint drop (n : nat) (s : string) : string :=
  match n, s with
  | O, _ => s
  | S n', String _ s' => drop n' s'
  | S _, EmptyString => EmptyString
  end.

(** [s[i:]]; a negative [i] counts from the end. *)
Definition slice_from (i : Z) (s : string) : string :=
  if Z.ltb i 0
  then drop (Z.to_nat (Z.max 0 (Z.of_nat (String.length s) + i))) s
  else drop (Z.to_nat i) s.

Definition slash : ascii := "/"%char.

(** [resource_endpoint[resource_endpoint.rfind('/') + 1:]] *)
Definition resource_name (resource_endpoint : string) : string :=
  slice_from (rfind slash resource_endpoint + 1) resource_endpoint.

Fixpoint contains (c : ascii) (s : string) : bool :=
  match s with
  | EmptyString => false
  | String a s' => Ascii.eqb a c || contains c s'
  end.

(* ================================================================== *)
(** ** The client object, the outside world, and the effect monad *)

(** [datetime] values are microseconds since [datetime.min]. *)
Definition datetime := Z.

Definition datetime_max : Z := 3652059 * 86400 * 1000000.
Definition timedelta_max_days : Z := 999999999.

(** [now + datetime.timedelta(seconds=n)]: [timedelta] refuses more than
    999999999 days, and the sum must stay a representable [datetime]. *)
Definition add_seconds (now : datetime) (n : Z) : result datetime :=
  if Z.ltb timedelta_max_days (Z.abs (n / 86400)) then Raise OverflowError
  else
    let t := now + n * 1000000 in
    if Z.leb 0 t && Z.ltb t datetime_max then Ok t else Raise OverflowError.

Inductive method : Type := GET | POST.

Record request : Type := mkRequest {
  meth : method;
  url : string;
  req_headers : list (string * string);
  req_params : list (string * json);
  req_body : option string
}.

(** What [httpx] hands back: a response object, whose [.json()] is the
    parsed body ([None] when the body is not JSON), or a raised
    [httpx.RequestError]. *)
Record response : Type := mkResponse { content : option json }.

Inductive http_result : Type :=
| Responds (r : response)
| Fails.

(** The environment of a run: the [n]-th reading of [datetime.now()] and
    the server's answer to the [n]-th request. *)
Record env : Type := mkEnv {
  clock : nat -> datetime;
  server : nat -> request -> http_result
}.

(** Lines written to [sys.stderr]. *)
Inductive diag : Type :=
| DiagAuthError (auth_error : json)
| DiagInit (e : exn)
| DiagItems (e : exn)
| DiagPost (e : exn)
| DiagCount (e : exn)
| DiagValidation (message errors : json)
| DiagMessage (message : json)
| DiagPowerQuery (e : exn).

Record world : Type := mkWorld {
  ticks : nat;
  sent : list request;
  stderr : list diag
}.

(** [self.access_token_response]: the token endpoint's dictionary together
    with the value stored under ["expiration_datetime"]. *)
Record token_response : Type := mkToken {
  token_body : list (string * json);
  expiration_datetime : datetime
}.

(** The attributes of a [Client] object.  [headers] and
    [access_token_response] may be absent ([hasattr] is false); the other
    three are assigned first thing by [__init__]. *)
Record client : Type := mkClient {
  base_url : string;
  client_id : string;
  client_secret : string;
  headers : option (list (string * string));
  access_token_response : option token_response
}.

Record state : Type := mkState {
  self : client;
  outside : world
}.

Definition M (A : Type) : Type := env -> state -> result A * state.

Definition ret {A : Type} (a : A) : M A := fun _ st => (Ok a, st).

Definition raise {A : Type} (e : exn) : M A := fun _ st => (Raise e, st).

Definition bind {A B : Type} (m : M A) (k : A -> M B) : M B :=
  fun E st =>
    match m E st with
    | (Ok a, st') => k a E st'
    | (Raise e, st') => (Raise e, st')
    end.

(** [try: m except Exception as e: handler e] *)
Definition try_except {A : Type} (m : M A) (handler : exn -> M A) : M A :=
  fun E st =>
    match m E st with
    | (Ok a, st') => (Ok a, st')
    | (Raise e, st') => handler e E st'
    end.

Definition lift {A : Type} (r : result A) : M A := fun _ st => (r, st).

Declare Scope py_scope.
Delimit Scope py_scope with py.
Notation "x <- m ;; k" := (bind m (fun x => k))
  (at level 100, m at next level, right associativity) : py_scope.
Notation "m ;;; k" := (bind m (fun _ => k))
  (at level 100, right associativity) : py_scope.
Local Open Scope py_scope.

(** The state after one more reading of the clock, one more request sent,
    one more line on [stderr], or an assignment to the object. *)
Definition tick (st : state) : state :=
  let w := outside st in
  mkState (self st) (mkWorld (S (ticks w)) (sent w) (stderr w)).

Definition logged (r : request) (st : state) : state :=
  let w := outside st in
  mkState (self st) (mkWorld (ticks w) (sent w ++ [r]) (stderr w)).

Definition warned (d : diag) (st : state) : state :=
  let w := outside st in
  mkState (self st) (mkWorld (ticks w) (sent w) (stderr w ++ [d])).

Definition get_self : M client := fun _ st => (Ok (self st), st).

Definition put_self (c : client) : M unit :=
  fun _ st => (Ok tt, mkState c (outside st)).

(** [datetime.datetime.now()] *)
Definition datetime_now : M datetime :=
  fun E st => (Ok (clock E (ticks (outside st))), tick st).

(** One HTTP request: logged, then answered by the server. *)
Definition httpx_send (r : request) : M response :=
  fun E st =>
    match server E (List.length (sent (outside st))) r with
    | Responds x => (Ok x, logged r st)
    | Fails => (Raise RequestError, logged r st)
    end.

Definition stderr_write (d : diag) : M unit :=
  fun _ st => (Ok tt, warned d st).

(** [response.json()] *)
Definition response_json (r : response) : M json :=
  match content r with
  | Some j => ret j
  | None => raise JSONDecodeError
  end.

(** Reading [self.headers]. *)
Definition get_headers : M (list (string * string)) :=
  c <- get_self ;;
  match headers c with
  | Some h => ret h
  | None => raise AttributeError
  end.

Definition set_headers (h : list (string * string)) : M unit :=
  c <- get_self ;;
  put_self (mkClient (base_url c) (client_id c) (client_secret c)
                     (Some h) (access_token_response c)).

Definition set_access_token_response (t : token_response) : M unit :=
  c <- get_self ;;
  put_self (mkClient (base_url c) (client_id c) (client_secret c)
                     (headers c) (Some t)).

(** What a method hands back to its caller: a parsed JSON value, or an
    [httpx.Response] object. *)
Inductive pyvalue : Type :=
| VJson (j : json)
| VResponse (r : response).

(** *** Loops *)

(** A computation with a loop, run with a bound on the number of passes:
    [None] says that the bound was reached with the loop still going, and
    the state is the one reached by then. *)
Definition L (A : Type) : Type := env -> state -> option (result A) * state.

Inductive step (S R : Type) : Type :=
| Continue (s : S)
| Return (r : R).
Arguments Continue {S R} s.
Arguments Return {S R} r.

(** [while True: body], where [body] either goes round again or returns. *)
Fixpoint while_loop {S R : Type} (fuel : nat) (body : S -> M (step S R)) (s : S)
  : L R :=
  fun E st =>
    match fuel with
    | O => (None, st)
    | Datatypes.S fuel' =>
        match body s E st with
        | (Ok (Continue s'), st') => while_loop fuel' body s' E st'
        | (Ok (Return r), st') => (Some (Ok r), st')
        | (Raise e, st') => (Some (Raise e), st')
        end
    end.

Definition bind_loop {A B : Type} (m : M A) (k : A -> L B) : L B :=
  fun E st =>
    match m E st with
    | (Ok a, st') => k a E st'
    | (Raise e, st') => (Some (Raise e), st')
    end.

(* ================================================================== *)
(** ** The methods of [Client] *)

Section Methods.

(** Library functions the code calls, taken as they are. *)
Variable urljoin : string -> string -> string.      (* urllib.parse.urljoin *)
Variable b64encode : string -> string.              (* base64.b64encode, as text *)
Variable json_dumps : json -> string.               (* json.dumps *)
Variable int_of_str : string -> option Z.           (* int(s); None is ValueError *)
Variable str_of_value : json -> string.             (* str(v) for a non-str v *)

(** [int(v)] *)
Definition py_int (v : json) : result Z :=
  match v with
  | JInt z => Ok z
  | JBool b => Ok (Z_of_bool b)
  | JFloat (Finite q) => Ok (Z.quot (Qnum q) (Zpos (Qden q)))
  | JFloat NaN => Raise ValueError
  | JFloat _ => Raise OverflowError
  | JStr s => match int_of_str s with
              | Some z => Ok z
              | None => Raise ValueError
              end
  | _ => Raise TypeError
  end.

(** [f"{v}"] *)
Definition py_format (v : json) : string :=
  match v with
  | JStr s => s
  | _ => str_of_value v
  end.

(** *** Token manager *)

(** [_access_token].  On the fresh path the clock is read before
    [int(response["expires_in"])] is evaluated, the dictionary is stored
    before ["access_token"] is read from it, and ["Bearer " + tok] needs
    [tok] to be a [str]; on the cached path the f-string formats whatever
    is stored. *)
Definition _access_token : M string :=
  c <- get_self ;;
  cached <-
    match access_token_response c with
    | Some t =>
        now <- datetime_now ;;
        if Z.ltb now (expiration_datetime t) then
          tok <- lift (py_getitem (JObj (token_body t)) "access_token") ;;
          ret (Some ("Bearer " ++ py_format tok)%string)
        else ret None
    | None => ret None
    end ;;
  match cached with
  | Some bearer => ret bearer
  | None =>
      let token_url := (base_url c ++ "/oauth/access_token")%string in
      let credentials := b64encode (client_id c ++ ":" ++ client_secret c)%string in
      let auth_string := ("Basic " ++ credentials)%string in
      let hdrs :=
        [("Content-Type", "application/x-www-form-urlencoded;charset=UTF-8");
         ("Authorization", auth_string)] in
      let data := "grant_type=client_credentials" in
      r <- httpx_send (mkRequest POST token_url hdrs [] (Some data)) ;;
      response <- response_json r ;;
      auth_error <- lift (py_get response "error" JNull) ;;
      (if py_truthy auth_error then stderr_write (DiagAuthError auth_error)
       else ret tt) ;;;
      now <- datetime_now ;;
      expires_in <- lift (py_getitem response "expires_in") ;;
      seconds <- lift (py_int expires_in) ;;
      expiration <- lift (add_seconds now seconds) ;;
      match response with
      | JObj body =>
          set_access_token_response (mkToken body expiration) ;;;
          tok <- lift (py_getitem response "access_token") ;;
          match tok with
          | JStr s => ret ("Bearer " ++ s)%string
          | _ => raise TypeError
          end
      | _ => raise TypeError
      end
  end.

Definition _access_token_expired : M bool :=
  c <- get_self ;;
  match access_token_response c with
  | Some t =>
      now <- datetime_now ;;
      if Z.ltb now (expiration_datetime t) then ret false else ret true
  | None => ret true
  end.

(** [self.headers["Authorization"] = v], the value already computed. *)
Definition set_authorization (v : string) : M unit :=
  h <- get_headers ;;
  set_headers (dict_set "Authorization" v h).

(** The two lines
    [if self._access_token_expired():
         self.headers["Authorization"] = self._access_token()] *)
Definition refresh_if_expired : M unit :=
  expired <- _access_token_expired ;;
  if expired then
    tok <- _access_token ;;
    set_authorization tok
  else ret tt.

(** *** Request methods *)

(** [if x:] for an optional string argument. *)
Definition given (x : option string) : option string :=
  match x with
  | Some s => if String.eqb s "" then None else Some s
  | None => None
  end.

(** The [params] dictionary of [fetch_item] and [fetch_items]. *)
Definition build_params (expansions extensions query : option string)
  : list (string * json) :=
  let params := [] in
  let params := match given expansions with
                | Some s => dict_set "expansions" (JStr s) params
                | None => params
                end in
  let params := match given extensions with
                | Some s => dict_set "extensions" (JStr s) params
                | None => params
                end in
  match given query with
  | Some s => dict_set "q" (JStr s) params
  | None => params
  end.

Definition fetch_item (resource_endpoint : string)
  (expansions extensions query : option string) : M pyvalue :=
  c <- get_self ;;
  let endpoint_url := urljoin (base_url c) resource_endpoint in
  let params := build_params expansions extensions query in
  refresh_if_expired ;;;
  h <- get_headers ;;
  r <- httpx_send (mkRequest GET endpoint_url h params None) ;;
  ret (VResponse r).

Definition resource_count (resource_url : string) (params : list (string * json))
  : M json :=
  let resource_count_url := (resource_url ++ "/count")%string in
  refresh_if_expired ;;;
  try_except
    (h <- get_headers ;;
     data <- httpx_send (mkRequest GET resource_count_url h params None) ;;
     j <- response_json data ;;
     resource <- lift (py_getitem j "resource") ;;
     lift (py_getitem resource "count"))
    (fun e => stderr_write (DiagCount e) ;;; ret (JInt 0)).

(** The loop variables of [fetch_items]. *)
Record items_vars : Type := mkItems {
  iv_params : list (string * json);
  iv_data : list json;
  iv_page_number : nat
}.

(** The [try] block of the loop of [fetch_items]: the extended [data]. *)
Definition fetch_page (endpoint_url key_1 key_2 : string)
  (params : list (string * json)) (data : list json) : M (list json) :=
  h <- get_headers ;;
  requested_resource_response <-
    httpx_send (mkRequest GET endpoint_url h params None) ;;
  j <- response_json requested_resource_response ;;
  outer <- lift (py_getitem j key_1) ;;
  requested_resources <- lift (py_getitem outer key_2) ;;
  match requested_resources with
  | JArr l => ret (data ++ l)
  | _ => ret (data ++ [requested_resources])
  end.

(** One test of the [while] condition and one pass through its body. *)
Definition fetch_items_body (endpoint_url key_1 key_2 : string)
  (resource_count : json) (v : items_vars) : M (step items_vars (list json)) :=
  more <- lift (py_len_lt (List.length (iv_data v)) resource_count) ;;
  if more then
    let params := dict_set "page" (JStr (str_of_nat (iv_page_number v)))
                           (iv_params v) in
    fetched <-
      try_except
        (data <- fetch_page endpoint_url key_1 key_2 params (iv_data v) ;;
         ret (Some data))
        (fun e => stderr_write (DiagItems e) ;;; ret None) ;;
    match fetched with
    | Some data => ret (Continue (mkItems params data (S (iv_page_number v))))
    | None => ret (Return [])
    end
  else ret (Return (iv_data v)).

Definition fetch_items (fuel : nat) (resource_endpoint : string)
  (expansions extensions query : option string) : L (list json) :=
  let resource_name := resource_name resource_endpoint in
  let key_1 := (resource_name ++ "s")%string in
  let key_2 := resource_name in
  bind_loop
    (c <- get_self ;;
     let endpoint_url := urljoin (base_url c) resource_endpoint in
     let params := build_params expansions extensions query in
     n <- resource_count endpoint_url params ;;
     ret (endpoint_url, params, n))
    (fun '(endpoint_url, params, n) =>
       while_loop fuel (fetch_items_body endpoint_url key_1 key_2 n)
                  (mkItems params [] 1%nat)).

Definition fetch_metadata : M json :=
  c <- get_self ;;
  let metadata_endpoint := urljoin (base_url c) "ws/v1/metadata" in
  h <- get_headers ;;
  metadata_response <- httpx_send (mkRequest GET metadata_endpoint h [] None) ;;
  j <- response_json metadata_response ;;
  lift (py_getitem j "metadata").

(** [post_data]; the Python [None] is [JNull]. *)
Definition post_data (endpoint : string) (post_data : json) : M json :=
  refresh_if_expired ;;;
  c <- get_self ;;
  let post_url := urljoin (base_url c) endpoint in
  let data := json_dumps post_data in
  try_except
    (h <- get_headers ;;
     response <- httpx_send (mkRequest POST post_url h [] (Some data)) ;;
     response <- response_json response ;;
     insert_count <- lift (py_getitem response "insert_count") ;;
     success <-
       (if py_eq_int insert_count 1 then
          results <- lift (py_getitem response "result") ;;
          first <- lift (py_getindex results 0) ;;
          status <- lift (py_getitem first "status") ;;
          ret (py_eq_str status "SUCCESS")
        else ret false) ;;
     if success then
       results <- lift (py_getitem response "result") ;;
       first <- lift (py_getindex results 0) ;;
       success_message <- lift (py_getitem first "success_message") ;;
       lift (py_getitem success_message "id")
     else ret JNull)
    (fun e => stderr_write (DiagPost e) ;;; ret JNull).

(** The loop variables of [powerquery]; [pv_page] is [params['page']]. *)
Record query_vars : Type := mkQuery {
  pv_data : list json;
  pv_page : Z
}.

(** What the [except KeyError] clause does with the response at hand. *)
Definition report_key_error (response : response) : M unit :=
  j <- response_json response ;;
  message <- lift (py_get j "message" JNull) ;;
  if py_eq_str message "Validation Failed" then
    j1 <- response_json response ;;
    message1 <- lift (py_get j1 "message" JNull) ;;
    j2 <- response_json response ;;
    errors <- lift (py_get j2 "errors" JNull) ;;
    stderr_write (DiagValidation message1 errors)
  else
    j1 <- response_json response ;;
    message1 <- lift (py_get j1 "message" JNull) ;;
    stderr_write (DiagMessage message1).

Definition powerquery_body (powerquery_url body : string) (items_count : json)
  (v : query_vars) : M (step query_vars (list json)) :=
  more <- lift (py_len_lt (List.length (pv_data v)) items_count) ;;
  if more then
    let params := [("page", JInt (pv_page v))] in
    fun E st =>
      (* The [try] statement, clause by clause.  A failed request raises an
         [httpx] error or, with no headers to read, [AttributeError]: both
         go to [except Exception].  A [KeyError] can only come from
         [response.json()['record']], and then [response] is the answer
         just received. *)
      match (h <- get_headers ;;
             httpx_send (mkRequest POST powerquery_url h params (Some body)))
              E st with
      | (Raise e, st1) =>
          (stderr_write (DiagPowerQuery e) ;;; ret (Return [])) E st1
      | (Ok response, st1) =>
          match (j <- response_json response ;;
                 record <- lift (py_getitem j "record") ;;
                 items <- lift (py_iter record) ;;
                 ret (pv_data v ++ items)) E st1 with
          | (Ok data, st2) =>
              (ret (Continue (mkQuery data (pv_page v + 1)))) E st2
          | (Raise KeyError, st2) =>
              (report_key_error response ;;; ret (Return [])) E st2
          | (Raise e, st2) =>
              (stderr_write (DiagPowerQuery e) ;;; ret (Return [])) E st2
          end
      end
  else ret (Return (pv_data v)).

Definition powerquery (fuel : nat) (powerquery_endpoint : string)
  (args : option json) : L (list json) :=
  bind_loop
    (refresh_if_expired ;;;
     c <- get_self ;;
     let powerquery_url := urljoin (base_url c) powerquery_endpoint in
     let body := match args with
                 | Some a => if py_truthy a then json_dumps a else "{}"
                 | None => "{}"
                 end in
     h <- get_headers ;;
     count_response <-
       httpx_send (mkRequest POST (powerquery_url ++ "/count")%string h []
                             (Some body)) ;;
     j <- response_json count_response ;;
     items_count <- lift (py_get j "count" (JInt 0)) ;;
     ret (powerquery_url, body, items_count))
    (fun '(powerquery_url, body, items_count) =>
       while_loop fuel (powerquery_body powerquery_url body items_count)
                  (mkQuery [] 1)).

(** *** Construction *)

(** Strings stand for their UTF-8 bytes, so [client_id.encode("UTF-8")] is
    the string itself.  The three [except] clauses of [__init__] all write
    to [stderr] and go on; together they catch every exception. *)
Definition __init__ (url client_id client_secret : string) : M unit :=
  c <- get_self ;;
  put_self (mkClient url client_id client_secret
                     (headers c) (access_token_response c)) ;;;
  try_except
    (tok <- _access_token ;;
     set_headers [("Accept", "application/json");
                  ("Content-Type", "application/json");
                  ("Authorization", tok)])
    (fun e => stderr_write (DiagInit e)).

(** *** The singleton

    Objects live in a heap and are named by their position in it; the
    class attribute [Client.instance] holds the reference [__new__]
    created, once it has created one. *)

Record process : Type := mkProcess {
  heap : list client;
  cls_instance : option nat;
  surroundings : world
}.

(** A freshly allocated object, before [__init__] has assigned anything. *)
Definition blank : client := mkClient "" "" "" None None.

Definition __new__ (p : process) : nat * process :=
  match cls_instance p with
  | Some ref => (ref, p)
  | None =>
      let ref := List.length (heap p) in
      (ref, mkProcess (heap p ++ [blank]) (Some ref) (surroundings p))
  end.

Fixpoint store {A : Type} (i : nat) (x : A) (l : list A) {struct l} : list A :=
  match l, i with
  | [], _ => []
  | _ :: l', O => x :: l'
  | y :: l', S i' => y :: store i' x l'
  end.

(** Running a method with [self] bound to the object behind [ref]. *)
Definition call {A : Type} (ref : nat) (m : M A) (E : env) (p : process)
  : option (result A * process) :=
  match nth_error (heap p) ref with
  | Some obj =>
      let '(r, st) := m E (mkState obj (surroundings p)) in
      Some (r, mkProcess (store ref (self st) (heap p)) (cls_instance p)
                         (outside st))
  | None => None
  end.

(** The expression [Client(url, client_id, client_secret)]: [__new__], then
    [__init__] on what it returned; the value is the reference. *)
Definition Client (url client_id client_secret : string) (E : env) (p : process)
  : option (result nat * process) :=
  let '(ref, p1) := __new__ p in
  match call ref (__init__ url client_id client_secret) E p1 with
  | Some (Ok _, p2) => Some (Ok ref, p2)
  | Some (Raise e, p2) => Some (Raise e, p2)
  | None => None
  end.

(* ================================================================== *)
(** ** Servers to run the client against *)

(** A request of one of the two paging loops carries a ["page"] parameter. *)
Definition is_page_request (r : request) : bool :=
  match dict_get "page" (req_params r) with
  | Some _ => true
  | None => false
  end.

(** A page of [fetch_items] that the loop cannot use: the request raised,
    the body is not JSON, or the two-key envelope is not there. *)
Definition items_page_fails (key_1 key_2 : string) (a : http_result) : bool :=
  match a with
  | Fails => true
  | Responds r =>
      match content r with
      | None => true
      | Some (JObj kv) =>
          match dict_get key_1 kv with
          | Some (JObj kv') =>
              match dict_get key_2 kv' with
              | Some _ => false
              | None => true
              end
          | _ => true
          end
      | Some _ => true
      end
  end.

(** A page of [powerquery] that the loop cannot use: the request raised,
    the body is not JSON, or there is no iterable under ["record"]. *)
Definition query_page_fails (a : http_result) : bool :=
  match a with
  | Fails => true
  | Responds r =>
      match content r with
      | None => true
      | Some (JObj kv) =>
          match dict_get "record" kv with
          | Some (JArr _) | Some (JStr _) | Some (JObj _) => false
          | _ => true
          end
      | Some _ => true
      end
  end.

(** [ceil(n / p)] *)
Definition ceil_div (n p : nat) : nat := ((n + p - 1) / p)%nat.

(** The [k]-th page (from 1) of [records], [p] records to a page. *)
Definition page_slice {A : Type} (p k : nat) (records : list A) : list A :=
  firstn p (skipn ((k - 1) * p) records).

(** The collection envelope [{ "<name>s": { "<name>": items } }]. *)
Definition envelope (name : string) (items : json) : json :=
  JObj [((name ++ "s")%string, JObj [(name, items)])].

(** A page holding one record may carry it bare instead of in an array. *)
Definition render (bare : bool) (l : list json) : json :=
  match l with
  | [x] => if bare then x else JArr l
  | _ => JArr l
  end.

Definition page_of (r : request) : option nat :=
  match dict_get "page" (req_params r) with
  | Some (JStr s) => option_map Nat.of_uint (NilEmpty.uint_of_string s)
  | _ => None
  end.

(** A simulated resource [name] at [endpoint_url]: [records] in pages of
    [p]; its count endpoint declares their number. *)
Definition paged_server (endpoint_url name : string) (bare : bool)
  (records : list (list (string * json))) (p : nat) : nat -> request -> http_result :=
  fun _ r =>
    match meth r with
    | POST => Fails
    | GET =>
        if String.eqb (url r) endpoint_url then
          match page_of r with
          | Some k =>
              Responds (mkResponse (Some
                (envelope name (render bare (map JObj (page_slice p k records))))))
          | None => Fails
          end
        else if String.eqb (url r) (endpoint_url ++ "/count")%string then
          Responds (mkResponse (Some
            (JObj [("resource",
                    JObj [("count", JInt (Z.of_nat (List.length records)))])])))
        else Fails
    end.

(** A client that holds headers and a token good at the next reading of
    the clock. *)
Definition authenticated (E : env) (st : state) : Prop :=
  headers (self st) <> None /\
  exists t, access_token_response (self st) = Some t /\
            clock E (ticks (outside st)) < expiration_datetime t.

(** A server for the resource [name] whose count endpoint declares one
    record and whose pages, well-formed, never hold any. *)
Definition stalled_server (name : string) : nat -> request -> http_result :=
  fun _ r =>
    if is_page_request r then
      Responds (mkResponse (Some (envelope name (JArr []))))
    else
      Responds (mkResponse (Some
        (JObj [("resource", JObj [("count", JInt 1)])]))).

(** The same for a PowerQuery. *)
Definition stalled_query_server : nat -> request -> http_result :=
  fun _ r =>
    if is_page_request r then
      Responds (mkResponse (Some (JObj [("record", JArr [])])))
    else
      Responds (mkResponse (Some (JObj [("count", JInt 1)]))).

(** The value at [resource.count] in an answer, as [resource_count] reads
    it, or the exception met on the way. *)
Definition count_of (a : http_result) : result json :=
  match a with
  | Fails => Raise RequestError
  | Responds r =>
      match content r with
      | None => Raise JSONDecodeError
      | Some j =>
          match py_getitem j "resource" with
          | Ok resource => py_getitem resource "count"
          | Raise e => Raise e
          end
      end
  end.

(** The request [resource_count] sends. *)
Definition count_request (resource_url : string) (h : list (string * string))
  (params : list (string * json)) : request :=
  mkRequest GET (resource_url ++ "/count")%string h params None.

(** The request [fetch_items] sends for page [k]. *)
Definition page_request (endpoint_url : string) (h : list (string * string))
  (params : list (string * json)) (k : nat) : request :=
  mkRequest GET endpoint_url h (dict_set "page" (JStr (str_of_nat k)) params) None.

(** The request [_access_token] sends for the client [c]. *)
Definition token_request (c : client) : request :=
  mkRequest POST (base_url c ++ "/oauth/access_token")%string
    [("Content-Type", "application/x-www-form-urlencoded;charset=UTF-8");
     ("Authorization",
      ("Basic " ++ b64encode (client_id c ++ ":" ++ client_secret c))%string)]
    [] (Some "grant_type=client_credentials").

(** The state after the requests [l] have been sent one after another. *)
Definition logged_all (l : list request) (st : state) : state :=
  fold_left (fun s r => logged r s) l st.

(** [st'] comes after [st]: the log has grown by requests satisfying [P]. *)
Definition appends (P : request -> Prop) (st st' : state) : Prop :=
  exists new, sent (outside st') = sent (outside st) ++ new /\ Forall P new.

(** Whatever [m] sends satisfies [P]. *)
Definition emits {A : Type} (P : request -> Prop) (m : M A) : Prop :=
  forall E st, appends P st (snd (m E st)).

Definition not_a_page (r : request) : Prop := is_page_request r = false.

Definition any_request (r : request) : Prop := True.

(** A loop body is fail-fast for the pages that [fails] singles out: one
    pass sends nothing and ends the loop, or sends one page request and
    goes round again exactly when the answer is usable, returning the empty
    list when it is not. *)
Definition fail_fast_pass {S : Type} (fails : http_result -> bool)
  (body : S -> M (step S (list json))) : Prop :=
  forall (v : S) (E : env) (st : state),
    let r := fst (body v E st) in
    let st1 := snd (body v E st) in
    (sent (outside st1) = sent (outside st) /\
     forall v', r <> Ok (Continue v')) \/
    (exists req,
       sent (outside st1) = sent (outside st) ++ [req] /\
       is_page_request req = true /\
       if fails (server E (List.length (sent (outside st))) req)
       then r = Ok (Return []) else exists v', r = Ok (Continue v')).



(** The answer [a] holds the value [n] at [resource.count]. *)
Definition holds_count (a : http_result) (n : json) : Prop :=
  exists x kv resource,
    a = Responds x /\
    content x = Some (JObj kv) /\
    dict_get "resource" kv = Some (JObj resource) /\
    dict_get "count" resource = Some n.

(** What the loop of [fetch_items] appends for the unwrapped value
    [inner]: the items of a list, or the value itself as a single item. *)
Definition as_sequence (inner : json) : list json :=
  match inner with
  | JArr l => l
  | _ => [inner]
  end.

(** The headers [__init__] assigns around the bearer string [tok]. *)
Definition fresh_headers (tok : string) : list (string * string) :=
  [("Accept", "application/json");
   ("Content-Type", "application/json");
   ("Authorization", tok)].

(** Two objects that differ at most in [access_token_response]. *)
Definition same_but_token (c c' : client) : Prop :=
  base_url c' = base_url c /\
  client_id c' = client_id c /\
  client_secret c' = client_secret c /\
  headers c' = headers c.

(* ================================================================== *)
(** ** Sample runs

    Stand-ins for the library functions and a few small worlds, to run the
    methods on concrete inputs. *)

Definition plain_urljoin (base u : string) : string :=
  (base ++ "/" ++ u)%string.

Definition plain_b64encode (s : string) : string := s.

Definition plain_json_dumps (j : json) : string := "{}".

Definition plain_int_of_str (s : string) : option Z :=
  option_map (fun d => Z.of_nat (Nat.of_uint d)) (NilEmpty.uint_of_string s).

Definition plain_str_of_value (j : json) : string := "".

(** A clock that always reads [t]. *)
Definition frozen (t : datetime) : nat -> datetime := fun _ => t.

Definition at_rest (c : client) : state := mkState c (mkWorld 0 [] []).

(** A client whose token [abc] runs until one hour after the epoch. *)
Definition sample_token : token_response :=
  mkToken [("access_token", JStr "abc"); ("expires_in", JStr "3600")]
          3600000000.

Definition signed_in : client :=
  mkClient "https://ps.example" "id" "secret"
           (Some (fresh_headers "Bearer abc")) (Some sample_token).

(** An object that no construction has managed to authenticate. *)
Definition signed_out : client :=
  mkClient "https://ps.example" "id" "secret" None None.

Definition sample_url : string :=
  plain_urljoin "https://ps.example" "ws/v1/district/student".

Definition sample_records : list (list (string * json)) :=
  map (fun i => [("id", JInt i)]) [1; 2; 3; 4; 5].

(** Five students, two to a page. *)
Definition paged_env : env :=
  mkEnv (frozen 0) (paged_server sample_url "student" false sample_records 2).

(** [srv], except that page [k] cannot be fetched. *)
Definition failing_page (k : nat) (srv : nat -> request -> http_result)
  : nat -> request -> http_result :=
  fun n r =>
    match page_of r with
    | Some k' => if Nat.eqb k k' then Fails else srv n r
    | None => srv n r
    end.

Definition flaky_env : env :=
  mkEnv (frozen 0)
        (failing_page 2
           (paged_server sample_url "student" false sample_records 2)).

(** A PowerQuery of three records whose second page is refused. *)
Definition refusing_query_server : nat -> request -> http_result :=
  fun _ r =>
    match dict_get "page" (req_params r) with
    | None => Responds (mkResponse (Some (JObj [("count", JInt 3)])))
    | Some (JInt 1) =>
        Responds (mkResponse (Some
          (JObj [("record", JArr [JObj [("id", JInt 1)]])])))
    | Some _ =>
        Responds (mkResponse (Some
          (JObj [("message", JStr "Validation Failed");
                 ("errors", JArr [JStr "bad argument"])])))
    end.

Definition refusing_query_env : env := mkEnv (frozen 0) refusing_query_server.

(** Two hours after the epoch, with a server that cannot be reached. *)
Definition unreachable_env : env :=
  mkEnv (frozen 7200000000) (fun _ _ => Fails).

(** A token endpoint that grants [abc] for an hour, whatever is asked. *)
Definition granting_env (now : datetime) : env :=
  mkEnv (frozen now)
        (fun _ _ => Responds (mkResponse (Some
           (JObj [("access_token", JStr "abc"); ("expires_in", JInt 3600)])))).

(** The same token endpoint under a clock whose first three readings are
    the epoch and whose later ones are two hours on. *)
Definition session_env : env :=
  mkEnv (fun n => if Nat.ltb n 3 then 0 else 7200000000)
        (server (granting_env 0)).

(** A server that answers every request with one course. *)
Definition course_env : env :=
  mkEnv (frozen 0)
        (fun _ _ => Responds (mkResponse (Some
           (JObj [("course", JObj [("id", JInt 7)])])))).



Definition stalled_env : env :=
  mkEnv (frozen 0) (stalled_server "student").

Definition stalled_query_env : env := mkEnv (frozen 0) stalled_query_server.


(* ================================================================== *)
(** ** The resource methods of [CoreResourcesMixin] ([endpoints.py]) *)

(** [str(z)], as an f-string formats an [int]. *)
Definition str_of_int (z : Z) : string :=
  if Z.ltb z 0 then ("-" ++ str_of_nat (Z.to_nat (- z)))%string
  else str_of_nat (Z.to_nat z).

(** [v.json()] on what [fetch_item] handed back: a response has the
    method, a dictionary has not. *)
Definition json_method (v : pyvalue) : M json :=
  match v with
  | VResponse r => response_json r
  | VJson _ => raise AttributeError
  end.

(** *** Non-paging endpoints *)

Definition course_for_dcid (course_dcid : Z) : M json :=
  course_data <-
    fetch_item ("ws/v1/course/" ++ str_of_int course_dcid) None None None ;;
  j <- json_method course_data ;;
  lift (py_getitem j "course").

Definition current_district (with_expansions : option string) : M json :=
  district_data <- fetch_item "ws/v1/district" with_expansions None None ;;
  j <- json_method district_data ;;
  lift (py_getitem j "district").

Definition school_for_id (school_id : Z) (with_expansions : option string)
  : M json :=
  school_data <-
    fetch_item ("ws/v1/school/" ++ str_of_int school_id) with_expansions
               None None ;;
  j <- json_method school_data ;;
  lift (py_getitem j "school").

Definition section_for_dcid (section_dcid : Z)
  (with_expansions : option string) : M json :=
  section_data <-
    fetch_item ("ws/v1/section/" ++ str_of_int section_dcid) with_expansions
               None None ;;
  j <- json_method section_data ;;
  lift (py_getitem j "section").

Definition staff_for_dcid (staff_dcid : Z) (with_expansions : option string)
  : M json :=
  staff_data <-
    fetch_item ("ws/v1/staff/" ++ str_of_int staff_dcid) with_expansions
               None None ;;
  j <- json_method staff_data ;;
  lift (py_getitem j "staff").

Definition student_for_dcid (student_dcid : Z)
  (with_expansions : option string) : M json :=
  student_data <-
    fetch_item ("ws/v1/student/" ++ str_of_int student_dcid) with_expansions
               None None ;;
  j <- json_method student_data ;;
  lift (py_getitem j "student").

Definition term_for_dcid (term_dcid : Z) : M json :=
  term_data <-
    fetch_item ("ws/v1/term/" ++ str_of_int term_dcid) None None None ;;
  j <- json_method term_data ;;
  lift (py_getitem j "term").

(** *** Paging endpoints *)

Definition courses_for_school (fuel : nat) (school_id : Z) : L (list json) :=
  fetch_items fuel ("ws/v1/school/" ++ str_of_int school_id ++ "/course")
              None None None.

Definition schools_in_district (fuel : nat) (with_expansions : option string)
  : L (list json) :=
  fetch_items fuel "ws/v1/district/school" with_expansions None None.

Definition sections_for_school (fuel : nat) (school_id : Z)
  (with_expansions query : option string) : L (list json) :=
  fetch_items fuel ("ws/v1/school/" ++ str_of_int school_id ++ "/section")
              with_expansions None query.

Definition staff_for_school (fuel : nat) (school_id : Z)
  (with_expansions : option string) : L (list json) :=
  fetch_items fuel ("ws/v1/school/" ++ str_of_int school_id ++ "/staff")
              with_expansions None None.

Definition students_for_school (fuel : nat) (school_id : Z)
  (with_expansions query : option string) : L (list json) :=
  fetch_items fuel ("ws/v1/school/" ++ str_of_int school_id ++ "/student")
              with_expansions None query.

Definition students_in_district (fuel : nat)
  (with_expansions query : option string) : L (list json) :=
  fetch_items fuel "ws/v1/district/student" with_expansions None query.

(* ================================================================== *)
(** ** More vocabulary for statements *)

(** The request [fetch_item] sends. *)
Definition item_request (endpoint_url : string) (h : list (string * string))
  (params : list (string * json)) : request :=
  mkRequest GET endpoint_url h params None.

(** What subscripting the JSON of an answer with [key] gives, or the
    exception met on the way. *)
Definition item_under (key : string) (a : http_result) : result json :=
  match a with
  | Fails => Raise RequestError
  | Responds r =>
      match content r with
      | None => Raise JSONDecodeError
      | Some j => py_getitem j key
      end
  end.

(** The requests [powerquery] sends: for the count and for page [k]. *)
Definition query_count_request (powerquery_url : string)
  (h : list (string * string)) (body : string) : request :=
  mkRequest POST (powerquery_url ++ "/count")%string h [] (Some body).

Definition query_page_request (powerquery_url : string)
  (h : list (string * string)) (body : string) (k : Z) : request :=
  mkRequest POST powerquery_url h [("page", JInt k)] (Some body).

(** The body [powerquery] posts for [args]. *)
Definition query_body (args : option json) : string :=
  match args with
  | Some a => if py_truthy a then json_dumps a else "{}"
  | None => "{}"
  end.

(** What [powerquery] takes for the count out of the answer to its count
    request, or the exception met on the way. *)
Definition query_count_of (a : http_result) : result json :=
  match a with
  | Fails => Raise RequestError
  | Responds r =>
      match content r with
      | None => Raise JSONDecodeError
      | Some j => py_get j "count" (JInt 0)
      end
  end.

(** A simulated PowerQuery at [powerquery_url]: [records] in pages of [p];
    its count endpoint declares their number. *)
Definition paged_query_server (powerquery_url : string) (records : list json)
  (p : nat) : nat -> request -> http_result :=
  fun _ r =>
    if String.eqb (url r) powerquery_url then
      match dict_get "page" (req_params r) with
      | Some (JInt k) =>
          Responds (mkResponse (Some
            (JObj [("record", JArr (page_slice p (Z.to_nat k) records))])))
      | _ => Fails
      end
    else if String.eqb (url r) (powerquery_url ++ "/count")%string then
      Responds (mkResponse (Some
        (JObj [("count", JInt (Z.of_nat (List.length records)))])))
    else Fails.

(** The loop has what it asked for: [len(data) < count] is false. *)
Definition count_reached (data : list json) (count : json) : Prop :=
  py_len_lt (List.length data) count = Ok false.

(** A count the loops cannot compare [len(data)] with. *)
Definition not_a_number (v : json) : Prop :=
  match v with
  | JNull | JStr _ | JArr _ | JObj _ => True
  | JBool _ | JInt _ | JFloat _ => False
  end.

(** The records a page of [fetch_items] yields, or the exception its
    [try] block meets. *)
Definition page_items (key_1 key_2 : string) (a : http_result)
  : result (list json) :=
  match a with
  | Fails => Raise RequestError
  | Responds r =>
      match content r with
      | None => Raise JSONDecodeError
      | Some j =>
          match py_getitem j key_1 with
          | Raise e => Raise e
          | Ok outer =>
              match py_getitem outer key_2 with
              | Raise e => Raise e
              | Ok inner => Ok (as_sequence inner)
              end
          end
      end
  end.

(** What a page contributed to [data]: nothing when it failed. *)
Definition items_of (r : result (list json)) : list json :=
  match r with
  | Ok l => l
  | Raise _ => []
  end.

(** The line on [stderr] for a step that failed. *)
Definition diag_of {A : Type} (report : exn -> diag) (r : result A)
  : list diag :=
  match r with
  | Ok _ => []
  | Raise e => [report e]
  end.

(** The same for a page of [powerquery]. *)
Definition query_page_items (a : http_result) : result (list json) :=
  match a with
  | Fails => Raise RequestError
  | Responds r =>
      match content r with
      | None => Raise JSONDecodeError
      | Some j =>
          match py_getitem j "record" with
          | Raise e => Raise e
          | Ok record => py_iter record
          end
      end
  end.

(** The line [powerquery] writes to [stderr] when the page answered by [a]
    made its [try] block raise [e]. *)
Definition query_failure_diag (a : http_result) (e : exn) : diag :=
  match e, a with
  | KeyError, Responds (mkResponse (Some (JObj kv))) =>
      let message := match dict_get "message" kv with
                     | Some m => m
                     | None => JNull
                     end in
      if py_eq_str message "Validation Failed" then
        DiagValidation message
          match dict_get "errors" kv with
          | Some errors => errors
          | None => JNull
          end
      else DiagMessage message
  | _, _ => DiagPowerQuery e
  end.

(** The run [out], started in [st], has fetched all of [records] from
    [endpoint_url] in pages of [p] under the parameters [params]: it
    returned them all, having sent the count request and then the requests
    for the pages [1, ..., ceil(N/p)]. *)
Definition retrieved_all (st : state) (endpoint_url : string)
  (params : list (string * json)) (records : list (list (string * json)))
  (p : nat) (out : option (result (list json)) * state) : Prop :=
  exists h,
    headers (self st) = Some h /\
    out = (Some (Ok (map JObj records)),
           logged_all
             (count_request endpoint_url h params ::
              map (page_request endpoint_url h params)
                  (seq 1 (ceil_div (List.length records) p)))
             (tick st)).

(** The token check will ask for a token: none is held, or the one held
    has expired at the next two readings of the clock (the one made by
    [_access_token_expired] and the one made by [_access_token]). *)
Definition token_due (E : env) (st : state) : Prop :=
  match access_token_response (self st) with
  | None => True
  | Some t =>
      expiration_datetime t <= clock E (ticks (outside st)) /\
      expiration_datetime t <= clock E (S (ticks (outside st)))
  end.

(** The reading of the clock that dates the token that is then fetched. *)
Definition issue_tick (st : state) : nat :=
  match access_token_response (self st) with
  | None => ticks (outside st)
  | Some _ => S (S (ticks (outside st)))
  end.

(** The state after the token check has fetched the token [t] with the
    request [r] and put [bearer] in the headers [h]. *)
Definition renewed (st : state) (h : list (string * string)) (bearer : string)
  (t : token_response) (r : request) : state :=
  mkState (mkClient (base_url (self st)) (client_id (self st))
                    (client_secret (self st))
                    (Some (dict_set "Authorization" bearer h)) (Some t))
          (mkWorld (S (issue_tick st)) (sent (outside st) ++ [r])
                   (stderr (outside st))).

(** Two header dictionaries agree on every key but [Authorization]. *)
Definition same_other_headers (h h' : list (string * string)) : Prop :=
  forall k, k <> "Authorization"%string -> dict_get k h' = dict_get k h.

(** What a request method may change of the object [c]: the cached token
    and the value of the [Authorization] header, nothing else.  Headers
    are neither created nor deleted. *)
Definition untouched (c c' : client) : Prop :=
  base_url c' = base_url c /\
  client_id c' = client_id c /\
  client_secret c' = client_secret c /\
  match headers c, headers c' with
  | None, None => True
  | Some h, Some h' => same_other_headers h h'
  | _, _ => False
  end.

(** [m] leaves the object untouched, whatever the world does. *)
Definition stable {A : Type} (m : M A) : Prop :=
  forall E st, untouched (self st) (self (snd (m E st))).

Definition stable_loop {A : Type} (m : L A) : Prop :=
  forall E st, untouched (self st) (self (snd (m E st))).

(* ================================================================== *)
(** ** More sample worlds *)

(** The resource [student] without any record. *)
Definition empty_env : env :=
  mkEnv (frozen 0) (paged_server sample_url "student" false [] 2).

(** The epoch, with a server that cannot be reached. *)
Definition offline_env : env := mkEnv (frozen 0) (fun _ _ => Fails).

(** A token endpoint that refuses the credentials. *)
Definition refusing_token_env : env :=
  mkEnv (frozen 0)
        (fun _ _ => Responds (mkResponse (Some
           (JObj [("error", JStr "invalid_client")])))).

(** A token endpoint whose answer declares a lifetime but holds no token. *)
Definition tokenless_env : env :=
  mkEnv (frozen 0)
        (fun _ _ => Responds (mkResponse (Some
           (JObj [("expires_in", JInt 3600)])))).

Definition query_url : string :=
  plain_urljoin "https://ps.example" "ws/v1/query".

(** A PowerQuery of three records, two to a page. *)
Definition query_env : env :=
  mkEnv (frozen 0)
        (paged_query_server query_url [JInt 1; JInt 2; JInt 3] 2).


(** A process in which no client has been constructed yet. *)
Definition idle : process := mkProcess [] None (mkWorld 0 [] []).

(* ================================================================== *)
(** ** Strings: the text after the last slash *)

Lemma rfind_from_absent (c : ascii) (s : string) (i last : Z) :
  contains c s = false -> rfind_from c s i last = last.
Proof.
  revert i last; induction s as [|a s IH]; intros i last H; simpl in *.
  - reflexivity.
  - apply orb_false_iff in H as [Ha Hs]. rewrite Ha. now apply IH.
Qed.

Lemma rfind_from_last (c : ascii) (p n : string) (i last : Z) :
  contains c n = false ->
  rfind_from c (p ++ String c n) i last = i + Z.of_nat (String.length p).
Proof.
  intros Hn. revert i last; induction p as [|a p IH]; intros i last; simpl.
  - rewrite Ascii.eqb_refl. rewrite rfind_from_absent by assumption. lia.
  - rewrite IH. lia.
Qed.

Lemma drop_append (p s : string) : drop (String.length p) (p ++ s) = s.
Proof. induction p as [|a p IH]; simpl; [now destruct s | exact IH]. Qed.


Lemma resource_name_last_segment (p n : string) :
  contains slash n = false ->
  resource_name (p ++ String slash n) = n.
Proof.
  intros H. unfold resource_name, rfind.
  rewrite rfind_from_last by assumption. unfold slice_from.
  replace (0 + Z.of_nat (String.length p) + 1)
    with (Z.of_nat (String.length (p ++ "/"))).
  - destruct (Z.ltb_spec (Z.of_nat (String.length (p ++ "/"))) 0) as [Hlt|_];
      [lia|].
    rewrite Nat2Z.id.
    replace (p ++ String slash n)%string with ((p ++ "/") ++ n)%string.
    + apply drop_append.
    + clear. induction p as [|a p IH]; simpl; [reflexivity | now rewrite IH].
  - clear. induction p as [|a p IH]; simpl String.length; [reflexivity | lia].
Qed.


(* ================================================================== *)
(** ** The token check *)

Ltac unfold_monad :=
  repeat (progress
    unfold bind, ret, raise, lift, try_except, get_self, put_self, get_headers,
      set_headers, set_access_token_response, datetime_now, stderr_write,
      response_json in * ).

Lemma expired_spec (E : env) (st : state) :
  _access_token_expired E st =
  match access_token_response (self st) with
  | Some t =>
      (Ok (negb (Z.ltb (clock E (ticks (outside st))) (expiration_datetime t))),
       tick st)
  | None => (Ok true, st)
  end.
Proof.
  unfold _access_token_expired. unfold_monad.
  destruct (access_token_response (self st)) as [t|]; [|reflexivity].
  simpl. now destruct (Z.ltb _ _).
Qed.

Lemma refresh_valid (E : env) (st : state) (t : token_response) :
  access_token_response (self st) = Some t ->
  clock E (ticks (outside st)) < expiration_datetime t ->
  refresh_if_expired E st = (Ok tt, tick st).
Proof.
  intros Ht Hlt. unfold refresh_if_expired, bind at 1.
  rewrite expired_spec, Ht.
  apply Z.ltb_lt in Hlt. rewrite Hlt. reflexivity.
Qed.

Lemma refresh_authenticated (E : env) (st : state) :
  authenticated E st -> refresh_if_expired E st = (Ok tt, tick st).
Proof. intros [_ (t & Ht & Hlt)]. now apply refresh_valid with t. Qed.

Lemma resource_count_after_check (resource_url : string)
  (params : list (string * json)) (E : env) (st st1 : state) :
  refresh_if_expired E st = (Ok tt, st1) ->
  resource_count resource_url params E st =
  match headers (self st1) with
  | None => (Ok (JInt 0), warned (DiagCount AttributeError) st1)
  | Some h =>
      let r := count_request resource_url h params in
      match count_of (server E (List.length (sent (outside st1))) r) with
      | Ok n => (Ok n, logged r st1)
      | Raise e => (Ok (JInt 0), warned (DiagCount e) (logged r st1))
      end
  end.
Proof.
  intros Hc. unfold resource_count, bind at 1. rewrite Hc.
  unfold_monad. destruct (headers (self st1)) as [h|]; [|reflexivity].
  cbv zeta. unfold httpx_send, count_request, count_of.
  destruct (server E _ _) as [x|]; [|reflexivity].
  destruct (content x) as [j|]; [|reflexivity]. simpl.
  destruct (py_getitem j "resource") as [res|e]; [|reflexivity].
  destruct (py_getitem res "count"); reflexivity.
Qed.

(* ================================================================== *)
(** ** Dictionaries, page numbers, slices *)

Lemma dict_get_set {V : Type} (k : string) (v : V) (d : list (string * V)) :
  dict_get k (dict_set k v d) = Some v.
Proof.
  induction d as [|[k' v'] d IH]; simpl.
  - now rewrite String.eqb_refl.
  - destruct (String.eqb k' k) eqn:Hk; simpl.
    + now rewrite String.eqb_refl.
    + now rewrite Hk.
Qed.

Lemma dict_set_set {V : Type} (k : string) (v v' : V) (d : list (string * V)) :
  dict_set k v (dict_set k v' d) = dict_set k v d.
Proof.
  induction d as [|[k' w] d IH]; simpl.
  - now rewrite String.eqb_refl.
  - destruct (String.eqb k' k) eqn:Hk; simpl.
    + now rewrite String.eqb_refl.
    + now rewrite Hk, IH.
Qed.

Lemma page_of_page_request (endpoint_url : string) (h : list (string * string))
  (params : list (string * json)) (k : nat) :
  page_of (page_request endpoint_url h params k) = Some k.
Proof.
  unfold page_of, page_request, str_of_nat. simpl.
  rewrite dict_get_set, NilEmpty.usu. simpl.
  now rewrite DecimalNat.Unsigned.of_to.
Qed.

Lemma is_page_request_page_request (endpoint_url : string)
  (h : list (string * string)) (params : list (string * json)) (k : nat) :
  is_page_request (page_request endpoint_url h params k) = true.
Proof. unfold is_page_request, page_request. simpl. now rewrite dict_get_set. Qed.

Lemma firstn_more {A : Type} (a b : nat) (l : list A) :
  firstn a l ++ firstn b (skipn a l) = firstn (a + b) l.
Proof.
  revert l; induction a as [|a IH]; intros l; simpl.
  - reflexivity.
  - destruct l as [|x l]; simpl.
    + now destruct b.
    + now rewrite IH.
Qed.

Lemma ceil_div_zero (m p : nat) :
  (0 < p)%nat -> ceil_div m p = O -> m = O.
Proof.
  unfold ceil_div. intros Hp H.
  apply Nat.div_small_iff in H; lia.
Qed.

Lemma ceil_div_step (m p : nat) :
  (0 < p)%nat -> (0 < m)%nat -> ceil_div m p = S (ceil_div (m - p) p).
Proof.
  unfold ceil_div. intros Hp Hm.
  destruct (Nat.le_gt_cases p m) as [Hle | Hlt].
  - replace (m + p - 1)%nat with ((m - p + p - 1) + 1 * p)%nat by lia.
    rewrite Nat.div_add by lia. lia.
  - replace (m - p)%nat with O by lia. simpl.
    rewrite (Nat.div_small (p - 1) p) by lia.
    replace (m + p - 1)%nat with ((m - 1) + 1 * p)%nat by lia.
    rewrite Nat.div_add by lia. rewrite Nat.div_small by lia. reflexivity.
Qed.

Lemma sent_logged_all (l : list request) (st : state) :
  sent (outside (logged_all l st)) = sent (outside st) ++ l.
Proof.
  revert st; induction l as [|r l IH]; intros st; simpl.
  - now rewrite app_nil_r.
  - unfold logged_all in *. simpl. rewrite IH. simpl.
    now rewrite <- app_assoc.
Qed.

Lemma self_logged_all (l : list request) (st : state) :
  self (logged_all l st) = self st.
Proof.
  revert st; induction l as [|r l IH]; intros st; simpl; [reflexivity|].
  unfold logged_all in *. simpl. now rewrite IH.
Qed.

(* ================================================================== *)
(** ** [fetch_items] against a simulated resource *)

Lemma count_url_is_not_endpoint (u : string) :
  String.eqb (u ++ "/count") u = false.
Proof.
  induction u as [|a u IH]; simpl; [reflexivity|].
  now rewrite Ascii.eqb_refl, IH.
Qed.

Section Paged.

Variables (endpoint_url name : string) (bare : bool).
Variable records : list (list (string * json)).
Variable p : nat.
Variable E : env.
Variable h : list (string * string).
Variable params : list (string * json).
Hypothesis page_size : (0 < p)%nat.
Hypothesis simulated : server E = paged_server endpoint_url name bare records p.

Lemma render_unwrapped (data : list json) (l : list (list (string * json))) :
  match render bare (map JObj l) with
  | JArr items => data ++ items
  | x => data ++ [x]
  end = data ++ map JObj l.
Proof.
  destruct l as [|x [|y l]]; simpl; try reflexivity.
  now destruct bare.
Qed.

Lemma fetch_page_simulated (k : nat) (pr : list (string * json))
  (data : list json) (st : state) :
  headers (self st) = Some h ->
  dict_set "page" (JStr (str_of_nat k)) pr =
    dict_set "page" (JStr (str_of_nat k)) params ->
  fetch_page endpoint_url (name ++ "s") name
             (dict_set "page" (JStr (str_of_nat k)) pr) data E st =
  (Ok (data ++ map JObj (page_slice p k records)),
   logged (page_request endpoint_url h params k) st).
Proof.
  intros Hh Hpr. unfold fetch_page. unfold_monad. rewrite Hh, Hpr.
  fold (page_request endpoint_url h params k).
  unfold httpx_send. rewrite simulated. unfold paged_server.
  rewrite page_of_page_request. simpl.
  repeat (rewrite String.eqb_refl; simpl).
  rewrite <- (render_unwrapped data (page_slice p k records)).
  now destruct (render bare (map JObj (page_slice p k records))).
Qed.

Lemma paged_loop (rem : nat) :
  forall (k fuel : nat) (pr : list (string * json)) (st : state),
    headers (self st) = Some h ->
    (forall v, dict_set "page" v pr = dict_set "page" v params) ->
    ceil_div (List.length records - k * p) p = rem ->
    (rem < fuel)%nat ->
    while_loop fuel
      (fetch_items_body endpoint_url (name ++ "s") name
         (JInt (Z.of_nat (List.length records))))
      (mkItems pr (map JObj (firstn (k * p) records)) (S k)) E st =
    (Some (Ok (map JObj records)),
     logged_all (map (page_request endpoint_url h params) (seq (S k) rem)) st).
Proof.
  induction rem as [|rem IH]; intros k fuel pr st Hh Hpr Hrem Hfuel;
    (destruct fuel as [|fuel]; [lia|]); simpl while_loop;
    unfold fetch_items_body; simpl iv_data; simpl iv_page_number;
    simpl iv_params; unfold bind at 1, lift at 1, py_len_lt;
    rewrite length_map, length_firstn.
  - apply ceil_div_zero in Hrem; [|assumption].
    destruct (Z.ltb_spec (Z.of_nat (Nat.min (k * p) (List.length records)))
                (Z.of_nat (List.length records))) as [Hlt|_]; [lia|].
    unfold ret. simpl. rewrite firstn_all2 by lia. reflexivity.
  - assert (Hm : (0 < List.length records - k * p)%nat).
    { destruct (List.length records - k * p)%nat eqn:Hz; [|lia].
      unfold ceil_div in Hrem. simpl in Hrem.
      rewrite Nat.div_small in Hrem by lia. discriminate. }
    destruct (Z.ltb_spec (Z.of_nat (Nat.min (k * p) (List.length records)))
                (Z.of_nat (List.length records))) as [_|Hge]; [|lia].
    unfold bind at 1, try_except, bind at 1.
    rewrite fetch_page_simulated by (assumption || apply Hpr).
    unfold ret. cbv beta iota.
    rewrite <- map_app. unfold page_slice.
    replace (S k - 1)%nat with k by lia.
    rewrite firstn_more.
    replace (k * p + p)%nat with (S k * p)%nat by lia.
    rewrite (IH (S k) fuel); try lia.
    + reflexivity.
    + simpl. assumption.
    + intros v. now rewrite dict_set_set.
    + rewrite (ceil_div_step page_size Hm) in Hrem.
      injection Hrem as <-. f_equal. lia.
Qed.

End Paged.

Lemma fetch_items_body_increments (endpoint_url key_1 key_2 : string)
  (n : json) (v v' : items_vars) (E : env) (st st' : state) :
  fetch_items_body endpoint_url key_1 key_2 n v E st = (Ok (Continue v'), st') ->
  iv_page_number v' = S (iv_page_number v).
Proof.
  unfold fetch_items_body. unfold_monad.
  destruct (py_len_lt _ n) as [[|]|e]; try discriminate.
  destruct (fetch_page _ _ _ _ _ E st) as [[data|e] st1]; simpl.
  - intros H. injection H as <- _. reflexivity.
  - discriminate.
Qed.

(** C1. Pagination completeness.  Against a simulated resource that holds
    [N] records and serves them [p] to a page (and declares [N] at its count
    endpoint), [fetch_items], called on a client with a current token and
    with enough passes allowed, returns exactly the [N] records; after the
    count request it has sent the page requests numbered [1, 2, ...,
    ceil(N/p)], in that order, and nothing else.  Whatever a page holds, a
    pass of the loop that fetched it leaves the page number one higher. *)
Theorem pagination_completeness
  (prefix name : string) (bare : bool) (records : list (list (string * json)))
  (p : nat) (E : env) (st : state) (expansions extensions query : option string)
  (fuel : nat) :
  let resource_endpoint := (prefix ++ String slash name)%string in
  let endpoint_url := urljoin (base_url (self st)) resource_endpoint in
  let params := build_params expansions extensions query in
  let pages := ceil_div (List.length records) p in
  (0 < p)%nat ->
  contains slash name = false ->
  server E = paged_server endpoint_url name bare records p ->
  authenticated E st ->
  (pages < fuel)%nat ->
  (exists h,
     headers (self st) = Some h /\
     fetch_items fuel resource_endpoint expansions extensions query E st =
     (Some (Ok (map JObj records)),
      logged_all (count_request endpoint_url h params ::
                  map (page_request endpoint_url h params) (seq 1 pages))
                 (tick st)) /\
     List.length (map JObj records) = List.length records /\
     map page_of (map (page_request endpoint_url h params) (seq 1 pages)) =
       map Some (seq 1 pages)) /\
  (forall url key_1 key_2 n v v' E' s s',
     fetch_items_body url key_1 key_2 n v E' s = (Ok (Continue v'), s') ->
     iv_page_number v' = S (iv_page_number v)).
Proof.
  intros resource_endpoint endpoint_url params pages Hp Hname Hsim Hauth Hfuel.
  split; [|intros; eapply fetch_items_body_increments; eassumption].
  destruct (headers (self st)) as [h|] eqn:Hh;
    [|destruct Hauth as [Hn _]; now elim Hn].
  exists h. split; [reflexivity|]. split; [|split].
  - unfold fetch_items, bind_loop.
    unfold bind at 1, get_self at 1. unfold bind at 1.
    fold resource_endpoint. fold endpoint_url. fold params.
    rewrite (@resource_count_after_check endpoint_url params E st (tick st)
               (refresh_authenticated Hauth)).
    change (headers (self (tick st))) with (headers (self st)). rewrite Hh.
    cbv zeta. rewrite Hsim. unfold paged_server at 1.
    unfold count_request at 1. simpl meth. simpl url.
    rewrite count_url_is_not_endpoint, String.eqb_refl.
    simpl count_of. unfold ret.
    unfold resource_endpoint. rewrite (@resource_name_last_segment prefix name Hname).
    fold resource_endpoint.
    rewrite (@paged_loop endpoint_url name bare records p E h params Hp Hsim
               pages 0 fuel params); try reflexivity; try assumption.
    simpl. now rewrite Nat.sub_0_r.
  - apply length_map.
  - rewrite map_map. apply map_ext. intros k. apply page_of_page_request.
Qed.

(* ================================================================== *)
(** ** What a computation adds to the request log *)

Lemma appends_refl (P : request -> Prop) (st : state) : appends P st st.
Proof. exists []. split; [now rewrite app_nil_r | constructor]. Qed.

Lemma appends_trans (P : request -> Prop) (st1 st2 st3 : state) :
  appends P st1 st2 -> appends P st2 st3 -> appends P st1 st3.
Proof.
  intros (n1 & H1 & F1) (n2 & H2 & F2). exists (n1 ++ n2). split.
  - now rewrite H2, H1, app_assoc.
  - apply Forall_app. now split.
Qed.

Lemma emits_ret {A : Type} (P : request -> Prop) (a : A) : emits P (ret a).
Proof. intros E st. apply appends_refl. Qed.

Lemma emits_raise {A : Type} (P : request -> Prop) (e : exn) :
  emits P (raise (A := A) e).
Proof. intros E st. apply appends_refl. Qed.

Lemma emits_lift {A : Type} (P : request -> Prop) (r : result A) :
  emits P (lift r).
Proof. intros E st. apply appends_refl. Qed.

Lemma emits_get_self (P : request -> Prop) : emits P get_self.
Proof. intros E st. apply appends_refl. Qed.

Lemma emits_put_self (P : request -> Prop) (c : client) : emits P (put_self c).
Proof. intros E st. exists []. simpl. split; [now rewrite app_nil_r | constructor]. Qed.

Lemma emits_now (P : request -> Prop) : emits P datetime_now.
Proof. intros E st. exists []. simpl. split; [now rewrite app_nil_r | constructor]. Qed.

Lemma emits_stderr_write (P : request -> Prop) (d : diag) :
  emits P (stderr_write d).
Proof. intros E st. exists []. simpl. split; [now rewrite app_nil_r | constructor]. Qed.

Lemma emits_send (P : request -> Prop) (r : request) :
  P r -> emits P (httpx_send r).
Proof.
  intros Hr E st. exists [r]. unfold httpx_send.
  destruct (server E _ r); simpl; (split; [reflexivity | now constructor]).
Qed.

Lemma emits_bind {A B : Type} (P : request -> Prop) (m : M A) (k : A -> M B) :
  emits P m -> (forall a, emits P (k a)) -> emits P (bind m k).
Proof.
  intros Hm Hk E st. unfold bind. specialize (Hm E st).
  destruct (m E st) as [[a|e] st1]; simpl in *.
  - eapply appends_trans; [exact Hm | apply Hk].
  - exact Hm.
Qed.

Lemma emits_try_except {A : Type} (P : request -> Prop) (m : M A)
  (handler : exn -> M A) :
  emits P m -> (forall e, emits P (handler e)) -> emits P (try_except m handler).
Proof.
  intros Hm Hh E st. unfold try_except. specialize (Hm E st).
  destruct (m E st) as [[a|e] st1]; simpl in *.
  - exact Hm.
  - eapply appends_trans; [exact Hm | apply Hh].
Qed.

Ltac emits_step :=
  first
    [ apply emits_ret | apply emits_raise | apply emits_lift
    | apply emits_get_self | apply emits_put_self | apply emits_now
    | apply emits_stderr_write
    | apply emits_bind; [|intros ?]
    | apply emits_try_except; [|intros ?]
    | match goal with
      | |- emits _ (match ?x with _ => _ end) => destruct x
      end ].

Lemma emits_response_json (P : request -> Prop) (r : response) :
  emits P (response_json r).
Proof. unfold response_json. repeat emits_step. Qed.

Lemma emits_get_headers (P : request -> Prop) : emits P get_headers.
Proof. unfold get_headers. repeat emits_step. Qed.

Lemma emits_access_token : emits not_a_page _access_token.
Proof.
  unfold _access_token, set_access_token_response.
  repeat first [ apply emits_response_json | apply emits_send; reflexivity
               | emits_step ].
Qed.

Lemma emits_refresh : emits not_a_page refresh_if_expired.
Proof.
  unfold refresh_if_expired, _access_token_expired, set_authorization,
    set_headers.
  repeat first [ apply emits_get_headers | apply emits_access_token
               | emits_step ].
Qed.

Lemma build_params_no_page (expansions extensions query : option string) :
  dict_get "page" (build_params expansions extensions query) = None.
Proof.
  unfold build_params.
  destruct (given expansions), (given extensions), (given query); reflexivity.
Qed.

Lemma emits_resource_count (resource_url : string)
  (params : list (string * json)) :
  dict_get "page" params = None ->
  emits not_a_page (resource_count resource_url params).
Proof.
  intros Hp. unfold resource_count.
  repeat first [ apply emits_get_headers | apply emits_refresh
               | apply emits_response_json
               | apply emits_send; unfold not_a_page, is_page_request; simpl;
                 now rewrite Hp
               | emits_step ].
Qed.

(* ================================================================== *)
(** ** A page that fails ends the loop with the empty list *)

Lemma nth_error_past_end {A : Type} (l : list A) (i : nat) (x : A) :
  (List.length l <= i)%nat -> nth_error l i = Some x -> False.
Proof. intros Hi Hn. apply nth_error_None in Hi. congruence. Qed.

(** One pass of the loop of [fetch_items]: it sends nothing and the loop
    ends, or it sends one request and goes on exactly when the answer is
    usable, returning the empty list when it is not. *)
Lemma fetch_items_body_cases (endpoint_url key_1 key_2 : string) (n : json) :
  fail_fast_pass (items_page_fails key_1 key_2)
                 (fetch_items_body endpoint_url key_1 key_2 n).
Proof.
  intros v E st. unfold fetch_items_body, fetch_page. unfold_monad.
  destruct (py_len_lt _ n) as [[|]|e]; simpl;
    try (left; split; [reflexivity | congruence]).
  destruct (headers (self st)) as [h|]; simpl;
    [|left; split; [reflexivity | congruence]].
  right.
  exists (page_request endpoint_url h (iv_params v) (iv_page_number v)).
  unfold httpx_send, page_request.
  split; [|split; [unfold is_page_request; simpl; now rewrite dict_get_set|]].
  - destruct (server E _ _) as [x|]; simpl; [|reflexivity].
    destruct (content x) as [j|]; simpl; [|reflexivity].
    destruct (py_getitem j key_1) as [outer|]; simpl; [|reflexivity].
    destruct (py_getitem outer key_2) as [inner|]; simpl; [|reflexivity].
    now destruct inner.
  - unfold items_page_fails.
    destruct (server E _ _) as [x|]; simpl; [|reflexivity].
    destruct (content x) as [j|]; simpl; [|reflexivity].
    destruct j as [| | | | |l|kv]; simpl; try reflexivity.
    destruct (dict_get key_1 kv) as [outer|]; simpl; [|reflexivity].
    destruct outer as [| | | | |l|kv']; simpl; try reflexivity.
    destruct (dict_get key_2 kv') as [inner|]; simpl; [|reflexivity].
    destruct inner; simpl; eexists; reflexivity.
Qed.

Lemma loop_fail_fast {S : Type} (fails : http_result -> bool)
  (body : S -> M (step S (list json))) (E : env) (fuel : nat) :
  fail_fast_pass fails body ->
  forall (v : S) (st : state) (o : option (result (list json))) (st' : state),
    while_loop fuel body v E st = (o, st') ->
    appends (fun r => is_page_request r = true) st st' /\
    forall i req,
      (List.length (sent (outside st)) <= i)%nat ->
      nth_error (sent (outside st')) i = Some req ->
      fails (server E i req) = true ->
      o = Some (Ok []).
Proof.
  intros Hbody.
  induction fuel as [|fuel IH]; intros v st o st' H; simpl in H.
  - injection H as <- <-. split; [apply appends_refl|].
    intros i req Hi Hn _. exfalso. eapply nth_error_past_end; eassumption.
  - pose proof (Hbody v E st) as C.
    destruct (body v E st) as [r st1]; simpl in C.
    destruct C as [[Hs Hr] | (req0 & Hs & Hpage & Hc)].
    + assert (st' = st1) as ->.
      { destruct r as [[v'|r]|e]; [now elim (Hr v') | |]; congruence. }
      split.
      * exists []. rewrite Hs, app_nil_r. split; [reflexivity | constructor].
      * intros i req Hi Hn _. exfalso. rewrite Hs in Hn.
        eapply nth_error_past_end; eassumption.
    + destruct (fails _) eqn:Hf.
      * subst r. injection H as <- <-. split.
        -- exists [req0]. split; [assumption | now repeat constructor].
        -- reflexivity.
      * destruct Hc as [v' ->].
        destruct (IH _ _ _ _ H) as [(new & Hnew & Hall) Hlater]. split.
        -- exists (req0 :: new). split.
           ++ rewrite Hnew, Hs, <- app_assoc. reflexivity.
           ++ now constructor.
        -- intros i req Hi Hn Hbad.
           destruct (Nat.eq_dec i (List.length (sent (outside st)))) as [->|Hne].
           ++ rewrite Hnew, Hs, <- app_assoc, nth_error_app2 in Hn by lia.
              rewrite Nat.sub_diag in Hn. simpl in Hn. injection Hn as <-.
              congruence.
           ++ apply (Hlater i req); try assumption.
              rewrite Hs, length_app. simpl. lia.
Qed.

Lemma powerquery_body_cases (powerquery_url body : string) (n : json) :
  fail_fast_pass query_page_fails (powerquery_body powerquery_url body n).
Proof.
  intros v E st. unfold powerquery_body, report_key_error. unfold_monad.
  destruct (py_len_lt _ n) as [[|]|e]; simpl;
    try (left; split; [reflexivity | congruence]).
  destruct (headers (self st)) as [h|]; simpl;
    [|left; split; [reflexivity | congruence]].
  right.
  exists (mkRequest POST powerquery_url h [("page", JInt (pv_page v))]
                    (Some body)).
  unfold httpx_send, query_page_fails.
  destruct (server E _ _) as [x|]; simpl; [|repeat split; reflexivity].
  destruct (content x) as [j|]; simpl; [|repeat split; reflexivity].
  destruct j as [| | | | |l|kv]; simpl; try (repeat split; reflexivity).
  destruct (dict_get "record" kv) as [rec|]; simpl.
  - destruct rec; simpl; repeat split; try reflexivity; eexists; reflexivity.
  - destruct (dict_get "message" kv) as [m|]; simpl;
      [destruct (py_eq_str m "Validation Failed"); simpl;
       [destruct (dict_get "errors" kv); simpl|]|];
      repeat split; reflexivity.
Qed.

(** C2. Fail-fast, all-or-nothing pagination.  Take any run of
    [fetch_items] or of [powerquery], cut off after any number of passes,
    and any page request that the run has sent and whose answer the loop
    cannot use (the request raised, the body is not JSON, or the expected
    keys are missing): then the run is over, it returned the empty list
    whatever it had accumulated, and it raised nothing. *)
Theorem fail_fast_pagination :
  (forall fuel resource_endpoint expansions extensions query E st o st' i req,
     fetch_items fuel resource_endpoint expansions extensions query E st
       = (o, st') ->
     (List.length (sent (outside st)) <= i)%nat ->
     nth_error (sent (outside st')) i = Some req ->
     is_page_request req = true ->
     items_page_fails (resource_name resource_endpoint ++ "s")
                      (resource_name resource_endpoint) (server E i req) = true ->
     o = Some (Ok [])) /\
  (forall fuel powerquery_endpoint args E st o st' i req,
     powerquery fuel powerquery_endpoint args E st = (o, st') ->
     (List.length (sent (outside st)) <= i)%nat ->
     nth_error (sent (outside st')) i = Some req ->
     is_page_request req = true ->
     query_page_fails (server E i req) = true ->
     o = Some (Ok [])).
Proof.
  assert (Hprelude : forall (A : Type) (m : M A) (k : A -> L (list json))
            (fails : http_result -> bool) E st o st' i req,
            emits not_a_page m ->
            (forall a s j r,
               (List.length (sent (outside s)) <= j)%nat ->
               nth_error (sent (outside st')) j = Some r ->
               fails (server E j r) = true ->
               k a E s = (o, st') -> o = Some (Ok [])) ->
            (forall a s, k a E s = (o, st') -> appends any_request s st') ->
            bind_loop m k E st = (o, st') ->
            (List.length (sent (outside st)) <= i)%nat ->
            nth_error (sent (outside st')) i = Some req ->
            is_page_request req = true ->
            fails (server E i req) = true ->
            o = Some (Ok [])).
  { intros A m k fails E st o st' i req Hm Hk Hext H Hi Hn Hpage Hbad.
    unfold bind_loop in H. specialize (Hm E st).
    destruct (m E st) as [[a|e] s] eqn:Hrun; simpl in Hm;
      destruct Hm as (new & Hnew & Hall).
    - destruct (Nat.lt_ge_cases i (List.length (sent (outside s)))) as [Hlt|Hge].
      + exfalso. destruct (Hext _ _ H) as (new2 & Hnew2 & _).
        rewrite Hnew2, nth_error_app1 in Hn by assumption.
        rewrite Hnew, nth_error_app2 in Hn by assumption.
        apply nth_error_In in Hn.
        rewrite Forall_forall in Hall. specialize (Hall _ Hn).
        unfold not_a_page in Hall. congruence.
      + exact (Hk a s i req Hge Hn Hbad H).
    - exfalso. injection H as <- <-.
      rewrite Hnew, nth_error_app2 in Hn by assumption.
      apply nth_error_In in Hn.
      rewrite Forall_forall in Hall. specialize (Hall _ Hn).
      unfold not_a_page in Hall. congruence. }
  split.
  - intros fuel resource_endpoint expansions extensions query E st o st' i req
           H Hi Hn Hpage Hbad.
    unfold fetch_items in H.
    eapply Hprelude with
      (fails := items_page_fails (resource_name resource_endpoint ++ "s")
                                 (resource_name resource_endpoint));
      try eassumption.
    + repeat first [ apply emits_resource_count; apply build_params_no_page
                   | emits_step ].
    + intros [[u pr] n] s j r Hj Hr Hf Hloop.
      eapply (@loop_fail_fast _ _ _ E fuel (@fetch_items_body_cases u _ _ n));
        eassumption.
    + intros [[u pr] n] s Hloop.
      destruct (@loop_fail_fast _ _ _ E fuel (@fetch_items_body_cases u _ _ n)
                  _ _ _ _ Hloop) as [(new & Hnew & _) _].
      exists new. split; [assumption | apply Forall_forall; intros; exact I].
  - intros fuel powerquery_endpoint args E st o st' i req H Hi Hn Hpage Hbad.
    unfold powerquery in H.
    eapply Hprelude with (fails := query_page_fails); try eassumption.
    + repeat first [ apply emits_refresh | apply emits_get_headers
                   | apply emits_response_json
                   | apply emits_send; reflexivity
                   | emits_step ].
    + intros [[u b] n] s j r Hj Hr Hf Hloop.
      eapply (@loop_fail_fast _ _ _ E fuel (@powerquery_body_cases u b n));
        eassumption.
    + intros [[u b] n] s Hloop.
      destruct (@loop_fail_fast _ _ _ E fuel (@powerquery_body_cases u b n)
                  _ _ _ _ Hloop) as [(new & Hnew & _) _].
      exists new. split; [assumption | apply Forall_forall; intros; exact I].
Qed.

(* ================================================================== *)
(** ** The token manager *)



(** The ways a token request can go, each closed by [finish]. *)
Ltac token_fetch_cases E finish :=
  destruct (server E _ _) as [x|]; simpl; [|finish];
  destruct (content x) as [j|]; simpl; [|finish];
  destruct (py_get j "error" JNull) as [err|]; simpl; [|finish];
  destruct (py_truthy err); simpl;
    (destruct (py_getitem j "expires_in") as [v|]; simpl; [|finish];
     destruct (py_int v) as [seconds|]; simpl; [|finish];
     destruct (add_seconds _ seconds) as [expiration|]; simpl; [|finish];
     destruct j; simpl; try finish;
     match goal with
     | |- context [dict_get "access_token" ?kv] =>
         destruct (dict_get "access_token" kv) as [[| | | |s| |]|]; simpl;
         finish
     end).





(* ================================================================== *)
(** ** [post_data] *)




(* ================================================================== *)
(** ** [resource_count] *)

Lemma count_of_spec (a : http_result) :
  (forall n, holds_count a n -> count_of a = Ok n) /\
  ((forall n, ~ holds_count a n) -> exists e, count_of a = Raise e).
Proof.
  split.
  - intros n (x & kv & res & -> & Hc & Hr & Hn). simpl.
    rewrite Hc. simpl. rewrite Hr. simpl. now rewrite Hn.
  - intros Hno. destruct a as [x|]; simpl; [|eauto].
    destruct (content x) as [j|] eqn:Hc; simpl; [|eauto].
    destruct j as [| | | | | |kv]; simpl; eauto.
    destruct (dict_get "resource" kv) as [res|] eqn:Hr; simpl; [|eauto].
    destruct res as [| | | | | |rkv]; simpl; eauto.
    destruct (dict_get "count" rkv) as [n|] eqn:Hn; simpl; [|eauto].
    exfalso. apply (Hno n). exists x, kv, rkv. now repeat split.
Qed.

(** C7, as the code has it.  [resource_count] first runs the token check;
    an exception raised there reaches the caller and no count request is
    sent.  Once the check has passed nothing is raised: [resource_count]
    GETs [{resource_url}/count] and returns the value it finds at
    [resource.count], as it is (no check makes it a number); when the GET
    fails, or the answer holds nothing at [resource.count], it writes the
    error to [stderr] and returns [0]. *)
Theorem count_soft_after_token_check (resource_url : string)
  (params : list (string * json)) (E : env) (st : state) :
  (forall e st1,
     refresh_if_expired E st = (Raise e, st1) ->
     resource_count resource_url params E st = (Raise e, st1)) /\
  (forall st1,
     refresh_if_expired E st = (Ok tt, st1) ->
     (headers (self st1) = None ->
      resource_count resource_url params E st =
        (Ok (JInt 0), warned (DiagCount AttributeError) st1)) /\
     (forall h,
        headers (self st1) = Some h ->
        let r := count_request resource_url h params in
        let a := server E (List.length (sent (outside st1))) r in
        (forall n,
           holds_count a n ->
           resource_count resource_url params E st = (Ok n, logged r st1)) /\
        ((forall n, ~ holds_count a n) ->
         exists e,
           resource_count resource_url params E st =
             (Ok (JInt 0), warned (DiagCount e) (logged r st1))))).
Proof.
  split.
  - intros e st1 Hc. unfold resource_count, bind at 1. now rewrite Hc.
  - intros st1 Hc.
    rewrite (@resource_count_after_check resource_url params E st st1 Hc).
    split.
    + intros Hh. now rewrite Hh.
    + intros h Hh r a. rewrite Hh. cbv zeta. fold r. fold a.
      destruct (count_of_spec a) as [Hyes Hno]. split.
      * intros n Hn. now rewrite (Hyes n Hn).
      * intros Hnone. destruct (Hno Hnone) as [e He]. exists e.
        now rewrite He.
Qed.

(* ================================================================== *)
(** ** [fetch_item] and [fetch_metadata] *)

(** C9, what the code does.  Whenever [fetch_item] returns, the value is
    the [httpx.Response] object itself, never the parsed JSON of its body;
    the callers in [endpoints.py] call [.json()] on it themselves. *)
Theorem fetch_item_returns_response (resource_endpoint : string)
  (expansions extensions query : option string) (E : env) (st st' : state)
  (v : pyvalue) :
  fetch_item resource_endpoint expansions extensions query E st = (Ok v, st') ->
  exists r, v = VResponse r /\ forall j, v <> VJson j.
Proof.
  unfold fetch_item. unfold_monad.
  destruct (refresh_if_expired E st) as [[[]|e] st1]; [|discriminate].
  destruct (headers (self st1)) as [h|]; [|discriminate].
  destruct (httpx_send _ E st1) as [[r|e] st2]; [|discriminate].
  intros H. injection H as <- <-. exists r. split; [reflexivity | discriminate].
Qed.

(** C4, what the code does.  [fetch_metadata] never consults the token
    manager: it reads no clock, leaves the object (and so its
    [Authorization] header) as it was, and sends at most the one GET,
    with the headers the object already held, even when the token has
    expired. *)
Theorem fetch_metadata_skips_token_check (E : env) (st : state) :
  self (snd (fetch_metadata E st)) = self st /\
  ticks (outside (snd (fetch_metadata E st))) = ticks (outside st) /\
  sent (outside (snd (fetch_metadata E st))) =
    sent (outside st) ++
    match headers (self st) with
    | Some h =>
        [mkRequest GET (urljoin (base_url (self st)) "ws/v1/metadata") h []
                   None]
    | None => []
    end.
Proof.
  unfold fetch_metadata. unfold_monad.
  destruct (headers (self st)) as [h|]; simpl;
    [|now rewrite app_nil_r].
  unfold httpx_send.
  destruct (server E _ _) as [x|]; simpl; [|now repeat split].
  destruct (content x) as [j|]; simpl; [|now repeat split].
  destruct (py_getitem j "metadata"); simpl; now repeat split.
Qed.

(* ================================================================== *)
(** ** Loops that never end *)

Lemma items_loop_stalls (endpoint_url name : string) (E : env) (fuel : nat) :
  server E = stalled_server name ->
  forall (v : items_vars) (st : state),
    headers (self st) <> None ->
    iv_data v = [] ->
    fst (while_loop fuel
           (fetch_items_body endpoint_url (name ++ "s") name (JInt 1)) v E st)
      = None.
Proof.
  intros Hsrv. induction fuel as [|fuel IH]; intros v st Hh Hdata;
    [reflexivity|].
  simpl. unfold fetch_items_body, fetch_page. unfold_monad.
  rewrite Hdata. simpl.
  destruct (headers (self st)) as [h|] eqn:Hhe; [|now elim Hh]. simpl.
  unfold httpx_send. rewrite Hsrv. unfold stalled_server, is_page_request.
  simpl req_params. rewrite dict_get_set. simpl.
  repeat (rewrite String.eqb_refl; simpl).
  apply IH; [simpl; congruence | reflexivity].
Qed.

Lemma query_loop_stalls (powerquery_url body : string) (E : env)
  (fuel : nat) :
  server E = stalled_query_server ->
  forall (v : query_vars) (st : state),
    headers (self st) <> None ->
    pv_data v = [] ->
    fst (while_loop fuel (powerquery_body powerquery_url body (JInt 1)) v E st)
      = None.
Proof.
  intros Hsrv. induction fuel as [|fuel IH]; intros v st Hh Hdata;
    [reflexivity|].
  simpl. unfold powerquery_body. unfold_monad.
  rewrite Hdata. simpl.
  destruct (headers (self st)) as [h|] eqn:Hhe; [|now elim Hh]. simpl.
  unfold httpx_send. rewrite Hsrv. unfold stalled_query_server, is_page_request.
  simpl.
  apply IH; [simpl; congruence | reflexivity].
Qed.

(** C8. No stagnation guard.  Against a server that declares one record
    and then answers every page request with a well-formed, empty page,
    neither loop ever ends: however many passes are allowed, [fetch_items]
    and [powerquery] are still running when the allowance is used up. *)
Theorem no_stagnation_guard :
  (forall resource_endpoint expansions extensions query E st,
     authenticated E st ->
     server E = stalled_server (resource_name resource_endpoint) ->
     forall fuel,
       fst (fetch_items fuel resource_endpoint expansions extensions query E st)
         = None) /\
  (forall powerquery_endpoint args E st,
     authenticated E st ->
     server E = stalled_query_server ->
     forall fuel, fst (powerquery fuel powerquery_endpoint args E st) = None).
Proof.
  split.
  - intros resource_endpoint expansions extensions query E st Hauth Hsrv fuel.
    destruct (headers (self st)) as [h|] eqn:Hh;
      [|destruct Hauth as [Hn _]; now elim Hn].
    unfold fetch_items, bind_loop.
    unfold bind at 1, get_self at 1. unfold bind at 1.
    rewrite (@resource_count_after_check _ _ E st (tick st)
               (refresh_authenticated Hauth)).
    change (headers (self (tick st))) with (headers (self st)). rewrite Hh.
    cbv zeta. rewrite Hsrv. unfold stalled_server at 1, is_page_request.
    unfold count_request at 1. simpl req_params.
    rewrite build_params_no_page. simpl count_of. unfold ret.
    apply items_loop_stalls; try assumption.
    + simpl. congruence.
    + reflexivity.
  - intros powerquery_endpoint args E st Hauth Hsrv fuel.
    destruct (headers (self st)) as [h|] eqn:Hh;
      [|destruct Hauth as [Hn _]; now elim Hn].
    unfold powerquery, bind_loop. unfold bind at 1.
    rewrite (refresh_authenticated Hauth). unfold_monad.
    change (headers (self (tick st))) with (headers (self st)). rewrite Hh.
    unfold httpx_send. rewrite Hsrv. unfold stalled_query_server at 1. simpl.
    apply query_loop_stalls; try assumption.
    + simpl. congruence.
    + reflexivity.
Qed.

(* ================================================================== *)
(** ** The envelope *)



(* ================================================================== *)
(** ** The singleton *)

Lemma access_token_keeps (E : env) (st : state) :
  same_but_token (self st) (self (snd (_access_token E st))).
Proof.
  unfold _access_token, same_but_token. unfold_monad.
  destruct (access_token_response (self st)) as [t|]; simpl.
  - destruct (Z.ltb _ _); simpl.
    + destruct (dict_get "access_token" (token_body t)); simpl;
        now repeat split.
    + unfold httpx_send. token_fetch_cases E ltac:(now repeat split).
  - unfold httpx_send. token_fetch_cases E ltac:(now repeat split).
Qed.

(** [__init__] never raises; it overwrites the three credentials, and the
    headers exactly when the token manager hands out a bearer string. *)
Lemma init_spec (url id secret : string) (E : env) (st : state) :
  let st0 := mkState (mkClient url id secret (headers (self st))
                               (access_token_response (self st)))
                     (outside st) in
  let out := __init__ url id secret E st in
  fst out = Ok tt /\
  base_url (self (snd out)) = url /\
  client_id (self (snd out)) = id /\
  client_secret (self (snd out)) = secret /\
  match fst (_access_token E st0) with
  | Ok tok => headers (self (snd out)) = Some (fresh_headers tok)
  | Raise e => headers (self (snd out)) = headers (self st)
  end.
Proof.
  intros st0 out.
  assert (Heq : out =
    let (r, st1) := _access_token E st0 in
    match r with
    | Ok tok =>
        (Ok tt,
         mkState (mkClient (base_url (self st1)) (client_id (self st1))
                           (client_secret (self st1))
                           (Some (fresh_headers tok))
                           (access_token_response (self st1)))
                 (outside st1))
    | Raise e => (Ok tt, warned (DiagInit e) st1)
    end).
  { subst out st0. unfold __init__, set_headers. unfold_monad. simpl.
    destruct (_access_token E _) as [[tok|e] st1]; reflexivity. }
  rewrite Heq. clear Heq out.
  pose proof (access_token_keeps E st0) as (Hb & Hi & Hs & Hh).
  destruct (_access_token E st0) as [[tok|e] st1]; simpl in *;
    now repeat split.
Qed.


Lemma length_store {A : Type} (l : list A) (i : nat) (x : A) :
  List.length (store i x l) = List.length l.
Proof.
  revert i; induction l as [|y l IH]; intros i; simpl; [reflexivity|].
  destruct i; simpl; [reflexivity | now rewrite IH].
Qed.


(* ================================================================== *)
(** ** Single records: [fetch_item], [fetch_metadata] and the non-paging
       endpoints *)

Lemma fetch_item_after_check (resource_endpoint : string)
  (expansions extensions query : option string) (E : env) (st st1 : state) :
  refresh_if_expired E st = (Ok tt, st1) ->
  fetch_item resource_endpoint expansions extensions query E st =
  match headers (self st1) with
  | None => (Raise AttributeError, st1)
  | Some h =>
      let r := item_request (urljoin (base_url (self st)) resource_endpoint) h
                            (build_params expansions extensions query) in
      match server E (List.length (sent (outside st1))) r with
      | Responds x => (Ok (VResponse x), logged r st1)
      | Fails => (Raise RequestError, logged r st1)
      end
  end.
Proof.
  intros Hc. unfold fetch_item. unfold bind at 1, get_self at 1.
  unfold bind at 1. rewrite Hc. unfold_monad.
  destruct (headers (self st1)) as [h|]; [|reflexivity].
  cbv zeta. unfold httpx_send, item_request.
  now destruct (server E _ _).
Qed.

Lemma dict_get_set_other {V : Type} (k k' : string) (v : V)
  (d : list (string * V)) :
  k <> k' -> dict_get k (dict_set k' v d) = dict_get k d.
Proof.
  intros Hne. apply not_eq_sym in Hne. apply String.eqb_neq in Hne.
  induction d as [|[k0 v0] d IH]; simpl.
  - now rewrite Hne.
  - destruct (String.eqb k0 k') eqn:Hk; simpl.
    + apply String.eqb_eq in Hk. subst k0. now rewrite Hne.
    + now rewrite IH.
Qed.

Lemma given_spec (x : option string) :
  (forall s, x = Some s -> s <> ""%string -> given x = Some s) /\
  (x = None \/ x = Some ""%string -> given x = None).
Proof.
  split.
  - intros s -> Hs. simpl. apply String.eqb_neq in Hs. now rewrite Hs.
  - intros [-> | ->]; reflexivity.
Qed.

Lemma build_params_lookup (expansions extensions query : option string) :
  dict_get "expansions" (build_params expansions extensions query)
    = option_map JStr (given expansions) /\
  dict_get "extensions" (build_params expansions extensions query)
    = option_map JStr (given extensions) /\
  dict_get "q" (build_params expansions extensions query)
    = option_map JStr (given query) /\
  forall k, k <> "expansions"%string -> k <> "extensions"%string ->
            k <> "q"%string ->
            dict_get k (build_params expansions extensions query) = None.
Proof.
  unfold build_params.
  destruct (given expansions), (given extensions), (given query);
    cbv beta iota zeta; repeat split; intros;
    repeat (rewrite dict_get_set_other by (assumption || discriminate));
    rewrite ?dict_get_set; reflexivity.
Qed.

(** X1.  On a client with a current token [fetch_item] sends exactly one
    GET, to [urljoin(base_url, endpoint)], under the client's headers; the
    query parameters are [expansions], [extensions] and [q], each present
    exactly when its argument is a non-empty string, and nothing else.
    It returns the response, and when the request fails the error is not
    caught: it reaches the caller. *)
Theorem fetch_item_one_request (resource_endpoint : string)
  (expansions extensions query : option string) (E : env) (st : state)
  (h : list (string * string)) :
  authenticated E st ->
  headers (self st) = Some h ->
  let r := item_request (urljoin (base_url (self st)) resource_endpoint) h
                        (build_params expansions extensions query) in
  fetch_item resource_endpoint expansions extensions query E st =
    (match server E (List.length (sent (outside st))) r with
     | Responds x => Ok (VResponse x)
     | Fails => Raise RequestError
     end, logged r (tick st)) /\
  (forall s, expansions = Some s -> s <> ""%string ->
             dict_get "expansions" (req_params r) = Some (JStr s)) /\
  (forall s, extensions = Some s -> s <> ""%string ->
             dict_get "extensions" (req_params r) = Some (JStr s)) /\
  (forall s, query = Some s -> s <> ""%string ->
             dict_get "q" (req_params r) = Some (JStr s)) /\
  (expansions = None \/ expansions = Some ""%string ->
   dict_get "expansions" (req_params r) = None) /\
  (extensions = None \/ extensions = Some ""%string ->
   dict_get "extensions" (req_params r) = None) /\
  (query = None \/ query = Some ""%string ->
   dict_get "q" (req_params r) = None) /\
  (forall k, k <> "expansions"%string -> k <> "extensions"%string ->
             k <> "q"%string -> dict_get k (req_params r) = None).
Proof.
  intros Hauth Hh r.
  destruct (build_params_lookup expansions extensions query)
    as (He & Hx & Hq & Hother).
  split.
  - rewrite (@fetch_item_after_check resource_endpoint expansions extensions
               query E st (tick st) (refresh_authenticated Hauth)).
    change (headers (self (tick st))) with (headers (self st)). rewrite Hh.
    cbv zeta. fold r.
    change (sent (outside (tick st))) with (sent (outside st)).
    now destruct (server E _ r).
  - simpl req_params.
    repeat split.
    + intros s H1 H2. rewrite He, (proj1 (given_spec expansions) s H1 H2).
      reflexivity.
    + intros s H1 H2. rewrite Hx, (proj1 (given_spec extensions) s H1 H2).
      reflexivity.
    + intros s H1 H2. rewrite Hq, (proj1 (given_spec query) s H1 H2).
      reflexivity.
    + intros H. now rewrite He, (proj2 (given_spec expansions) H).
    + intros H. now rewrite Hx, (proj2 (given_spec extensions) H).
    + intros H. now rewrite Hq, (proj2 (given_spec query) H).
    + exact Hother.
Qed.

(** X2.  [fetch_metadata] on a client that holds headers sends one GET to
    [urljoin(base_url, "ws/v1/metadata")] and returns what the answer's
    JSON holds under ["metadata"]; nothing is caught, so a failed request,
    a body that is not JSON, a JSON value that is not an object and a
    missing key each raise ([RequestError], [JSONDecodeError], [TypeError],
    [KeyError]).  Without headers it raises [AttributeError] and sends
    nothing. *)
Theorem fetch_metadata_result (E : env) (st : state) :
  (forall h,
     headers (self st) = Some h ->
     let r := item_request (urljoin (base_url (self st)) "ws/v1/metadata") h
                           [] in
     let a := server E (List.length (sent (outside st))) r in
     fetch_metadata E st = (item_under "metadata" a, logged r st) /\
     (a = Fails -> item_under "metadata" a = Raise RequestError) /\
     (forall x, a = Responds x -> content x = None ->
                item_under "metadata" a = Raise JSONDecodeError) /\
     (forall x kv, a = Responds x -> content x = Some (JObj kv) ->
                   dict_get "metadata" kv = None ->
                   item_under "metadata" a = Raise KeyError) /\
     (forall x kv v, a = Responds x -> content x = Some (JObj kv) ->
                     dict_get "metadata" kv = Some v ->
                     item_under "metadata" a = Ok v) /\
     (forall x l, a = Responds x -> content x = Some (JArr l) ->
                  item_under "metadata" a = Raise TypeError)) /\
  (headers (self st) = None ->
   fetch_metadata E st = (Raise AttributeError, st)).
Proof.
  split.
  - intros h Hh r a. split.
    + unfold fetch_metadata. unfold_monad. rewrite Hh. unfold httpx_send.
      fold (item_request (urljoin (base_url (self st)) "ws/v1/metadata") h []).
      fold r. fold a. unfold item_under.
      destruct a as [x|]; [|reflexivity].
      destruct (content x) as [j|]; [|reflexivity]. simpl.
      now destruct (py_getitem j "metadata").
    + repeat split.
      * intros ->. reflexivity.
      * intros x -> Hc. simpl. now rewrite Hc.
      * intros x kv -> Hc Hk. simpl. rewrite Hc. simpl. now rewrite Hk.
      * intros x kv v -> Hc Hk. simpl. rewrite Hc. simpl. now rewrite Hk.
      * intros x l -> Hc. simpl. now rewrite Hc.
  - intros Hh. unfold fetch_metadata. unfold_monad. now rewrite Hh.
Qed.

(** What every non-paging endpoint does after its path is built. *)
Lemma single_record_spec (path key : string) (with_expansions : option string)
  (E : env) (st : state) (h : list (string * string)) :
  authenticated E st ->
  headers (self st) = Some h ->
  let r := item_request (urljoin (base_url (self st)) path) h
                        (build_params with_expansions None None) in
  (data <- fetch_item path with_expansions None None ;;
   j <- json_method data ;;
   lift (py_getitem j key)) E st =
  (item_under key (server E (List.length (sent (outside st))) r),
   logged r (tick st)).
Proof.
  intros Hauth Hh r. unfold bind at 1.
  rewrite (@fetch_item_after_check path with_expansions None None E st
             (tick st) (refresh_authenticated Hauth)).
  change (headers (self (tick st))) with (headers (self st)). rewrite Hh.
  cbv zeta. fold r.
  change (sent (outside (tick st))) with (sent (outside st)).
  unfold item_under.
  destruct (server E _ r) as [x|]; [|reflexivity].
  unfold json_method. unfold_monad.
  destruct (content x) as [j|]; [|reflexivity].
  now destruct (py_getitem j key).
Qed.

(** X3.  Each of the seven non-paging endpoints, called on a client with
    a current token, sends one GET to its path (the identifier written in
    decimal) and returns what the answer's JSON holds under the resource's
    key; a failed request, a body that is not JSON, a non-object and a
    missing key are not caught and raise. *)
Theorem single_record_endpoints (E : env) (st : state)
  (h : list (string * string)) (id : Z) (with_expansions : option string) :
  authenticated E st ->
  headers (self st) = Some h ->
  let answer path exps :=
    server E (List.length (sent (outside st)))
      (item_request (urljoin (base_url (self st)) path) h
                    (build_params exps None None)) in
  let after path exps :=
    logged (item_request (urljoin (base_url (self st)) path) h
                         (build_params exps None None)) (tick st) in
  course_for_dcid id E st =
    (item_under "course" (answer ("ws/v1/course/" ++ str_of_int id)%string None),
     after ("ws/v1/course/" ++ str_of_int id)%string None) /\
  current_district with_expansions E st =
    (item_under "district" (answer "ws/v1/district"%string with_expansions),
     after "ws/v1/district"%string with_expansions) /\
  school_for_id id with_expansions E st =
    (item_under "school"
       (answer ("ws/v1/school/" ++ str_of_int id)%string with_expansions),
     after ("ws/v1/school/" ++ str_of_int id)%string with_expansions) /\
  section_for_dcid id with_expansions E st =
    (item_under "section"
       (answer ("ws/v1/section/" ++ str_of_int id)%string with_expansions),
     after ("ws/v1/section/" ++ str_of_int id)%string with_expansions) /\
  staff_for_dcid id with_expansions E st =
    (item_under "staff"
       (answer ("ws/v1/staff/" ++ str_of_int id)%string with_expansions),
     after ("ws/v1/staff/" ++ str_of_int id)%string with_expansions) /\
  student_for_dcid id with_expansions E st =
    (item_under "student"
       (answer ("ws/v1/student/" ++ str_of_int id)%string with_expansions),
     after ("ws/v1/student/" ++ str_of_int id)%string with_expansions) /\
  term_for_dcid id E st =
    (item_under "term" (answer ("ws/v1/term/" ++ str_of_int id)%string None),
     after ("ws/v1/term/" ++ str_of_int id)%string None).
Proof.
  intros Hauth Hh answer after. subst answer after. cbv beta.
  repeat split; apply single_record_spec; assumption.
Qed.

(* ================================================================== *)
(** ** What the request methods leave alone *)

Lemma untouched_refl (c : client) : untouched c c.
Proof.
  unfold untouched. repeat split.
  destruct (headers c); [intros k _; reflexivity | exact I].
Qed.

Lemma untouched_trans (c1 c2 c3 : client) :
  untouched c1 c2 -> untouched c2 c3 -> untouched c1 c3.
Proof.
  intros (Hb & Hi & Hs & Hh) (Hb' & Hi' & Hs' & Hh').
  unfold untouched. repeat split; try congruence.
  destruct (headers c1), (headers c2), (headers c3); try contradiction;
    try exact I.
  intros k Hk. rewrite (Hh' k Hk). apply Hh, Hk.
Qed.

Lemma stable_ret {A : Type} (a : A) : stable (ret a).
Proof. intros E st. apply untouched_refl. Qed.

Lemma stable_raise {A : Type} (e : exn) : stable (raise (A := A) e).
Proof. intros E st. apply untouched_refl. Qed.

Lemma stable_lift {A : Type} (r : result A) : stable (lift r).
Proof. intros E st. apply untouched_refl. Qed.

Lemma stable_get_self : stable get_self.
Proof. intros E st. apply untouched_refl. Qed.

Lemma stable_now : stable datetime_now.
Proof. intros E st. apply untouched_refl. Qed.

Lemma stable_stderr_write (d : diag) : stable (stderr_write d).
Proof. intros E st. apply untouched_refl. Qed.

Lemma stable_send (r : request) : stable (httpx_send r).
Proof.
  intros E st. unfold httpx_send.
  destruct (server E _ r); apply untouched_refl.
Qed.

Lemma stable_bind {A B : Type} (m : M A) (k : A -> M B) :
  stable m -> (forall a, stable (k a)) -> stable (bind m k).
Proof.
  intros Hm Hk E st. unfold bind. specialize (Hm E st).
  destruct (m E st) as [[a|e] st1]; simpl in *.
  - eapply untouched_trans; [exact Hm | apply Hk].
  - exact Hm.
Qed.

Lemma stable_try_except {A : Type} (m : M A) (handler : exn -> M A) :
  stable m -> (forall e, stable (handler e)) -> stable (try_except m handler).
Proof.
  intros Hm Hh E st. unfold try_except. specialize (Hm E st).
  destruct (m E st) as [[a|e] st1]; simpl in *.
  - exact Hm.
  - eapply untouched_trans; [exact Hm | apply Hh].
Qed.

Lemma stable_response_json (r : response) : stable (response_json r).
Proof. unfold response_json. destruct (content r); [apply stable_ret | apply stable_raise]. Qed.

Lemma stable_get_headers : stable get_headers.
Proof.
  unfold get_headers. apply stable_bind; [apply stable_get_self|].
  intros c. destruct (headers c); [apply stable_ret | apply stable_raise].
Qed.

Lemma stable_set_access_token_response (t : token_response) :
  stable (set_access_token_response t).
Proof.
  intros E st. unfold set_access_token_response. unfold_monad. simpl.
  unfold untouched. simpl. repeat split.
  destruct (headers (self st)); [intros k _; reflexivity | exact I].
Qed.

Lemma stable_set_authorization (v : string) : stable (set_authorization v).
Proof.
  intros E st. unfold set_authorization. unfold_monad.
  destruct (headers (self st)) as [h|] eqn:Hh; simpl.
  - unfold untouched. simpl. rewrite Hh. repeat split.
    intros k Hk. now apply dict_get_set_other.
  - apply untouched_refl.
Qed.

Ltac stable_step :=
  first
    [ apply stable_ret | apply stable_raise | apply stable_lift
    | apply stable_get_self | apply stable_now | apply stable_stderr_write
    | apply stable_send | apply stable_response_json
    | apply stable_get_headers | apply stable_set_access_token_response
    | apply stable_set_authorization
    | apply stable_bind; [|intros ?]
    | apply stable_try_except; [|intros ?]
    | match goal with
      | |- stable (match ?x with _ => _ end) => destruct x
      end ].

Lemma stable_access_token : stable _access_token.
Proof. unfold _access_token. repeat stable_step. Qed.

Lemma stable_refresh : stable refresh_if_expired.
Proof.
  unfold refresh_if_expired, _access_token_expired.
  repeat first [ apply stable_access_token | stable_step ].
Qed.

Lemma stable_while_loop {S R : Type} (body : S -> M (step S R)) (fuel : nat) :
  (forall s, stable (body s)) ->
  forall s, stable_loop (while_loop fuel body s).
Proof.
  intros Hbody. induction fuel as [|fuel IH]; intros s E st; simpl.
  - apply untouched_refl.
  - specialize (Hbody s E st).
    destruct (body s E st) as [[[s'|r]|e] st1]; simpl in *; try exact Hbody.
    eapply untouched_trans; [exact Hbody | apply IH].
Qed.

Lemma stable_bind_loop {A B : Type} (m : M A) (k : A -> L B) :
  stable m -> (forall a, stable_loop (k a)) -> stable_loop (bind_loop m k).
Proof.
  intros Hm Hk E st. unfold bind_loop. specialize (Hm E st).
  destruct (m E st) as [[a|e] st1]; simpl in *.
  - eapply untouched_trans; [exact Hm | apply Hk].
  - exact Hm.
Qed.

Lemma stable_resource_count (resource_url : string)
  (params : list (string * json)) : stable (resource_count resource_url params).
Proof.
  unfold resource_count. repeat first [ apply stable_refresh | stable_step ].
Qed.

Lemma stable_fetch_items_body (endpoint_url key_1 key_2 : string) (n : json)
  (v : items_vars) : stable (fetch_items_body endpoint_url key_1 key_2 n v).
Proof. unfold fetch_items_body, fetch_page. repeat stable_step. Qed.

Lemma stable_powerquery_body (powerquery_url body : string) (n : json)
  (v : query_vars) : stable (powerquery_body powerquery_url body n v).
Proof.
  intros E st. unfold powerquery_body, report_key_error. unfold_monad.
  destruct (py_len_lt _ n) as [[|]|e]; simpl; try apply untouched_refl.
  destruct (headers (self st)) as [h|]; simpl; [|apply untouched_refl].
  unfold httpx_send.
  destruct (server E _ _) as [x|]; simpl; [|apply untouched_refl].
  destruct (content x) as [j|]; simpl; [|apply untouched_refl].
  destruct (py_getitem j "record") as [rec|e]; simpl.
  - destruct (py_iter rec) as [items|e]; simpl; [apply untouched_refl|].
    destruct e; simpl; try apply untouched_refl.
    destruct (py_get j "message" JNull) as [m|]; simpl;
      [|apply untouched_refl].
    destruct (py_eq_str m "Validation Failed"); simpl;
      [destruct (py_get j "errors" JNull); simpl|]; apply untouched_refl.
  - destruct e; simpl; try apply untouched_refl.
    destruct (py_get j "message" JNull) as [m|]; simpl;
      [|apply untouched_refl].
    destruct (py_eq_str m "Validation Failed"); simpl;
      [destruct (py_get j "errors" JNull); simpl|]; apply untouched_refl.
Qed.

Lemma stable_fetch_item (endpoint : string)
  (expansions extensions query : option string) :
  stable (fetch_item endpoint expansions extensions query).
Proof.
  unfold fetch_item. repeat first [ apply stable_refresh | stable_step ].
Qed.

Lemma stable_fetch_metadata : stable fetch_metadata.
Proof. unfold fetch_metadata. repeat stable_step. Qed.

Lemma stable_post_data (endpoint : string) (body : json) :
  stable (post_data endpoint body).
Proof.
  unfold post_data. repeat first [ apply stable_refresh | stable_step ].
Qed.

Lemma stable_fetch_items (fuel : nat) (endpoint : string)
  (expansions extensions query : option string) :
  stable_loop (fetch_items fuel endpoint expansions extensions query).
Proof.
  unfold fetch_items. apply stable_bind_loop.
  - repeat first [ apply stable_resource_count | stable_step ].
  - intros [[u pr] n]. apply stable_while_loop.
    intros v. apply stable_fetch_items_body.
Qed.

Lemma stable_powerquery (fuel : nat) (endpoint : string) (args : option json) :
  stable_loop (powerquery fuel endpoint args).
Proof.
  unfold powerquery. apply stable_bind_loop.
  - repeat first [ apply stable_refresh | stable_step ].
  - intros [[u b] n]. apply stable_while_loop.
    intros v. apply stable_powerquery_body.
Qed.

(** X4.  No request method changes the base URL, the client ID or the
    client secret of the object, creates or deletes its headers, or
    touches a header other than [Authorization]: whatever the server and
    the clock do, and however the call ends, [fetch_item],
    [fetch_metadata], [post_data], [resource_count], [fetch_items] and
    [powerquery] leave all that as it was. *)
Theorem requests_leave_object_untouched (E : env) (st : state) :
  (forall endpoint expansions extensions query,
     untouched (self st)
       (self (snd (fetch_item endpoint expansions extensions query E st)))) /\
  untouched (self st) (self (snd (fetch_metadata E st))) /\
  (forall endpoint body,
     untouched (self st) (self (snd (post_data endpoint body E st)))) /\
  (forall resource_url params,
     untouched (self st) (self (snd (resource_count resource_url params E st))))
  /\
  (forall fuel endpoint expansions extensions query,
     untouched (self st)
       (self (snd (fetch_items fuel endpoint expansions extensions query E st))))
  /\
  (forall fuel endpoint args,
     untouched (self st) (self (snd (powerquery fuel endpoint args E st)))).
Proof.
  refine (conj _ (conj _ (conj _ (conj _ (conj _ _))))); intros.
  - apply stable_fetch_item.
  - apply stable_fetch_metadata.
  - apply stable_post_data.
  - apply stable_resource_count.
  - apply stable_fetch_items.
  - apply stable_powerquery.
Qed.

(* ================================================================== *)
(** ** The token manager when the token endpoint does not grant *)

(** X5.  When the token endpoint answers a first call with a JSON object
    that carries an [error] and no [expires_in] (what a refused
    client-credentials exchange looks like), [_access_token] writes the
    error to [stderr] when it is truthy, stores no token, and raises
    [KeyError].  A construction in that situation therefore raises nothing,
    writes both lines to [stderr] and leaves the object without headers. *)
Theorem refused_token_raises_key_error (E : env) (st : state) (x : response)
  (body : list (string * json)) (err : json) :
  access_token_response (self st) = None ->
  server E (List.length (sent (outside st))) (token_request (self st))
    = Responds x ->
  content x = Some (JObj body) ->
  dict_get "error" body = Some err ->
  dict_get "expires_in" body = None ->
  let reported :=
    if py_truthy err
    then warned (DiagAuthError err) (logged (token_request (self st)) st)
    else logged (token_request (self st)) st in
  _access_token E st = (Raise KeyError, tick reported) /\
  access_token_response (self (tick reported)) = None /\
  (forall url id secret,
     base_url (self st) = url -> client_id (self st) = id ->
     client_secret (self st) = secret -> headers (self st) = None ->
     __init__ url id secret E st
       = (Ok tt, warned (DiagInit KeyError) (tick reported))).
Proof.
  intros Hnone Hx Hc Herr Hexp reported.
  assert (Hrun : _access_token E st = (Raise KeyError, tick reported)).
  { unfold _access_token. unfold_monad. rewrite Hnone.
    unfold httpx_send. fold (token_request (self st)). rewrite Hx.
    cbv iota beta. rewrite Hc. simpl. rewrite Herr. subst reported.
    destruct (py_truthy err); simpl; now rewrite Hexp. }
  split; [exact Hrun|]. split.
  - subst reported. destruct (py_truthy err); exact Hnone.
  - intros url id secret Hb Hi Hs Hh. unfold __init__.
    unfold bind at 1, get_self at 1. unfold bind at 1, put_self at 1.
    replace (mkState (mkClient url id secret (headers (self st))
                               (access_token_response (self st)))
                     (outside st)) with st
      by (destruct st as [[b i s hd tk] w]; simpl in *; congruence).
    unfold try_except, bind at 1. rewrite Hrun. reflexivity.
Qed.

(** X6.  [_access_token] stores the token endpoint's dictionary before it
    reads ["access_token"] from it.  So when a first call gets an answer
    with a usable [expires_in] but no [access_token], it raises [KeyError]
    and the answer stays cached: until the expiration it declares, every
    further call raises [KeyError] again without asking the server, and
    the token check of the request methods finds nothing to renew. *)
Theorem token_without_access_token_is_cached (E : env) (st : state)
  (x : response) (body : list (string * json)) (v : json)
  (seconds : Z) (expiration : datetime) :
  access_token_response (self st) = None ->
  server E (List.length (sent (outside st))) (token_request (self st))
    = Responds x ->
  content x = Some (JObj body) ->
  dict_get "expires_in" body = Some v ->
  py_int v = Ok seconds ->
  add_seconds (clock E (ticks (outside st))) seconds = Ok expiration ->
  dict_get "access_token" body = None ->
  fst (_access_token E st) = Raise KeyError /\
  access_token_response (self (snd (_access_token E st)))
    = Some (mkToken body expiration) /\
  forall st2,
    self st2 = self (snd (_access_token E st)) ->
    clock E (ticks (outside st2)) < expiration ->
    _access_token E st2 = (Raise KeyError, tick st2) /\
    refresh_if_expired E st2 = (Ok tt, tick st2).
Proof.
  intros Hnone Hx Hc Hv Hs He Htok.
  assert (Hrun : exists st1,
            _access_token E st = (Raise KeyError, st1) /\
            access_token_response (self st1) = Some (mkToken body expiration)).
  { unfold _access_token. unfold_monad. rewrite Hnone.
    unfold httpx_send. fold (token_request (self st)). rewrite Hx.
    cbv iota beta. rewrite Hc. simpl.
    destruct (dict_get "error" body) as [err|]; simpl;
      [destruct (py_truthy err); simpl|];
      rewrite Hv; simpl; rewrite Hs; simpl; rewrite He; simpl;
      rewrite Htok; simpl; eexists; split; reflexivity. }
  destruct Hrun as (st1 & Hrun & Ht). rewrite Hrun. simpl.
  split; [reflexivity|]. split; [exact Ht|].
  intros st2 Hself Hlt. rewrite <- Hself in Ht. split.
  - unfold _access_token. unfold_monad. rewrite Ht. simpl.
    apply Z.ltb_lt in Hlt. rewrite Hlt. simpl. now rewrite Htok.
  - exact (@refresh_valid E st2 _ Ht Hlt).
Qed.

(** [fetch_items] is its count followed by its loop. *)
Lemma fetch_items_prelude (fuel : nat) (resource_endpoint : string)
  (expansions extensions query : option string) (E : env) (st : state) :
  fetch_items fuel resource_endpoint expansions extensions query E st =
  let endpoint_url := urljoin (base_url (self st)) resource_endpoint in
  let params := build_params expansions extensions query in
  match resource_count endpoint_url params E st with
  | (Ok n, st1) =>
      while_loop fuel
        (fetch_items_body endpoint_url (resource_name resource_endpoint ++ "s")
                          (resource_name resource_endpoint) n)
        (mkItems params [] 1%nat) E st1
  | (Raise e, st1) => (Some (Raise e), st1)
  end.
Proof.
  unfold fetch_items, bind_loop. unfold_monad. cbv zeta.
  now destruct (resource_count _ _ E st) as [[n|e] st1].
Qed.

(** X7.  Headers are only ever assigned by [__init__].  On an object
    without headers (the construction could not get a token) no request
    method can succeed, whatever the server answers from then on:
    [fetch_item], [fetch_metadata] and [powerquery] raise, [post_data]
    raises or returns [None], [resource_count] raises or returns [0],
    [fetch_items] raises or returns the empty list; and the object still
    has no headers afterwards. *)
Theorem no_headers_no_service (E : env) (st : state) :
  headers (self st) = None ->
  (forall endpoint expansions extensions query,
     exists e, fst (fetch_item endpoint expansions extensions query E st)
               = Raise e) /\
  fst (fetch_metadata E st) = Raise AttributeError /\
  (forall endpoint body,
     fst (post_data endpoint body E st) = Ok JNull \/
     exists e, fst (post_data endpoint body E st) = Raise e) /\
  (forall resource_url params,
     fst (resource_count resource_url params E st) = Ok (JInt 0) \/
     exists e, fst (resource_count resource_url params E st) = Raise e) /\
  (forall fuel endpoint expansions extensions query,
     fst (fetch_items (S fuel) endpoint expansions extensions query E st)
       = Some (Ok []) \/
     exists e,
       fst (fetch_items (S fuel) endpoint expansions extensions query E st)
         = Some (Raise e)) /\
  (forall fuel endpoint args,
     exists e, fst (powerquery fuel endpoint args E st) = Some (Raise e)) /\
  (forall endpoint expansions extensions query,
     headers (self (snd (fetch_item endpoint expansions extensions query
                                    E st))) = None) /\
  (forall fuel endpoint expansions extensions query,
     headers (self (snd (fetch_items fuel endpoint expansions extensions
                                     query E st))) = None).
Proof.
  intros Hh.
  assert (Hcheck : forall st1,
            refresh_if_expired E st = (Ok tt, st1) ->
            headers (self st1) = None).
  { intros st1 Hc. pose proof (stable_refresh E st) as (_ & _ & _ & H).
    rewrite Hc in H. simpl in H. rewrite Hh in H.
    now destruct (headers (self st1)). }
  assert (Hcount : forall resource_url params,
            (exists st1, resource_count resource_url params E st
                         = (Ok (JInt 0), st1)) \/
            exists e st1, resource_count resource_url params E st
                          = (Raise e, st1)).
  { intros resource_url params.
    destruct (refresh_if_expired E st) as [[[]|e] st1] eqn:Hc.
    - left. rewrite (@resource_count_after_check resource_url params E st st1
                       Hc), (Hcheck st1 eq_refl). eauto.
    - right. unfold resource_count, bind at 1. rewrite Hc. eauto. }
  refine (conj _ (conj _ (conj _ (conj _ (conj _ (conj _ (conj _ _))))))).
  - intros endpoint expansions extensions query.
    destruct (refresh_if_expired E st) as [[[]|e] st1] eqn:Hc.
    + rewrite (@fetch_item_after_check endpoint expansions extensions query
                 E st st1 Hc), (Hcheck st1 eq_refl). simpl. eauto.
    + unfold fetch_item. unfold bind at 1, get_self at 1. unfold bind at 1.
      rewrite Hc. simpl. eauto.
  - unfold fetch_metadata. unfold_monad. now rewrite Hh.
  - intros endpoint body. unfold post_data. unfold_monad.
    destruct (refresh_if_expired E st) as [[[]|e] st1] eqn:Hc.
    + left. now rewrite (Hcheck st1 eq_refl).
    + right. simpl. eauto.
  - intros resource_url params.
    destruct (Hcount resource_url params) as [[st1 H] | (e & st1 & H)];
      rewrite H; simpl; eauto.
  - intros fuel endpoint expansions extensions query.
    rewrite fetch_items_prelude. cbv zeta.
    destruct (Hcount (urljoin (base_url (self st)) endpoint)
                     (build_params expansions extensions query))
      as [[st1 H] | (e & st1 & H)]; rewrite H.
    + left. reflexivity.
    + right. simpl. eauto.
  - intros fuel endpoint args. unfold powerquery, bind_loop. unfold bind at 1.
    destruct (refresh_if_expired E st) as [[[]|e] st1] eqn:Hc.
    + unfold_monad. rewrite (Hcheck st1 eq_refl). simpl. eauto.
    + simpl. eauto.
  - intros endpoint expansions extensions query.
    pose proof (stable_fetch_item endpoint expansions extensions query E st)
      as (_ & _ & _ & H).
    rewrite Hh in H.
    destruct (headers (self (snd _))); [contradiction | reflexivity].
  - intros fuel endpoint expansions extensions query.
    pose proof (stable_fetch_items fuel endpoint expansions extensions query
                                   E st) as (_ & _ & _ & H).
    rewrite Hh in H.
    destruct (headers (self (snd _))); [contradiction | reflexivity].
Qed.

(* ================================================================== *)
(** ** The two loops, pass by pass *)

Lemma fetch_items_authenticated (fuel : nat) (resource_endpoint : string)
  (expansions extensions query : option string) (E : env) (st : state)
  (h : list (string * string)) :
  authenticated E st ->
  headers (self st) = Some h ->
  let endpoint_url := urljoin (base_url (self st)) resource_endpoint in
  let params := build_params expansions extensions query in
  let r := count_request endpoint_url h params in
  let loop n :=
    while_loop fuel
      (fetch_items_body endpoint_url (resource_name resource_endpoint ++ "s")
                        (resource_name resource_endpoint) n)
      (mkItems params [] 1%nat) E in
  fetch_items fuel resource_endpoint expansions extensions query E st =
  match count_of (server E (List.length (sent (outside st))) r) with
  | Ok n => loop n (logged r (tick st))
  | Raise e => loop (JInt 0) (warned (DiagCount e) (logged r (tick st)))
  end.
Proof.
  intros Hauth Hh endpoint_url params r loop.
  rewrite fetch_items_prelude. cbv zeta. fold endpoint_url. fold params.
  rewrite (@resource_count_after_check endpoint_url params E st (tick st)
             (refresh_authenticated Hauth)).
  change (headers (self (tick st))) with (headers (self st)). rewrite Hh.
  cbv zeta. fold r.
  change (sent (outside (tick st))) with (sent (outside st)).
  now destruct (count_of _).
Qed.

Lemma powerquery_authenticated (fuel : nat) (powerquery_endpoint : string)
  (args : option json) (E : env) (st : state) (h : list (string * string)) :
  authenticated E st ->
  headers (self st) = Some h ->
  let powerquery_url := urljoin (base_url (self st)) powerquery_endpoint in
  let body := query_body args in
  let r := query_count_request powerquery_url h body in
  powerquery fuel powerquery_endpoint args E st =
  match query_count_of (server E (List.length (sent (outside st))) r) with
  | Ok n =>
      while_loop fuel (powerquery_body powerquery_url body n) (mkQuery [] 1) E
                 (logged r (tick st))
  | Raise e => (Some (Raise e), logged r (tick st))
  end.
Proof.
  intros Hauth Hh powerquery_url body r.
  unfold powerquery, bind_loop. unfold bind at 1.
  rewrite (refresh_authenticated Hauth). unfold_monad.
  change (headers (self (tick st))) with (headers (self st)). rewrite Hh.
  change (base_url (self (tick st))) with (base_url (self st)).
  fold powerquery_url. fold (query_body args). fold body.
  unfold httpx_send. fold (query_count_request powerquery_url h body). fold r.
  change (sent (outside (tick st))) with (sent (outside st)).
  unfold query_count_of.
  destruct (server E _ r) as [x|]; [|reflexivity].
  destruct (content x) as [j|]; [|reflexivity]. simpl.
  now destruct (py_get j "count" (JInt 0)).
Qed.

(** One pass of the loop of [fetch_items], on an object with headers. *)
Lemma fetch_items_body_step (endpoint_url key_1 key_2 : string) (n : json)
  (v : items_vars) (E : env) (st : state) (h : list (string * string)) :
  headers (self st) = Some h ->
  fetch_items_body endpoint_url key_1 key_2 n v E st =
  match py_len_lt (List.length (iv_data v)) n with
  | Raise e => (Raise e, st)
  | Ok false => (Ok (Return (iv_data v)), st)
  | Ok true =>
      let r := page_request endpoint_url h (iv_params v) (iv_page_number v) in
      match page_items key_1 key_2
              (server E (List.length (sent (outside st))) r) with
      | Ok items =>
          (Ok (Continue (mkItems (req_params r) (iv_data v ++ items)
                                 (S (iv_page_number v)))),
           logged r st)
      | Raise e => (Ok (Return []), warned (DiagItems e) (logged r st))
      end
  end.
Proof.
  intros Hh. unfold fetch_items_body, fetch_page. unfold_monad.
  destruct (py_len_lt _ n) as [[|]|e]; try reflexivity.
  rewrite Hh. cbv zeta. unfold httpx_send, page_items, page_request.
  destruct (server E _ _) as [x|]; [|reflexivity].
  destruct (content x) as [j|]; [|reflexivity]. simpl.
  destruct (py_getitem j key_1) as [outer|]; [|reflexivity]. simpl.
  destruct (py_getitem outer key_2) as [inner|]; [|reflexivity]. simpl.
  now destruct inner.
Qed.

(** One pass of the loop of [powerquery], on an object with headers. *)
Lemma powerquery_body_step (powerquery_url body : string) (n : json)
  (v : query_vars) (E : env) (st : state) (h : list (string * string)) :
  headers (self st) = Some h ->
  powerquery_body powerquery_url body n v E st =
  match py_len_lt (List.length (pv_data v)) n with
  | Raise e => (Raise e, st)
  | Ok false => (Ok (Return (pv_data v)), st)
  | Ok true =>
      let r := query_page_request powerquery_url h body (pv_page v) in
      let a := server E (List.length (sent (outside st))) r in
      match query_page_items a with
      | Ok items =>
          (Ok (Continue (mkQuery (pv_data v ++ items) (pv_page v + 1))),
           logged r st)
      | Raise e =>
          (Ok (Return []), warned (query_failure_diag a e) (logged r st))
      end
  end.
Proof.
  intros Hh. unfold powerquery_body, report_key_error. unfold_monad.
  destruct (py_len_lt _ n) as [[|]|e]; try reflexivity.
  rewrite Hh. cbv zeta.
  unfold httpx_send, query_page_items, query_page_request, query_failure_diag.
  destruct (server E _ _) as [[c]|]; [|reflexivity]. simpl.
  destruct c as [j|]; [|reflexivity]. simpl.
  destruct j as [| | | | | |kv]; try reflexivity. simpl.
  destruct (dict_get "record" kv) as [rec|]; simpl.
  - destruct rec; reflexivity.
  - destruct (dict_get "message" kv) as [m|]; simpl;
      [destruct (py_eq_str m "Validation Failed"); simpl;
       [destruct (dict_get "errors" kv); simpl|]|]; reflexivity.
Qed.

Lemma py_len_lt_raises (k : nat) (n : json) (e : exn) :
  py_len_lt k n = Raise e -> e = TypeError /\ not_a_number n.
Proof.
  destruct n as [| | |f| | |]; simpl; try discriminate;
    try (intros H; injection H as <-; now split).
  destruct f; discriminate.
Qed.

Lemma not_a_number_raises (k : nat) (n : json) :
  not_a_number n -> py_len_lt k n = Raise TypeError.
Proof. destruct n; simpl; intros H; (reflexivity || contradiction). Qed.

(** A loop whose passes test [len(data) < count], request the next page and
    either extend [data] with its items or report and return the empty
    list: both loops of the client are of this kind. *)
Section Passes.

Variable V : Type.
Variable body : V -> M (step V (list json)).
Variable count : json.
Variable h : list (string * string).
Variable E : env.
Variable data_of : V -> list json.
Variable page_no : V -> nat.
Variable inv : V -> Prop.
Variable next : V -> list json -> V.
Variable req : nat -> request.
Variable items : http_result -> result (list json).
Variable report : http_result -> exn -> diag.

Hypothesis body_step : forall v st,
  inv v -> headers (self st) = Some h ->
  body v E st =
  match py_len_lt (List.length (data_of v)) count with
  | Raise e => (Raise e, st)
  | Ok false => (Ok (Return (data_of v)), st)
  | Ok true =>
      let a := server E (List.length (sent (outside st))) (req (page_no v)) in
      match items a with
      | Ok l => (Ok (Continue (next v l)), logged (req (page_no v)) st)
      | Raise e =>
          (Ok (Return []), warned (report a e) (logged (req (page_no v)) st))
      end
  end.
Hypothesis inv_next : forall v l, inv v -> inv (next v l).
Hypothesis data_next : forall v l, data_of (next v l) = data_of v ++ l.
Hypothesis page_next : forall v l, inv v -> page_no (next v l) = S (page_no v).

Lemma passes_spec (fuel : nat) :
  forall (v : V) (st : state),
    inv v -> headers (self st) = Some h ->
    let out := while_loop fuel body v E st in
    let answer i :=
      server E (List.length (sent (outside st)) + i) (req (page_no v + i)) in
    exists m,
      (m <= fuel)%nat /\
      sent (outside (snd out)) =
        sent (outside st) ++ map req (seq (page_no v) m) /\
      self (snd out) = self st /\
      ticks (outside (snd out)) = ticks (outside st) /\
      stderr (outside (snd out)) =
        stderr (outside st) ++
        match m with
        | O => []
        | S m' => diag_of (report (answer m')) (items (answer m'))
        end /\
      (fst out = None -> m = fuel) /\
      (forall e, fst out = Some (Raise e) ->
         e = TypeError /\ not_a_number count) /\
      (forall data, fst out = Some (Ok data) ->
         data = [] \/
         count_reached data count /\
         data = data_of v ++
                concat (map (fun i => items_of (items (answer i))) (seq 0 m)) /\
         forall i, (i < m)%nat -> exists l, items (answer i) = Ok l).
Proof.
  induction fuel as [|fuel IH]; intros v st Hinv Hh out answer; subst out.
  - exists O. simpl. rewrite !app_nil_r.
    refine (conj _ (conj _ (conj _ (conj _ (conj _ (conj _ (conj _ _)))))));
      try reflexivity; discriminate.
  - simpl while_loop. rewrite (body_step st Hinv Hh).
    destruct (py_len_lt _ count) as [[|]|e] eqn:Hlt.
    + cbv zeta. destruct (items _) as [l|e] eqn:Hit.
      * destruct (IH (next v l) (logged (req (page_no v)) st)
                     (inv_next l Hinv) Hh)
          as (m & Hm & Hs & Hself & Ht & Herr & Hn & He & Hd).
        rewrite (page_next l Hinv) in *. simpl in Hs, Hself, Ht, Herr, Hd.
        rewrite length_app in Herr, Hd. simpl in Herr, Hd.
        exists (S m).
        refine (conj _ (conj _ (conj _ (conj _ (conj _ (conj _ (conj _ _)))))));
          try assumption.
        -- lia.
        -- rewrite Hs, <- app_assoc. reflexivity.
        -- rewrite Herr. f_equal. destruct m as [|m'].
           ++ unfold answer. rewrite !Nat.add_0_r, Hit. reflexivity.
           ++ unfold answer.
              replace (List.length (sent (outside st)) + 1 + m')%nat
                with (List.length (sent (outside st)) + S m')%nat by lia.
              replace (S (page_no v + m'))%nat
                with (page_no v + S m')%nat by lia.
              reflexivity.
        -- intros H. f_equal. now apply Hn.
        -- intros data H. destruct (Hd data H) as [->|(Hc & -> & Hok)];
             [now left | right]. split; [assumption|split].
           ++ rewrite data_next, <- app_assoc. f_equal.
              change (seq 0 (S m)) with (O :: seq 1 m).
              rewrite <- seq_shift. cbn [map]. rewrite map_map. cbn [concat].
              unfold answer at 1. rewrite !Nat.add_0_r, Hit. simpl items_of.
              f_equal. f_equal. apply map_ext. intros i. unfold answer.
              replace (List.length (sent (outside st)) + 1 + i)%nat
                with (List.length (sent (outside st)) + S i)%nat by lia.
              replace (S (page_no v + i))%nat
                with (page_no v + S i)%nat by lia.
              reflexivity.
           ++ intros [|i] Hi; unfold answer.
              ** rewrite !Nat.add_0_r, Hit. now exists l.
              ** destruct (Hok i) as [l' Hl]; [lia|]. exists l'.
                 rewrite <- Hl.
                 replace (List.length (sent (outside st)) + 1 + i)%nat
                   with (List.length (sent (outside st)) + S i)%nat by lia.
                 replace (S (page_no v + i))%nat
                   with (page_no v + S i)%nat by lia.
                 reflexivity.
      * exists 1%nat. simpl. unfold answer. rewrite !Nat.add_0_r, Hit. simpl.
        refine (conj _ (conj _ (conj _ (conj _ (conj _ (conj _ (conj _ _)))))));
          try reflexivity; try discriminate.
        -- lia.
        -- intros data H. injection H as <-. now left.
    + exists O. simpl. rewrite !app_nil_r.
      refine (conj _ (conj _ (conj _ (conj _ (conj _ (conj _ (conj _ _)))))));
        try reflexivity; try discriminate.
      * lia.
      * intros data H. injection H as <-. right.
        refine (conj Hlt (conj eq_refl _)). intros i Hi. lia.
    + exists O. simpl. rewrite !app_nil_r.
      refine (conj _ (conj _ (conj _ (conj _ (conj _ (conj _ (conj _ _)))))));
        try reflexivity; try discriminate.
      * lia.
      * intros e' H. injection H as <-. exact (py_len_lt_raises _ _ Hlt).
Qed.

End Passes.

Lemma items_loop_spec (endpoint_url key_1 key_2 : string) (n : json)
  (h : list (string * string)) (params : list (string * json)) (E : env)
  (fuel : nat) (st : state) :
  headers (self st) = Some h ->
  let out := while_loop fuel (fetch_items_body endpoint_url key_1 key_2 n)
                        (mkItems params [] 1%nat) E st in
  let answer i :=
    page_items key_1 key_2
      (server E (List.length (sent (outside st)) + i)
              (page_request endpoint_url h params (1 + i))) in
  exists m,
    (m <= fuel)%nat /\
    sent (outside (snd out)) =
      sent (outside st) ++ map (page_request endpoint_url h params) (seq 1 m) /\
    self (snd out) = self st /\
    ticks (outside (snd out)) = ticks (outside st) /\
    stderr (outside (snd out)) =
      stderr (outside st) ++
      match m with
      | O => []
      | S m' => diag_of DiagItems (answer m')
      end /\
    (fst out = None -> m = fuel) /\
    (forall e, fst out = Some (Raise e) -> e = TypeError /\ not_a_number n) /\
    (forall data, fst out = Some (Ok data) ->
       data = [] \/
       count_reached data n /\
       data = concat (map (fun i => items_of (answer i)) (seq 0 m)) /\
       forall i, (i < m)%nat -> exists l, answer i = Ok l).
Proof.
  intros Hh.
  apply (@passes_spec items_vars
           (fetch_items_body endpoint_url key_1 key_2 n) n h E
           iv_data iv_page_number
           (fun v => forall x, dict_set "page" x (iv_params v) =
                               dict_set "page" x params)
           (fun v l =>
              mkItems (dict_set "page" (JStr (str_of_nat (iv_page_number v)))
                                (iv_params v))
                      (iv_data v ++ l) (S (iv_page_number v)))
           (page_request endpoint_url h params)
           (page_items key_1 key_2) (fun _ e => DiagItems e)).
  - intros v s Hinv Hs. rewrite (@fetch_items_body_step _ _ _ _ _ _ _ h Hs).
    unfold page_request. rewrite Hinv. reflexivity.
  - intros v l Hinv x. simpl. rewrite dict_set_set. apply Hinv.
  - reflexivity.
  - reflexivity.
  - reflexivity.
  - exact Hh.
Qed.

Lemma query_loop_spec (powerquery_url body : string) (n : json)
  (h : list (string * string)) (E : env) (fuel : nat) (st : state) :
  headers (self st) = Some h ->
  let out := while_loop fuel (powerquery_body powerquery_url body n)
                        (mkQuery [] 1) E st in
  let request k := query_page_request powerquery_url h body (Z.of_nat k) in
  let answer i :=
    server E (List.length (sent (outside st)) + i) (request (1 + i)%nat) in
  exists m,
    (m <= fuel)%nat /\
    sent (outside (snd out)) = sent (outside st) ++ map request (seq 1 m) /\
    self (snd out) = self st /\
    ticks (outside (snd out)) = ticks (outside st) /\
    stderr (outside (snd out)) =
      stderr (outside st) ++
      match m with
      | O => []
      | S m' =>
          diag_of (query_failure_diag (answer m'))
                  (query_page_items (answer m'))
      end /\
    (fst out = None -> m = fuel) /\
    (forall e, fst out = Some (Raise e) -> e = TypeError /\ not_a_number n) /\
    (forall data, fst out = Some (Ok data) ->
       data = [] \/
       count_reached data n /\
       data = concat (map (fun i => items_of (query_page_items (answer i)))
                          (seq 0 m)) /\
       forall i, (i < m)%nat -> exists l, query_page_items (answer i) = Ok l).
Proof.
  intros Hh.
  apply (@passes_spec query_vars
           (powerquery_body powerquery_url body n) n h E
           pv_data (fun v => Z.to_nat (pv_page v))
           (fun v => (0 <= pv_page v)%Z)
           (fun v l => mkQuery (pv_data v ++ l) (pv_page v + 1))
           (fun k => query_page_request powerquery_url h body (Z.of_nat k))
           query_page_items query_failure_diag).
  - intros v s Hinv Hs. rewrite (@powerquery_body_step _ _ _ _ _ _ h Hs).
    rewrite Z2Nat.id by assumption. reflexivity.
  - intros v l Hinv. simpl. lia.
  - reflexivity.
  - intros v l Hinv. simpl. rewrite Z2Nat.inj_add by lia. simpl. lia.
  - simpl. lia.
  - exact Hh.
Qed.

(** The first test of each loop, when it does not let the loop in. *)
Lemma items_loop_stops (fuel : nat) (endpoint_url key_1 key_2 : string)
  (n : json) (params : list (string * json)) (E : env) (st : state) :
  py_len_lt 0 n <> Ok true ->
  while_loop (S fuel) (fetch_items_body endpoint_url key_1 key_2 n)
             (mkItems params [] 1%nat) E st =
  (match py_len_lt 0 n with
   | Ok _ => Some (Ok [])
   | Raise e => Some (Raise e)
   end, st).
Proof.
  intros H. simpl while_loop. unfold fetch_items_body. unfold_monad.
  simpl iv_data. simpl List.length.
  destruct (py_len_lt 0 n) as [[|]|e]; [now elim H | reflexivity..].
Qed.

Lemma query_loop_stops (fuel : nat) (powerquery_url body : string)
  (n : json) (E : env) (st : state) :
  py_len_lt 0 n <> Ok true ->
  while_loop (S fuel) (powerquery_body powerquery_url body n)
             (mkQuery [] 1) E st =
  (match py_len_lt 0 n with
   | Ok _ => Some (Ok [])
   | Raise e => Some (Raise e)
   end, st).
Proof.
  intros H. simpl while_loop. unfold powerquery_body. unfold_monad.
  simpl pv_data. simpl List.length.
  destruct (py_len_lt 0 n) as [[|]|e]; [now elim H | reflexivity..].
Qed.

(** X8.  Zero-count short-circuit.  On a client with a current token, when
    the count that [fetch_items] or [powerquery] obtains is already reached
    by the empty list (zero, a negative number, [False]), the call returns
    the empty list having sent the count request and nothing else.  The
    same holds for [fetch_items] when the count request fails (the error is
    reported and the count taken to be 0) and for [powerquery] when the
    answer to the count request is an object without a [count]. *)
Theorem zero_count_short_circuit (fuel : nat) (E : env) (st : state)
  (h : list (string * string)) :
  authenticated E st ->
  headers (self st) = Some h ->
  (forall resource_endpoint expansions extensions query,
     let r := count_request (urljoin (base_url (self st)) resource_endpoint) h
                            (build_params expansions extensions query) in
     let a := server E (List.length (sent (outside st))) r in
     let out := fetch_items (S fuel) resource_endpoint expansions extensions
                            query E st in
     (forall n, count_of a = Ok n -> count_reached [] n ->
        out = (Some (Ok []), logged r (tick st))) /\
     (forall e, count_of a = Raise e ->
        out = (Some (Ok []), warned (DiagCount e) (logged r (tick st))))) /\
  (forall powerquery_endpoint args,
     let r := query_count_request
                (urljoin (base_url (self st)) powerquery_endpoint) h
                (query_body args) in
     let a := server E (List.length (sent (outside st))) r in
     let out := powerquery (S fuel) powerquery_endpoint args E st in
     (forall n, query_count_of a = Ok n -> count_reached [] n ->
        out = (Some (Ok []), logged r (tick st))) /\
     (forall x kv,
        a = Responds x -> content x = Some (JObj kv) ->
        dict_get "count" kv = None ->
        out = (Some (Ok []), logged r (tick st)))) /\
  (forall c, (c <= 0)%Z -> count_reached [] (JInt c)).
Proof.
  intros Hauth Hh. refine (conj _ (conj _ _)).
  - intros ep expansions extensions query r a out. subst out a r. split.
    + intros n Hc Hz.
      rewrite (@fetch_items_authenticated (S fuel) ep expansions extensions
                 query E st h Hauth Hh).
      cbv zeta. rewrite Hc. unfold count_reached in Hz. simpl in Hz.
      rewrite items_loop_stops; rewrite Hz; [reflexivity | discriminate].
    + intros e Hc.
      rewrite (@fetch_items_authenticated (S fuel) ep expansions extensions
                 query E st h Hauth Hh).
      cbv zeta. rewrite Hc.
      rewrite items_loop_stops; [reflexivity | discriminate].
  - intros ep args r a out. subst out a r. split.
    + intros n Hc Hz.
      rewrite (@powerquery_authenticated (S fuel) ep args E st h Hauth Hh).
      cbv zeta. rewrite Hc. unfold count_reached in Hz. simpl in Hz.
      rewrite query_loop_stops; rewrite Hz; [reflexivity | discriminate].
    + intros x kv Ha Hx Hk.
      rewrite (@powerquery_authenticated (S fuel) ep args E st h Hauth Hh).
      assert (Hc : query_count_of (Responds x) = Ok (JInt 0))
        by (simpl; rewrite Hx; simpl; now rewrite Hk).
      cbv zeta. rewrite Ha, Hc.
      rewrite query_loop_stops; [reflexivity | discriminate].
  - intros c Hc. unfold count_reached. simpl. f_equal.
    apply Z.ltb_ge. exact Hc.
Qed.

(** X9.  Errors of the count step that reach the caller.  On a client with
    a current token, [powerquery] does not guard its count request: when
    that request fails, its answer is not JSON or is JSON but not an object,
    the exception is raised to the caller, nothing is written to [stderr]
    and no page is requested.  Both [fetch_items] and [powerquery] raise
    [TypeError] from the test of their loop, which is not guarded either,
    when the count they obtained is not a number ([None], a string, a list
    or an object). *)
Theorem count_step_errors_surface (fuel : nat) (E : env) (st : state)
  (h : list (string * string)) :
  authenticated E st ->
  headers (self st) = Some h ->
  (forall powerquery_endpoint args,
     let r := query_count_request
                (urljoin (base_url (self st)) powerquery_endpoint) h
                (query_body args) in
     let a := server E (List.length (sent (outside st))) r in
     let raises e :=
       powerquery fuel powerquery_endpoint args E st =
       (Some (Raise e), logged r (tick st)) in
     (forall e, query_count_of a = Raise e -> raises e) /\
     (a = Fails -> raises RequestError) /\
     (forall x, a = Responds x -> content x = None -> raises JSONDecodeError) /\
     (forall x j, a = Responds x -> content x = Some j ->
                  (forall kv, j <> JObj kv) -> raises AttributeError) /\
     (forall n, query_count_of a = Ok n -> not_a_number n ->
        powerquery (S fuel) powerquery_endpoint args E st =
        (Some (Raise TypeError), logged r (tick st)))) /\
  (forall resource_endpoint expansions extensions query n,
     let r := count_request (urljoin (base_url (self st)) resource_endpoint) h
                            (build_params expansions extensions query) in
     count_of (server E (List.length (sent (outside st))) r) = Ok n ->
     not_a_number n ->
     fetch_items (S fuel) resource_endpoint expansions extensions query E st =
     (Some (Raise TypeError), logged r (tick st))).
Proof.
  intros Hauth Hh. split.
  - intros ep args r a raises. subst raises a r.
    assert (Hr : forall e,
      query_count_of
        (server E (List.length (sent (outside st)))
           (query_count_request (urljoin (base_url (self st)) ep) h
                                (query_body args))) = Raise e ->
      powerquery fuel ep args E st =
      (Some (Raise e),
       logged (query_count_request (urljoin (base_url (self st)) ep) h
                                   (query_body args)) (tick st))).
    { intros e Hc.
      rewrite (@powerquery_authenticated fuel ep args E st h Hauth Hh).
      cbv zeta. now rewrite Hc. }
    refine (conj Hr (conj _ (conj _ (conj _ _)))).
    + intros Ha. apply Hr. now rewrite Ha.
    + intros x Ha Hx. apply Hr. rewrite Ha. simpl. now rewrite Hx.
    + intros x j Ha Hx Hj. apply Hr. rewrite Ha. simpl. rewrite Hx.
      destruct j as [| | | | | |kv]; try reflexivity. now elim (Hj kv).
    + intros n Hc Hn.
      rewrite (@powerquery_authenticated (S fuel) ep args E st h Hauth Hh).
      cbv zeta. rewrite Hc.
      rewrite query_loop_stops;
        rewrite (@not_a_number_raises 0 n Hn); [reflexivity | discriminate].
  - intros ep expansions extensions query n r Hc Hn. subst r.
    rewrite (@fetch_items_authenticated (S fuel) ep expansions extensions
               query E st h Hauth Hh).
    cbv zeta. rewrite Hc.
    rewrite items_loop_stops;
      rewrite (@not_a_number_raises 0 n Hn); [reflexivity | discriminate].
Qed.

(** A whole run of [fetch_items] on a client with a current token. *)
Lemma fetch_items_run (fuel : nat) (resource_endpoint : string)
  (expansions extensions query : option string) (E : env) (st : state)
  (h : list (string * string)) :
  authenticated E st ->
  headers (self st) = Some h ->
  let endpoint_url := urljoin (base_url (self st)) resource_endpoint in
  let params := build_params expansions extensions query in
  let key_2 := resource_name resource_endpoint in
  let key_1 := (key_2 ++ "s")%string in
  let sent0 := List.length (sent (outside st)) in
  let counted :=
    count_of (server E sent0 (count_request endpoint_url h params)) in
  let n := match counted with Ok n => n | Raise _ => JInt 0 end in
  let answer i :=
    page_items key_1 key_2
      (server E (S sent0 + i) (page_request endpoint_url h params (1 + i))) in
  let out :=
    fetch_items fuel resource_endpoint expansions extensions query E st in
  exists m,
    (m <= fuel)%nat /\
    sent (outside (snd out)) =
      sent (outside st) ++
      count_request endpoint_url h params ::
      map (page_request endpoint_url h params) (seq 1 m) /\
    self (snd out) = self st /\
    ticks (outside (snd out)) = S (ticks (outside st)) /\
    stderr (outside (snd out)) =
      stderr (outside st) ++ diag_of DiagCount counted ++
      match m with
      | O => []
      | S m' => diag_of DiagItems (answer m')
      end /\
    (fst out = None -> m = fuel) /\
    (forall e, fst out = Some (Raise e) -> e = TypeError /\ not_a_number n) /\
    (forall data, fst out = Some (Ok data) ->
       data = [] \/
       count_reached data n /\
       data = concat (map (fun i => items_of (answer i)) (seq 0 m)) /\
       forall i, (i < m)%nat -> exists l, answer i = Ok l).
Proof.
  intros Hauth Hh endpoint_url params key_2 key_1 sent0 counted n answer out.
  subst out.
  rewrite (@fetch_items_authenticated fuel resource_endpoint expansions
             extensions query E st h Hauth Hh).
  cbv zeta. fold endpoint_url. fold params. fold key_2. fold key_1.
  fold sent0. fold counted.
  assert (Hloop : forall st1,
            headers (self st1) = Some h ->
            sent (outside st1) =
              sent (outside st) ++ [count_request endpoint_url h params] ->
            let out := while_loop fuel
                         (fetch_items_body endpoint_url key_1 key_2 n)
                         (mkItems params [] 1%nat) E st1 in
            exists m,
              (m <= fuel)%nat /\
              sent (outside (snd out)) =
                sent (outside st) ++
                count_request endpoint_url h params ::
                map (page_request endpoint_url h params) (seq 1 m) /\
              self (snd out) = self st1 /\
              ticks (outside (snd out)) = ticks (outside st1) /\
              stderr (outside (snd out)) =
                stderr (outside st1) ++
                match m with
                | O => []
                | S m' => diag_of DiagItems (answer m')
                end /\
              (fst out = None -> m = fuel) /\
              (forall e, fst out = Some (Raise e) ->
                 e = TypeError /\ not_a_number n) /\
              (forall data, fst out = Some (Ok data) ->
                 data = [] \/
                 count_reached data n /\
                 data = concat (map (fun i => items_of (answer i))
                                    (seq 0 m)) /\
                 forall i, (i < m)%nat -> exists l, answer i = Ok l)).
  { intros st1 H1 Hs1 out.
    destruct (@items_loop_spec endpoint_url key_1 key_2 n h params E fuel st1
                H1)
      as (m & Hm & Hs & Hself & Ht & Herr & Hn & He & Hd).
    exists m. rewrite Hs1, length_app in *. simpl List.length in *.
    rewrite Nat.add_1_r in *.
    refine (conj Hm (conj _ (conj Hself (conj Ht (conj Herr
              (conj Hn (conj He Hd))))))).
    subst out. rewrite Hs, <- app_assoc. reflexivity. }
  subst n. destruct counted as [n|e].
  - destruct (Hloop (logged (count_request endpoint_url h params) (tick st))
                Hh eq_refl)
      as (m & Hm & Hs & Hself & Ht & Herr & Hn & He & Hd).
    exists m.
    refine (conj Hm (conj Hs (conj Hself (conj Ht (conj Herr
              (conj Hn (conj He Hd))))))).
  - destruct (Hloop (warned (DiagCount e)
                       (logged (count_request endpoint_url h params) (tick st)))
                Hh eq_refl)
      as (m & Hm & Hs & Hself & Ht & Herr & Hn & He & Hd).
    exists m.
    refine (conj Hm (conj Hs (conj Hself (conj Ht (conj _
              (conj Hn (conj He Hd))))))).
    rewrite Herr. simpl. now rewrite <- app_assoc.
Qed.

(** A whole run of [powerquery] on a client with a current token. *)
Lemma powerquery_run (fuel : nat) (powerquery_endpoint : string)
  (args : option json) (E : env) (st : state) (h : list (string * string)) :
  authenticated E st ->
  headers (self st) = Some h ->
  let powerquery_url := urljoin (base_url (self st)) powerquery_endpoint in
  let body := query_body args in
  let sent0 := List.length (sent (outside st)) in
  let counted :=
    query_count_of (server E sent0 (query_count_request powerquery_url h body)) in
  let request k := query_page_request powerquery_url h body (Z.of_nat k) in
  let answer i := server E (S sent0 + i) (request (1 + i)%nat) in
  let out := powerquery fuel powerquery_endpoint args E st in
  exists m,
    (m <= fuel)%nat /\
    sent (outside (snd out)) =
      sent (outside st) ++
      query_count_request powerquery_url h body :: map request (seq 1 m) /\
    self (snd out) = self st /\
    ticks (outside (snd out)) = S (ticks (outside st)) /\
    stderr (outside (snd out)) =
      stderr (outside st) ++
      match m with
      | O => []
      | S m' =>
          diag_of (query_failure_diag (answer m'))
                  (query_page_items (answer m'))
      end /\
    (fst out = None -> m = fuel) /\
    (forall e, fst out = Some (Raise e) ->
       counted = Raise e \/
       exists n, counted = Ok n /\ e = TypeError /\ not_a_number n) /\
    (forall data, fst out = Some (Ok data) ->
       exists n,
         counted = Ok n /\
         (data = [] \/
          count_reached data n /\
          data = concat (map (fun i => items_of (query_page_items (answer i)))
                             (seq 0 m)) /\
          forall i, (i < m)%nat ->
                    exists l, query_page_items (answer i) = Ok l)).
Proof.
  intros Hauth Hh powerquery_url body sent0 counted request answer out.
  subst out.
  rewrite (@powerquery_authenticated fuel powerquery_endpoint args E st h
             Hauth Hh).
  cbv zeta. fold powerquery_url. fold body. fold sent0. fold counted.
  destruct counted as [n|e].
  - destruct (@query_loop_spec powerquery_url body n h E fuel
                (logged (query_count_request powerquery_url h body) (tick st))
                Hh)
      as (m & Hm & Hs & Hself & Ht & Herr & Hn & He & Hd).
    exists m. simpl sent in *. rewrite length_app in *.
    simpl List.length in *.
    rewrite Nat.add_1_r in *.
    refine (conj Hm (conj _ (conj Hself (conj Ht (conj Herr
              (conj Hn (conj _ _))))))).
    + rewrite Hs, <- app_assoc. reflexivity.
    + intros e H. right. exists n. split; [reflexivity | now apply He].
    + intros data H. exists n. split; [reflexivity | now apply Hd].
  - exists O. simpl. rewrite app_nil_r.
    refine (conj _ (conj _ (conj _ (conj _ (conj _ (conj _ (conj _ _)))))));
      try reflexivity; try discriminate.
    + lia.
    + intros e' H. injection H as <-. now left.
Qed.

(** X10.  The requests of a paged retrieval, whatever the server answers.
    On a client with a current token, a run of [fetch_items] cut off after
    any number of passes has sent the count request and then the page
    requests numbered [1, 2, ..., m] in that order, all with the headers
    and the parameters of the count request, and nothing else; [m] is the
    number of passes allowed if the loop is still going.  A run of
    [powerquery] has sent its count request and the page requests
    [1, ..., m] with the same headers and body.  Neither reads the clock
    again after the token check at the start, and neither changes the
    object: no token is fetched in the middle of a retrieval. *)
Theorem pages_requested_in_order (fuel : nat) (E : env) (st : state)
  (h : list (string * string)) :
  authenticated E st ->
  headers (self st) = Some h ->
  (forall resource_endpoint expansions extensions query,
     let endpoint_url := urljoin (base_url (self st)) resource_endpoint in
     let params := build_params expansions extensions query in
     let out :=
       fetch_items fuel resource_endpoint expansions extensions query E st in
     exists m,
       (m <= fuel)%nat /\
       (fst out = None -> m = fuel) /\
       sent (outside (snd out)) =
         sent (outside st) ++
         count_request endpoint_url h params ::
         map (page_request endpoint_url h params) (seq 1 m) /\
       self (snd out) = self st /\
       ticks (outside (snd out)) = S (ticks (outside st))) /\
  (forall powerquery_endpoint args,
     let powerquery_url := urljoin (base_url (self st)) powerquery_endpoint in
     let body := query_body args in
     let out := powerquery fuel powerquery_endpoint args E st in
     exists m,
       (m <= fuel)%nat /\
       (fst out = None -> m = fuel) /\
       sent (outside (snd out)) =
         sent (outside st) ++
         query_count_request powerquery_url h body ::
         map (fun k => query_page_request powerquery_url h body (Z.of_nat k))
             (seq 1 m) /\
       self (snd out) = self st /\
       ticks (outside (snd out)) = S (ticks (outside st))).
Proof.
  intros Hauth Hh. split.
  - intros ep expansions extensions query endpoint_url params out.
    destruct (@fetch_items_run fuel ep expansions extensions query E st h
                Hauth Hh)
      as (m & Hm & Hs & Hself & Ht & _ & Hn & _).
    exists m. exact (conj Hm (conj Hn (conj Hs (conj Hself Ht)))).
  - intros ep args powerquery_url body out.
    destruct (@powerquery_run fuel ep args E st h Hauth Hh)
      as (m & Hm & Hs & Hself & Ht & _ & Hn & _).
    exists m. exact (conj Hm (conj Hn (conj Hs (conj Hself Ht)))).
Qed.

Lemma pages_sent (l0 : list request) (r0 : request) (f : nat -> request)
  (m : nat) :
  (List.length (l0 ++ r0 :: map f (seq 1 m)) - S (List.length l0))%nat = m.
Proof. rewrite length_app. simpl. rewrite length_map, length_seq. lia. Qed.

(** X11.  What a paged retrieval returns, whatever the server answers.  On
    a client with a current token, a list returned by [fetch_items] is
    either empty or complete: it has reached the count, every page
    requested was usable, and the list is what those pages held, page after
    page in the order requested, with nothing dropped, repeated or
    reordered.  The same holds for [powerquery].  Past the count step the
    only exception either can raise is the [TypeError] of a count that is
    not a number. *)
Theorem paged_result_is_all_or_nothing (fuel : nat) (E : env) (st : state)
  (h : list (string * string)) :
  authenticated E st ->
  headers (self st) = Some h ->
  (forall resource_endpoint expansions extensions query,
     let endpoint_url := urljoin (base_url (self st)) resource_endpoint in
     let params := build_params expansions extensions query in
     let key_2 := resource_name resource_endpoint in
     let key_1 := (key_2 ++ "s")%string in
     let sent0 := List.length (sent (outside st)) in
     let n :=
       match count_of (server E sent0 (count_request endpoint_url h params))
       with
       | Ok n => n
       | Raise _ => JInt 0
       end in
     let answer i :=
       page_items key_1 key_2
         (server E (S sent0 + i) (page_request endpoint_url h params (1 + i)))
     in
     let out :=
       fetch_items fuel resource_endpoint expansions extensions query E st in
     let pages := (List.length (sent (outside (snd out))) - S sent0)%nat in
     (forall data, fst out = Some (Ok data) ->
        data = [] \/
        count_reached data n /\
        data = concat (map (fun i => items_of (answer i)) (seq 0 pages)) /\
        forall i, (i < pages)%nat -> exists l, answer i = Ok l) /\
     (forall e, fst out = Some (Raise e) ->
        e = TypeError /\ not_a_number n)) /\
  (forall powerquery_endpoint args,
     let powerquery_url := urljoin (base_url (self st)) powerquery_endpoint in
     let body := query_body args in
     let sent0 := List.length (sent (outside st)) in
     let counted :=
       query_count_of
         (server E sent0 (query_count_request powerquery_url h body)) in
     let answer i :=
       query_page_items
         (server E (S sent0 + i)
            (query_page_request powerquery_url h body (Z.of_nat (1 + i)))) in
     let out := powerquery fuel powerquery_endpoint args E st in
     let pages := (List.length (sent (outside (snd out))) - S sent0)%nat in
     (forall data, fst out = Some (Ok data) ->
        exists n,
          counted = Ok n /\
          (data = [] \/
           count_reached data n /\
           data = concat (map (fun i => items_of (answer i)) (seq 0 pages)) /\
           forall i, (i < pages)%nat -> exists l, answer i = Ok l)) /\
     (forall e, fst out = Some (Raise e) ->
        counted = Raise e \/
        exists n, counted = Ok n /\ e = TypeError /\ not_a_number n)).
Proof.
  intros Hauth Hh. split.
  - intros ep expansions extensions query endpoint_url params key_2 key_1
           sent0 n answer out pages.
    destruct (@fetch_items_run fuel ep expansions extensions query E st h
                Hauth Hh)
      as (m & _ & Hs & _ & _ & _ & _ & He & Hd).
    assert (Hp : pages = m).
    { unfold pages, out. rewrite Hs. apply pages_sent. }
    rewrite Hp. split; [exact Hd | exact He].
  - intros ep args powerquery_url body sent0 counted answer out pages.
    destruct (@powerquery_run fuel ep args E st h Hauth Hh)
      as (m & _ & Hs & _ & _ & _ & _ & He & Hd).
    assert (Hp : pages = m).
    { unfold pages, out. rewrite Hs. apply pages_sent. }
    rewrite Hp. split; [exact Hd | exact He].
Qed.

(** X12.  What a paged retrieval writes to [stderr].  On a client with a
    current token, a run of [fetch_items] writes one line when the count
    request failed and one line when the last page it requested was
    unusable, and nothing else; a run of [powerquery] writes one line when
    the last page it requested was unusable, and nothing else.  For
    [powerquery] the line tells three failures apart: an answer that is an
    object without [record] whose [message] is ["Validation Failed"] is
    reported with that message and its [errors]; any other object without
    [record] is reported with its [message] ([None] when it has none); any
    other failure is reported with its exception. *)
Theorem paged_diagnostics (fuel : nat) (E : env) (st : state)
  (h : list (string * string)) :
  authenticated E st ->
  headers (self st) = Some h ->
  (forall resource_endpoint expansions extensions query,
     let endpoint_url := urljoin (base_url (self st)) resource_endpoint in
     let params := build_params expansions extensions query in
     let key_2 := resource_name resource_endpoint in
     let key_1 := (key_2 ++ "s")%string in
     let sent0 := List.length (sent (outside st)) in
     let answer i :=
       page_items key_1 key_2
         (server E (S sent0 + i) (page_request endpoint_url h params (1 + i)))
     in
     let out :=
       fetch_items fuel resource_endpoint expansions extensions query E st in
     stderr (outside (snd out)) =
       stderr (outside st) ++
       diag_of DiagCount
         (count_of (server E sent0 (count_request endpoint_url h params))) ++
       match (List.length (sent (outside (snd out))) - S sent0)%nat with
       | O => []
       | S k => diag_of DiagItems (answer k)
       end) /\
  (forall powerquery_endpoint args,
     let powerquery_url := urljoin (base_url (self st)) powerquery_endpoint in
     let body := query_body args in
     let sent0 := List.length (sent (outside st)) in
     let answer i :=
       server E (S sent0 + i)
         (query_page_request powerquery_url h body (Z.of_nat (1 + i))) in
     let out := powerquery fuel powerquery_endpoint args E st in
     stderr (outside (snd out)) =
       stderr (outside st) ++
       match (List.length (sent (outside (snd out))) - S sent0)%nat with
       | O => []
       | S k =>
           diag_of (query_failure_diag (answer k))
                   (query_page_items (answer k))
       end) /\
  (forall x kv,
     content x = Some (JObj kv) ->
     dict_get "record" kv = None ->
     let message := match dict_get "message" kv with
                    | Some m => m
                    | None => JNull
                    end in
     let errors := match dict_get "errors" kv with
                   | Some v => v
                   | None => JNull
                   end in
     query_page_items (Responds x) = Raise KeyError /\
     (message = JStr "Validation Failed" ->
      query_failure_diag (Responds x) KeyError =
      DiagValidation message errors) /\
     (message <> JStr "Validation Failed" ->
      query_failure_diag (Responds x) KeyError = DiagMessage message)) /\
  (forall a e,
     query_page_items a = Raise e -> e <> KeyError ->
     query_failure_diag a e = DiagPowerQuery e).
Proof.
  intros Hauth Hh. refine (conj _ (conj _ (conj _ _))).
  - intros ep expansions extensions query endpoint_url params key_2 key_1
           sent0 answer out.
    destruct (@fetch_items_run fuel ep expansions extensions query E st h
                Hauth Hh)
      as (m & _ & Hs & _ & _ & Herr & _).
    fold out in Hs, Herr. rewrite Hs, pages_sent. exact Herr.
  - intros ep args powerquery_url body sent0 answer out.
    destruct (@powerquery_run fuel ep args E st h Hauth Hh)
      as (m & _ & Hs & _ & _ & Herr & _).
    fold out in Hs, Herr. rewrite Hs, pages_sent. exact Herr.
  - intros [c] kv Hx Hr message errors. simpl in Hx. subst c.
    refine (conj _ (conj _ _)).
    + simpl. now rewrite Hr.
    + intros Hm. unfold query_failure_diag. fold message. fold errors.
      rewrite Hm. reflexivity.
    + intros Hm. unfold query_failure_diag. fold message.
      destruct message as [| | | |s| |]; try reflexivity.
      simpl. destruct (String.eqb_spec s "Validation Failed") as [->|Hne];
        [now elim Hm | reflexivity].
  - intros a e _ He. destruct e; try reflexivity. now elim He.
Qed.

(* ================================================================== *)
(** ** [powerquery] against a simulated PowerQuery *)

Section PagedQuery.

Variables (powerquery_url body : string).
Variable records : list json.
Variable p : nat.
Variable E : env.
Variable h : list (string * string).
Hypothesis page_size : (0 < p)%nat.
Hypothesis simulated : server E = paged_query_server powerquery_url records p.

Lemma paged_query_loop (rem : nat) :
  forall (k fuel : nat) (st : state),
    headers (self st) = Some h ->
    ceil_div (List.length records - k * p) p = rem ->
    (rem < fuel)%nat ->
    while_loop fuel
      (powerquery_body powerquery_url body
         (JInt (Z.of_nat (List.length records))))
      (mkQuery (firstn (k * p) records) (Z.of_nat (S k))) E st =
    (Some (Ok records),
     logged_all
       (map (fun i => query_page_request powerquery_url h body (Z.of_nat i))
            (seq (S k) rem)) st).
Proof.
  induction rem as [|rem IH]; intros k fuel st Hh Hrem Hfuel;
    (destruct fuel as [|fuel]; [lia|]); simpl while_loop;
    rewrite (@powerquery_body_step _ _ _ _ _ _ h Hh);
    cbn [pv_data pv_page]; unfold py_len_lt; rewrite length_firstn.
  - apply ceil_div_zero in Hrem; [|assumption].
    destruct (Z.ltb_spec (Z.of_nat (Nat.min (k * p) (List.length records)))
                (Z.of_nat (List.length records))) as [Hlt|_]; [lia|].
    rewrite firstn_all2 by lia. reflexivity.
  - assert (Hm : (0 < List.length records - k * p)%nat).
    { destruct (List.length records - k * p)%nat eqn:Hz; [|lia].
      unfold ceil_div in Hrem. simpl in Hrem.
      rewrite Nat.div_small in Hrem by lia. discriminate. }
    destruct (Z.ltb_spec (Z.of_nat (Nat.min (k * p) (List.length records)))
                (Z.of_nat (List.length records))) as [_|Hge]; [|lia].
    cbv zeta. rewrite simulated. unfold paged_query_server at 1.
    unfold query_page_request at 1 2. cbn [url req_params dict_get].
    rewrite String.eqb_refl. cbn [String.eqb Ascii.eqb Bool.eqb].
    cbv iota. unfold query_page_items. cbn [content py_getitem dict_get].
    cbn [String.eqb Ascii.eqb Bool.eqb]. cbv iota. cbn [py_iter].
    change (Z.pos (Pos.of_succ_nat k)) with (Z.of_nat (S k)).
    rewrite Nat2Z.id. unfold page_slice.
    replace (S k - 1)%nat with k by lia.
    rewrite firstn_more.
    replace (k * p + p)%nat with (S k * p)%nat by lia.
    replace (Z.of_nat (S k) + 1)%Z with (Z.of_nat (S (S k))) by lia.
    rewrite (IH (S k) fuel); try lia.
    + reflexivity.
    + exact Hh.
    + rewrite (ceil_div_step page_size Hm) in Hrem.
      injection Hrem as <-. f_equal. lia.
Qed.

End PagedQuery.

(** X13.  Completeness of [powerquery].  Against a simulated PowerQuery
    that holds [N] records and serves them [p] to a page under [record]
    (and declares [N] at its count endpoint), [powerquery], called on a
    client with a current token and with enough passes allowed, returns
    exactly the [N] records in their order; it has posted the body to the
    count endpoint and then to the pages numbered [1, 2, ..., ceil(N/p)],
    in that order, and nothing else. *)
Theorem powerquery_completeness (powerquery_endpoint : string)
  (args : option json) (records : list json) (p : nat) (E : env) (st : state)
  (fuel : nat) :
  let powerquery_url := urljoin (base_url (self st)) powerquery_endpoint in
  let body := query_body args in
  let pages := ceil_div (List.length records) p in
  (0 < p)%nat ->
  server E = paged_query_server powerquery_url records p ->
  authenticated E st ->
  (pages < fuel)%nat ->
  exists h,
    headers (self st) = Some h /\
    powerquery fuel powerquery_endpoint args E st =
    (Some (Ok records),
     logged_all
       (query_count_request powerquery_url h body ::
        map (fun i => query_page_request powerquery_url h body (Z.of_nat i))
            (seq 1 pages))
       (tick st)).
Proof.
  intros powerquery_url body pages Hp Hsim Hauth Hfuel.
  destruct (headers (self st)) as [h|] eqn:Hh;
    [|destruct Hauth as [Hn _]; now elim Hn].
  exists h. split; [reflexivity|].
  rewrite (@powerquery_authenticated fuel powerquery_endpoint args E st h
             Hauth Hh).
  cbv zeta. fold powerquery_url. fold body.
  rewrite Hsim. unfold paged_query_server at 1.
  unfold query_count_request at 1. cbn [url].
  rewrite count_url_is_not_endpoint, String.eqb_refl.
  cbn [query_count_of content py_get dict_get].
  cbn [String.eqb Ascii.eqb Bool.eqb]. cbv iota.
  rewrite (@paged_query_loop powerquery_url body records p E h Hp Hsim
             pages 0 fuel); try reflexivity; try assumption.
  simpl. now rewrite Nat.sub_0_r.
Qed.


(* ================================================================== *)
(** ** The paging endpoints against a simulated resource *)

Lemma fetch_items_paged (prefix name : string) (bare : bool)
  (records : list (list (string * json))) (p : nat) (E : env) (st : state)
  (expansions extensions query : option string) (fuel : nat) :
  let endpoint_url :=
    urljoin (base_url (self st)) (prefix ++ String slash name) in
  (0 < p)%nat ->
  contains slash name = false ->
  server E = paged_server endpoint_url name bare records p ->
  authenticated E st ->
  (ceil_div (List.length records) p < fuel)%nat ->
  retrieved_all st endpoint_url (build_params expansions extensions query)
    records p
    (fetch_items fuel (prefix ++ String slash name) expansions extensions
                 query E st).
Proof.
  intros endpoint_url Hp Hname Hsim Hauth Hfuel.
  destruct (headers (self st)) as [h|] eqn:Hh;
    [|destruct Hauth as [Hn _]; now elim Hn].
  exists h. split; [exact Hh|].
  rewrite (@fetch_items_authenticated fuel (prefix ++ String slash name)
             expansions extensions query E st h Hauth Hh).
  cbv zeta. fold endpoint_url.
  rewrite Hsim. unfold paged_server at 1.
  unfold count_request at 1. simpl meth. simpl url.
  rewrite count_url_is_not_endpoint, String.eqb_refl.
  simpl count_of.
  rewrite (@resource_name_last_segment prefix name Hname).
  rewrite (@paged_loop endpoint_url name bare records p E h
             (build_params expansions extensions query) Hp Hsim
             (ceil_div (List.length records) p) 0 fuel
             (build_params expansions extensions query));
    try reflexivity; try assumption.
  simpl. now rewrite Nat.sub_0_r.
Qed.

(** X15.  The six paging endpoints, end to end.  Called on a client with a
    current token against a simulated resource at their URL, named by the
    last segment of that URL ([course], [school], [section], [staff],
    [student]), each returns all the records, whether a page of one record
    carries it bare or in an array, after the count request and the page
    requests [1, ..., ceil(N/p)].  The parameters sent are [expansions] and
    [q] for the arguments the method has, when they are non-empty. *)
Theorem paged_endpoints_complete (bare : bool)
  (records : list (list (string * json))) (p fuel : nat) (E : env)
  (st : state) (school_id : Z) (with_expansions query : option string) :
  let url_of endpoint := urljoin (base_url (self st)) endpoint in
  let school := ("ws/v1/school/" ++ str_of_int school_id)%string in
  let simulates endpoint name :=
    server E = paged_server (url_of endpoint) name bare records p in
  (0 < p)%nat ->
  authenticated E st ->
  (ceil_div (List.length records) p < fuel)%nat ->
  (simulates (school ++ "/course")%string "course"%string ->
   retrieved_all st (url_of (school ++ "/course")%string) [] records p
     (courses_for_school fuel school_id E st)) /\
  (simulates "ws/v1/district/school"%string "school"%string ->
   retrieved_all st (url_of "ws/v1/district/school"%string)
     (build_params with_expansions None None) records p
     (schools_in_district fuel with_expansions E st)) /\
  (simulates (school ++ "/section")%string "section"%string ->
   retrieved_all st (url_of (school ++ "/section")%string)
     (build_params with_expansions None query) records p
     (sections_for_school fuel school_id with_expansions query E st)) /\
  (simulates (school ++ "/staff")%string "staff"%string ->
   retrieved_all st (url_of (school ++ "/staff")%string)
     (build_params with_expansions None None) records p
     (staff_for_school fuel school_id with_expansions E st)) /\
  (simulates (school ++ "/student")%string "student"%string ->
   retrieved_all st (url_of (school ++ "/student")%string)
     (build_params with_expansions None query) records p
     (students_for_school fuel school_id with_expansions query E st)) /\
  (simulates "ws/v1/district/student"%string "student"%string ->
   retrieved_all st (url_of "ws/v1/district/student"%string)
     (build_params with_expansions None query) records p
     (students_in_district fuel with_expansions query E st)).
Proof.
  intros url_of school simulates Hp Hauth Hfuel.
  subst simulates url_of school.
  refine (conj _ (conj _ (conj _ (conj _ (conj _ _))))); intros Hsim.
  - exact (@fetch_items_paged ("ws/v1/school/" ++ str_of_int school_id)
             "course" bare records p E st None None None fuel
             Hp eq_refl Hsim Hauth Hfuel).
  - exact (@fetch_items_paged "ws/v1/district"
             "school" bare records p E st with_expansions None None fuel
             Hp eq_refl Hsim Hauth Hfuel).
  - exact (@fetch_items_paged ("ws/v1/school/" ++ str_of_int school_id)
             "section" bare records p E st with_expansions None query fuel
             Hp eq_refl Hsim Hauth Hfuel).
  - exact (@fetch_items_paged ("ws/v1/school/" ++ str_of_int school_id)
             "staff" bare records p E st with_expansions None None fuel
             Hp eq_refl Hsim Hauth Hfuel).
  - exact (@fetch_items_paged ("ws/v1/school/" ++ str_of_int school_id)
             "student" bare records p E st with_expansions None query fuel
             Hp eq_refl Hsim Hauth Hfuel).
  - exact (@fetch_items_paged "ws/v1/district"
             "student" bare records p E st with_expansions None query fuel
             Hp eq_refl Hsim Hauth Hfuel).
Qed.

(* ================================================================== *)
(** ** The first construction *)

Lemma Client_on_instance (url id secret : string) (E : env) (p : process)
  (ref : nat) (obj : client) :
  cls_instance p = Some ref ->
  nth_error (heap p) ref = Some obj ->
  let out := __init__ url id secret E (mkState obj (surroundings p)) in
  Client url id secret E p =
  Some (Ok ref,
        mkProcess (store ref (self (snd out)) (heap p)) (Some ref)
                  (outside (snd out))).
Proof.
  intros Hcls Hobj out. unfold Client, __new__. rewrite Hcls.
  unfold call. rewrite Hobj.
  pose proof (init_spec url id secret E (mkState obj (surroundings p)))
    as (Hok & _).
  fold out in Hok. subst out.
  destruct (__init__ url id secret E (mkState obj (surroundings p)))
    as [r st1]. simpl in Hok. subst r. simpl. now rewrite Hcls.
Qed.

(** X16.  The first construction.  While the class has no instance yet,
    [Client(url, client_id, client_secret)] allocates exactly one new
    object, makes it the instance and initializes it: the objects already
    in the heap are not touched, the new object holds the three
    credentials, and it has headers exactly when the token manager handed
    out a bearer string; when the token could not be fetched the
    construction still returns the object, without headers, and raises
    nothing.  Every later construction returns that same object and
    allocates nothing. *)
Theorem first_construction (url id secret : string) (E : env) (p : process) :
  cls_instance p = None ->
  let ref := List.length (heap p) in
  let st0 := mkState (mkClient url id secret None None) (surroundings p) in
  exists p' obj',
    Client url id secret E p = Some (Ok ref, p') /\
    cls_instance p' = Some ref /\
    heap p' = heap p ++ [obj'] /\
    base_url obj' = url /\
    client_id obj' = id /\
    client_secret obj' = secret /\
    match fst (_access_token E st0) with
    | Ok tok => headers obj' = Some (fresh_headers tok)
    | Raise e => headers obj' = None
    end /\
    (forall url2 id2 secret2 E2,
       exists p'',
         Client url2 id2 secret2 E2 p' = Some (Ok ref, p'') /\
         cls_instance p'' = Some ref /\
         List.length (heap p'') = List.length (heap p')).
Proof.
  intros Hcls ref st0.
  pose proof (init_spec url id secret E (mkState blank (surroundings p)))
    as (Hok & Hb & Hi & Hs & Hh).
  simpl in Hh. fold st0 in Hh.
  assert (Hstore : forall (x : client),
            store ref x (heap p ++ [blank]) = heap p ++ [x]).
  { intros x. subst ref. induction (heap p) as [|y l IH]; simpl;
      [reflexivity | now rewrite IH]. }
  assert (Hnth : forall (x : client), nth_error (heap p ++ [x]) ref = Some x).
  { intros x. subst ref. rewrite nth_error_app2 by lia.
    now rewrite Nat.sub_diag. }
  assert (HC : Client url id secret E p =
               Some (Ok ref,
                     mkProcess
                       (heap p ++
                        [self (snd (__init__ url id secret E
                                      (mkState blank (surroundings p))))])
                       (Some ref)
                       (outside (snd (__init__ url id secret E
                                        (mkState blank (surroundings p))))))).
  { unfold Client, __new__. rewrite Hcls. fold ref. unfold call. cbn [heap].
    rewrite Hnth. cbn [surroundings cls_instance].
    destruct (__init__ url id secret E (mkState blank (surroundings p)))
      as [r st1]. simpl in Hok. subst r. simpl. now rewrite Hstore. }
  do 2 eexists. split; [exact HC|]. cbn [cls_instance heap].
  refine (conj eq_refl (conj eq_refl (conj Hb (conj Hi (conj Hs (conj Hh _)))))).
  intros url2 id2 secret2 E2. eexists. split.
  - apply Client_on_instance; [reflexivity | apply Hnth].
  - cbn [cls_instance heap]. split; [reflexivity | apply length_store].
Qed.

(* ================================================================== *)
(** ** A token check that renews the token *)

Lemma refresh_renews (E : env) (st : state) (h : list (string * string))
  (x : response) (body : list (string * json)) (s : string) (v : json)
  (seconds : Z) (expiration : datetime) :
  headers (self st) = Some h ->
  token_due E st ->
  server E (List.length (sent (outside st))) (token_request (self st))
    = Responds x ->
  content x = Some (JObj body) ->
  dict_get "error" body = None ->
  dict_get "access_token" body = Some (JStr s) ->
  dict_get "expires_in" body = Some v ->
  py_int v = Ok seconds ->
  add_seconds (clock E (issue_tick st)) seconds = Ok expiration ->
  refresh_if_expired E st =
  (Ok tt,
   renewed st h ("Bearer " ++ s) (mkToken body expiration)
           (token_request (self st))).
Proof.
  intros Hh Hdue Hx Hc Herr Htok Hv Hs Hadd.
  unfold token_request in Hx.
  unfold refresh_if_expired, bind at 1. rewrite expired_spec.
  unfold token_due in Hdue. unfold renewed, issue_tick in *.
  unfold _access_token, set_authorization, httpx_send. unfold_monad.
  destruct (access_token_response (self st)) as [t|] eqn:Ht.
  - destruct Hdue as [H1 H2]. apply Z.ltb_ge in H1, H2.
    rewrite H1. simpl. rewrite Ht.
    change (ticks (outside (tick st))) with (S (ticks (outside st))).
    rewrite H2. simpl. simpl in Hx. rewrite Hx. simpl.
    rewrite Hc. simpl. rewrite Herr. simpl. rewrite Hv. simpl.
    rewrite Hs. simpl. rewrite Hadd. simpl. rewrite Htok. simpl.
    rewrite Hh. reflexivity.
  - simpl. rewrite Ht. simpl. simpl in Hx. rewrite Hx. simpl.
    rewrite Hc. simpl. rewrite Herr. simpl. rewrite Hv. simpl.
    rewrite Hs. simpl. rewrite Hadd. simpl. rewrite Htok. simpl.
    rewrite Hh. reflexivity.
Qed.

(** X17.  A renewed token is the one used.  On a client that holds headers
    and whose token is absent or has expired, when the token endpoint
    grants a token [s] for [seconds] seconds, the token check at the start
    of a request method sends the token request, stores the answer with
    the expiration "time of issue plus [seconds]" and puts ["Bearer s"]
    under [Authorization], leaving every other header as it was.  The
    request that [fetch_item] or [resource_count] then sends is the second
    one in the log and carries these renewed headers. *)
Theorem renewed_token_is_used (E : env) (st : state)
  (h : list (string * string)) (x : response) (body : list (string * json))
  (s : string) (v : json) (seconds : Z) (expiration : datetime) :
  headers (self st) = Some h ->
  token_due E st ->
  server E (List.length (sent (outside st))) (token_request (self st))
    = Responds x ->
  content x = Some (JObj body) ->
  dict_get "error" body = None ->
  dict_get "access_token" body = Some (JStr s) ->
  dict_get "expires_in" body = Some v ->
  py_int v = Ok seconds ->
  add_seconds (clock E (issue_tick st)) seconds = Ok expiration ->
  let h' := dict_set "Authorization" ("Bearer " ++ s)%string h in
  let st1 := renewed st h ("Bearer " ++ s) (mkToken body expiration)
                     (token_request (self st)) in
  let sent1 := S (List.length (sent (outside st))) in
  refresh_if_expired E st = (Ok tt, st1) /\
  dict_get "Authorization" h' = Some ("Bearer " ++ s)%string /\
  same_other_headers h h' /\
  (forall resource_endpoint expansions extensions query,
     let r := item_request (urljoin (base_url (self st)) resource_endpoint) h'
                           (build_params expansions extensions query) in
     fetch_item resource_endpoint expansions extensions query E st =
     (match server E sent1 r with
      | Responds y => Ok (VResponse y)
      | Fails => Raise RequestError
      end, logged r st1)) /\
  (forall resource_url params,
     let r := count_request resource_url h' params in
     resource_count resource_url params E st =
     match count_of (server E sent1 r) with
     | Ok n => (Ok n, logged r st1)
     | Raise e => (Ok (JInt 0), warned (DiagCount e) (logged r st1))
     end).
Proof.
  intros Hh Hdue Hx Hc Herr Htok Hv Hs Hadd h' st1 sent1.
  pose proof (@refresh_renews E st h x body s v seconds expiration
                Hh Hdue Hx Hc Herr Htok Hv Hs Hadd) as Hr.
  fold st1 in Hr.
  assert (Hl : List.length (sent (outside st1)) = sent1).
  { unfold st1, renewed, sent1. simpl. rewrite length_app. simpl. lia. }
  refine (conj Hr (conj _ (conj _ (conj _ _)))).
  - apply dict_get_set.
  - intros k Hk. now apply dict_get_set_other.
  - intros ep expansions extensions query r.
    rewrite (@fetch_item_after_check ep expansions extensions query E st st1
               Hr).
    change (headers (self st1)) with (Some h'). cbv iota beta zeta.
    fold r. rewrite Hl. now destruct (server E sent1 r).
  - intros resource_url params r.
    rewrite (@resource_count_after_check resource_url params E st st1 Hr).
    change (headers (self st1)) with (Some h'). cbv iota beta zeta.
    fold r. rewrite Hl. reflexivity.
Qed.

End Methods.

(* ================================================================== *)
(** ** The theorems at work on the sample runs *)

Local Abbreviation run_access_token :=
  (_access_token plain_b64encode plain_int_of_str plain_str_of_value).
Local Abbreviation run_fetch_item :=
  (fetch_item plain_urljoin plain_b64encode plain_int_of_str
              plain_str_of_value).
Local Abbreviation run_fetch_items :=
  (fetch_items plain_urljoin plain_b64encode plain_int_of_str
               plain_str_of_value).
Local Abbreviation run_fetch_metadata := (fetch_metadata plain_urljoin).
Local Abbreviation run_post_data :=
  (post_data plain_urljoin plain_b64encode plain_json_dumps plain_int_of_str
             plain_str_of_value).
Local Abbreviation run_powerquery :=
  (powerquery plain_urljoin plain_b64encode plain_json_dumps plain_int_of_str
              plain_str_of_value).
Local Abbreviation run_resource_count :=
  (resource_count plain_b64encode plain_int_of_str plain_str_of_value).
Local Abbreviation run_Client :=
  (Client plain_b64encode plain_int_of_str plain_str_of_value).

Lemma signed_in_authenticated (E : env) :
  clock E O = 0 -> authenticated E (at_rest signed_in).
Proof.
  intros H. split; [discriminate|].
  exists sample_token. split; [reflexivity|]. simpl. rewrite H. reflexivity.
Defined.

(** Five records in pages of two: three pages, all five records. *)
Lemma pagination_completeness_witness :
  run_fetch_items 4 "ws/v1/district/student" None None None paged_env
                  (at_rest signed_in) =
  (Some (Ok (map JObj sample_records)),
   logged_all
     (count_request sample_url (fresh_headers "Bearer abc") [] ::
      map (page_request sample_url (fresh_headers "Bearer abc") [])
          [1; 2; 3]%nat)
     (tick (at_rest signed_in))).
Proof.
  assert (Hp : (0 < 2)%nat) by lia.
  assert (Hfuel : (ceil_div (List.length sample_records) 2 < 4)%nat)
    by (vm_compute; lia).
  destruct (proj1 (@pagination_completeness plain_urljoin plain_b64encode
                     plain_int_of_str plain_str_of_value
                     "ws/v1/district" "student" false sample_records 2
                     paged_env (at_rest signed_in) None None None 4
                     Hp eq_refl eq_refl
                     (signed_in_authenticated paged_env eq_refl) Hfuel))
    as (h & Hh & Hrun & _).
  injection Hh as <-. exact Hrun.
Defined.

(** Page 2 of 3 fails, and the PowerQuery's second page is refused: both
    calls return the empty list, not the first page. *)
Lemma fail_fast_pagination_witness :
  fst (run_fetch_items 10 "ws/v1/district/student" None None None flaky_env
                       (at_rest signed_in)) = Some (Ok []) /\
  fst (run_powerquery 10 "ws/v1/query" None refusing_query_env
                      (at_rest signed_in)) = Some (Ok []).
Proof.
  split.
  - eapply (proj1 (@fail_fast_pagination plain_urljoin plain_b64encode
                     plain_json_dumps plain_int_of_str plain_str_of_value)
              10%nat "ws/v1/district/student" None None None flaky_env
              (at_rest signed_in) _ _ 2%nat
              (page_request sample_url (fresh_headers "Bearer abc") [] 2)).
    + apply surjective_pairing.
    + simpl. lia.
    + vm_compute. reflexivity.
    + reflexivity.
    + vm_compute. reflexivity.
  - eapply (proj2 (@fail_fast_pagination plain_urljoin plain_b64encode
                     plain_json_dumps plain_int_of_str plain_str_of_value)
              10%nat "ws/v1/query" None refusing_query_env
              (at_rest signed_in) _ _ 2%nat
              (mkRequest POST
                 (plain_urljoin "https://ps.example" "ws/v1/query")
                 (fresh_headers "Bearer abc") [("page", JInt 2)] (Some "{}"))).
    + apply surjective_pairing.
    + simpl. lia.
    + vm_compute. reflexivity.
    + reflexivity.
    + vm_compute. reflexivity.
Defined.



(** The simulated resource declares its five records. *)
Lemma count_soft_after_token_check_witness :
  run_resource_count sample_url [] paged_env (at_rest signed_in) =
  (Ok (JInt 5),
   logged (count_request sample_url (fresh_headers "Bearer abc") [])
          (tick (at_rest signed_in))).
Proof.
  apply (proj1 (proj2 (proj2 (@count_soft_after_token_check plain_b64encode
                  plain_int_of_str plain_str_of_value sample_url []
                  paged_env (at_rest signed_in))
                 (tick (at_rest signed_in)) eq_refl)
               (fresh_headers "Bearer abc") eq_refl)).
  unfold holds_count. simpl.
  do 3 eexists. repeat split; reflexivity.
Defined.

(** A thousand passes, and both loops are still going. *)
Lemma no_stagnation_guard_witness :
  fst (run_fetch_items 1000 "ws/v1/district/student" None None None
                       stalled_env (at_rest signed_in)) = None /\
  fst (run_powerquery 1000 "ws/v1/query" None stalled_query_env
                      (at_rest signed_in)) = None.
Proof.
  split.
  - apply (proj1 (@no_stagnation_guard plain_urljoin plain_b64encode
                    plain_json_dumps plain_int_of_str plain_str_of_value)).
    + apply signed_in_authenticated. reflexivity.
    + reflexivity.
  - apply (proj2 (@no_stagnation_guard plain_urljoin plain_b64encode
                    plain_json_dumps plain_int_of_str plain_str_of_value)).
    + apply signed_in_authenticated. reflexivity.
    + reflexivity.
Defined.

(** The value handed back for a course is the response object. *)
Lemma fetch_item_returns_response_witness :
  exists r,
    VResponse (mkResponse (Some (JObj [("course", JObj [("id", JInt 7)])])))
      = VResponse r /\
    forall j,
      VResponse (mkResponse (Some (JObj [("course", JObj [("id", JInt 7)])])))
        <> VJson j.
Proof.
  exact (@fetch_item_returns_response plain_urljoin plain_b64encode
           plain_int_of_str plain_str_of_value "ws/v1/course/7" None None None
           course_env (at_rest signed_in)
           (snd (run_fetch_item "ws/v1/course/7" None None None course_env
                                (at_rest signed_in)))
           _ eq_refl).
Defined.



(* ================================================================== *)
(** ** Where the wording goes further than the code *)


(** C7.  In the same situation [resource_count] raises as well, and
    returns no number. *)
Lemma resource_count_raises :
  fst (run_resource_count sample_url [] unreachable_env (at_rest signed_in))
  = Raise RequestError.
Proof. reflexivity. Qed.


(** C4 at work: two hours on, with the token an hour out of date,
    [fetch_metadata] sends its GET under the old bearer string and asks for
    no token, where [fetch_item] asks for one first. *)
Example stale_metadata_request :
  sent (outside (snd (run_fetch_metadata (granting_env 7200000000)
                                         (at_rest signed_in)))) =
    [mkRequest GET (plain_urljoin "https://ps.example" "ws/v1/metadata")
               (fresh_headers "Bearer abc") [] None] /\
  nth_error (sent (outside (snd (run_fetch_item "ws/v1/district" None None
                                   None (granting_env 7200000000)
                                   (at_rest signed_in))))) 0 =
    Some (token_request plain_b64encode signed_in).
Proof. split; reflexivity. Qed.

(** C3 at work: a construction and two requests inside the hour share one
    token request; the request made two hours on brings the second. *)
Example token_reuse_session :
  map meth
    (sent (outside (snd
       ((__init__ plain_b64encode plain_int_of_str plain_str_of_value
                  "https://ps.example" "id" "secret" ;;;
         run_fetch_item "ws/v1/district" None None None ;;;
         run_fetch_item "ws/v1/district" None None None ;;;
         run_fetch_item "ws/v1/district" None None None)
          session_env (at_rest blank)))))
  = [POST; GET; GET; POST; GET].
Proof. reflexivity. Qed.

(* ================================================================== *)
(** ** The further properties at work *)

Local Abbreviation run_course_for_dcid :=
  (course_for_dcid plain_urljoin plain_b64encode plain_int_of_str
                   plain_str_of_value).
Local Abbreviation run_students_in_district :=
  (students_in_district plain_urljoin plain_b64encode plain_int_of_str
                        plain_str_of_value).
Local Abbreviation run_refresh_if_expired :=
  (refresh_if_expired plain_b64encode plain_int_of_str plain_str_of_value).

(** One GET for a course, with the one parameter that was given. *)
Lemma fetch_item_one_request_witness :
  run_fetch_item "ws/v1/course/7" (Some "teachers") None (Some "") course_env
                 (at_rest signed_in) =
  (Ok (VResponse
         (mkResponse (Some (JObj [("course", JObj [("id", JInt 7)])])))),
   logged (item_request (plain_urljoin "https://ps.example" "ws/v1/course/7")
                        (fresh_headers "Bearer abc")
                        [("expansions", JStr "teachers")])
          (tick (at_rest signed_in))).
Proof.
  exact (proj1 (@fetch_item_one_request plain_urljoin plain_b64encode
                  plain_int_of_str plain_str_of_value "ws/v1/course/7"
                  (Some "teachers") None (Some "") course_env
                  (at_rest signed_in) (fresh_headers "Bearer abc")
                  (signed_in_authenticated course_env eq_refl) eq_refl)).
Defined.

(** Course 7, taken out of its envelope. *)
Lemma single_record_endpoints_witness :
  run_course_for_dcid 7 course_env (at_rest signed_in) =
  (Ok (JObj [("id", JInt 7)]),
   logged (item_request (plain_urljoin "https://ps.example" "ws/v1/course/7")
                        (fresh_headers "Bearer abc") [])
          (tick (at_rest signed_in))).
Proof.
  exact (proj1 (@single_record_endpoints plain_urljoin plain_b64encode
                  plain_int_of_str plain_str_of_value course_env
                  (at_rest signed_in) (fresh_headers "Bearer abc") 7 None
                  (signed_in_authenticated course_env eq_refl) eq_refl)).
Defined.

(** Refused credentials: the error is reported, then [KeyError]. *)
Lemma refused_token_raises_key_error_witness :
  run_access_token refusing_token_env (at_rest signed_out) =
  (Raise KeyError,
   tick (warned (DiagAuthError (JStr "invalid_client"))
                (logged (token_request plain_b64encode signed_out)
                        (at_rest signed_out)))).
Proof.
  exact (proj1 (@refused_token_raises_key_error plain_b64encode
                  plain_int_of_str plain_str_of_value refusing_token_env
                  (at_rest signed_out)
                  (mkResponse (Some (JObj [("error", JStr "invalid_client")])))
                  [("error", JStr "invalid_client")] (JStr "invalid_client")
                  eq_refl eq_refl eq_refl eq_refl eq_refl)).
Defined.

(** An answer without a token is stored all the same. *)
Lemma token_without_access_token_is_cached_witness :
  fst (run_access_token tokenless_env (at_rest signed_out)) = Raise KeyError /\
  access_token_response
    (self (snd (run_access_token tokenless_env (at_rest signed_out))))
  = Some (mkToken [("expires_in", JInt 3600)] 3600000000).
Proof.
  destruct (@token_without_access_token_is_cached plain_b64encode
              plain_int_of_str plain_str_of_value tokenless_env
              (at_rest signed_out)
              (mkResponse (Some (JObj [("expires_in", JInt 3600)])))
              [("expires_in", JInt 3600)] (JInt 3600) 3600 3600000000
              eq_refl eq_refl eq_refl eq_refl eq_refl eq_refl eq_refl)
    as (H1 & H2 & _).
  exact (conj H1 H2).
Defined.

(** Without headers [fetch_metadata] raises [AttributeError]. *)
Lemma no_headers_no_service_witness :
  fst (run_fetch_metadata unreachable_env (at_rest signed_out))
  = Raise AttributeError.
Proof.
  exact (proj1 (proj2 (@no_headers_no_service plain_urljoin plain_b64encode
                         plain_json_dumps plain_int_of_str plain_str_of_value
                         unreachable_env (at_rest signed_out) eq_refl))).
Defined.

(** No record: the count request and nothing more. *)
Lemma zero_count_short_circuit_witness :
  run_fetch_items 1 "ws/v1/district/student" None None None empty_env
                  (at_rest signed_in) =
  (Some (Ok []),
   logged (count_request sample_url (fresh_headers "Bearer abc") [])
          (tick (at_rest signed_in))).
Proof.
  exact (proj1 (proj1 (@zero_count_short_circuit plain_urljoin plain_b64encode
                         plain_json_dumps plain_int_of_str plain_str_of_value
                         0%nat empty_env (at_rest signed_in)
                         (fresh_headers "Bearer abc")
                         (signed_in_authenticated empty_env eq_refl) eq_refl)
                      "ws/v1/district/student" None None None)
               (JInt 0) eq_refl eq_refl).
Defined.

(** The count request of a PowerQuery fails: the caller gets the error. *)
Lemma count_step_errors_surface_witness :
  run_powerquery 5 "ws/v1/query" None offline_env (at_rest signed_in) =
  (Some (Raise RequestError),
   logged (query_count_request query_url (fresh_headers "Bearer abc") "{}")
          (tick (at_rest signed_in))).
Proof.
  exact (proj1 (proj2 (proj1 (@count_step_errors_surface plain_urljoin
                                plain_b64encode plain_json_dumps
                                plain_int_of_str plain_str_of_value
                                5%nat offline_env (at_rest signed_in)
                                (fresh_headers "Bearer abc")
                                (signed_in_authenticated offline_env eq_refl)
                                eq_refl)
                             "ws/v1/query" None))
               eq_refl).
Defined.

(** With page 2 failing, the requests are the count, page 1 and page 2. *)
Lemma pages_requested_in_order_witness :
  exists m,
    (m <= 10)%nat /\
    sent (outside (snd (run_fetch_items 10 "ws/v1/district/student" None None
                                        None flaky_env (at_rest signed_in)))) =
    [] ++ count_request sample_url (fresh_headers "Bearer abc") [] ::
          map (page_request sample_url (fresh_headers "Bearer abc") [])
              (seq 1 m).
Proof.
  destruct (proj1 (@pages_requested_in_order plain_urljoin plain_b64encode
                     plain_json_dumps plain_int_of_str plain_str_of_value
                     10%nat flaky_env (at_rest signed_in)
                     (fresh_headers "Bearer abc")
                     (signed_in_authenticated flaky_env eq_refl) eq_refl)
                  "ws/v1/district/student" None None None)
    as (m & Hm & _ & Hs & _).
  exists m. exact (conj Hm Hs).
Defined.

(** The five students returned have reached the count. *)
Lemma paged_result_is_all_or_nothing_witness :
  count_reached (map JObj sample_records) (JInt 5).
Proof.
  destruct (proj1 (proj1 (@paged_result_is_all_or_nothing plain_urljoin
                            plain_b64encode plain_json_dumps plain_int_of_str
                            plain_str_of_value 4%nat paged_env
                            (at_rest signed_in) (fresh_headers "Bearer abc")
                            (signed_in_authenticated paged_env eq_refl)
                            eq_refl)
                         "ws/v1/district/student" None None None)
                  (map JObj sample_records) eq_refl)
    as [H | [H _]]; [discriminate H | exact H].
Defined.

(** With page 2 failing, one line is written, for that page. *)
Lemma paged_diagnostics_witness :
  stderr (outside (snd (run_fetch_items 10 "ws/v1/district/student" None None
                                        None flaky_env (at_rest signed_in)))) =
  [] ++ [] ++ [DiagItems RequestError].
Proof.
  exact (proj1 (@paged_diagnostics plain_urljoin plain_b64encode
                  plain_json_dumps plain_int_of_str plain_str_of_value
                  10%nat flaky_env (at_rest signed_in)
                  (fresh_headers "Bearer abc")
                  (signed_in_authenticated flaky_env eq_refl) eq_refl)
               "ws/v1/district/student" None None None).
Defined.

(** Three records in pages of two: two pages, all three records. *)
Lemma powerquery_completeness_witness :
  run_powerquery 3 "ws/v1/query" None query_env (at_rest signed_in) =
  (Some (Ok [JInt 1; JInt 2; JInt 3]),
   logged_all
     (query_count_request query_url (fresh_headers "Bearer abc") "{}" ::
      map (fun i => query_page_request query_url (fresh_headers "Bearer abc")
                                       "{}" (Z.of_nat i))
          [1; 2]%nat)
     (tick (at_rest signed_in))).
Proof.
  assert (Hp : (0 < 2)%nat) by lia.
  assert (Hfuel : (ceil_div (List.length [JInt 1; JInt 2; JInt 3]) 2 < 3)%nat)
    by (vm_compute; lia).
  destruct (@powerquery_completeness plain_urljoin plain_b64encode
              plain_json_dumps plain_int_of_str plain_str_of_value
              "ws/v1/query" None [JInt 1; JInt 2; JInt 3] 2%nat query_env
              (at_rest signed_in) 3%nat Hp eq_refl
              (signed_in_authenticated query_env eq_refl) Hfuel)
    as (h & Hh & Hrun).
  injection Hh as <-. exact Hrun.
Defined.


(** All the students of the district, five in pages of two. *)
Lemma paged_endpoints_complete_witness :
  retrieved_all (at_rest signed_in) sample_url [] sample_records 2
    (run_students_in_district 4 None None paged_env (at_rest signed_in)).
Proof.
  assert (Hp : (0 < 2)%nat) by lia.
  assert (Hfuel : (ceil_div (List.length sample_records) 2 < 4)%nat)
    by (vm_compute; lia).
  exact (proj2 (proj2 (proj2 (proj2 (proj2
           (@paged_endpoints_complete plain_urljoin plain_b64encode
              plain_int_of_str plain_str_of_value false sample_records
              2%nat 4%nat paged_env (at_rest signed_in) 0 None None
              Hp (signed_in_authenticated paged_env eq_refl) Hfuel)))))
           eq_refl).
Defined.

(** The first client of a process: one object, with its headers. *)
Lemma first_construction_witness :
  exists p' obj',
    run_Client "https://ps.example" "id" "secret" (granting_env 0) idle
      = Some (Ok O, p') /\
    heap p' = [] ++ [obj'] /\
    headers obj' = Some (fresh_headers "Bearer abc").
Proof.
  destruct (@first_construction plain_b64encode plain_int_of_str
              plain_str_of_value "https://ps.example" "id" "secret"
              (granting_env 0) idle eq_refl)
    as (p' & obj' & Hrun & _ & Hheap & _ & _ & _ & Hh & _).
  exists p', obj'. exact (conj Hrun (conj Hheap Hh)).
Defined.

(** Two hours on, the token check fetches a token good for another hour. *)
Lemma renewed_token_is_used_witness :
  run_refresh_if_expired (granting_env 7200000000) (at_rest signed_in) =
  (Ok tt,
   renewed (at_rest signed_in) (fresh_headers "Bearer abc") "Bearer abc"
     (mkToken [("access_token", JStr "abc"); ("expires_in", JInt 3600)]
              10800000000)
     (token_request plain_b64encode signed_in)).
Proof.
  assert (Hdue : token_due (granting_env 7200000000) (at_rest signed_in))
    by (split; discriminate).
  exact (proj1 (@renewed_token_is_used plain_urljoin plain_b64encode
                  plain_int_of_str plain_str_of_value
                  (granting_env 7200000000) (at_rest signed_in)
                  (fresh_headers "Bearer abc")
                  (mkResponse (Some
                     (JObj [("access_token", JStr "abc");
                            ("expires_in", JInt 3600)])))
                  [("access_token", JStr "abc"); ("expires_in", JInt 3600)]
                  "abc" (JInt 3600) 3600 10800000000
                  eq_refl Hdue eq_refl eq_refl eq_refl eq_refl eq_refl eq_refl
                  eq_refl)).
Defined.
